(** * The build-server test double [server.py]

    A shallow embedding of
    [Sources/SKTestSupport/INPUTS/BuildServerBuildSystemTests.testBuildTargetSources/server.py]
    and of the parts of the Python runtime it calls: [str], [int],
    [sys.stdin], [sys.stdout], [json.loads] and [json.dumps] (CPython 3, the
    [json] module with its defaults and its strict scanner).

    - Python text ([str]) is a list of Unicode code points; bytes are
      integers in [0, 256).
    - [sys.stdin] is a text stream without newline translation (as on POSIX
      systems): the pending input is the UTF-8 decoding of the bytes the
      peer sent, and [readline] and [read] count characters.  Where the
      stream decodes with the error handler [surrogateescape] (the C
      locale), a byte that is no UTF-8 arrives as a lone low surrogate; the
      statements that need text free of surrogates say so ([scalar]).
    - The interpreter is a 64-bit build: the index type [Py_ssize_t] holds
      the integers from [- 2 ^ 63] to [2 ^ 63 - 1], and [read] raises
      OverflowError on a length outside it.
    - A JSON value is what [json.loads] builds, floats excepted: on a float
      literal the model answers [Unmodelled] and says nothing more.
    - Integers are unbounded, and the limit on the digits of a conversion
      between [int] and [str] (CPython 3.11 and later) is taken as switched
      off; the depth of recursion is not limited.
    - The Unicode tables [int] and [repr] consult are parameters
      ([PyRuntime]). *)

From Stdlib Require Import ZArith List Bool Lia String Ascii.
Import ListNotations.
Local Open Scope Z_scope.

(** ** Text and bytes *)

Abbreviation codepoint := Z (only parsing).
Abbreviation pystr := (list Z) (only parsing).
Abbreviation byte := Z (only parsing).

(** A string literal of the source, as code points. *)
Definition lit (s : string) : pystr :=
  map (fun a => Z.of_N (N_of_ascii a)) (list_ascii_of_string s).

Definition pystr_eqb (a b : pystr) : bool :=
  if list_eq_dec Z.eq_dec a b then true else false.

Definition len (s : pystr) : Z := Z.of_nat (List.length s).

Fixpoint startswith (s prefix : pystr) {struct prefix} : bool :=
  match prefix, s with
  | [], _ => true
  | p :: prefix', c :: s' => (c =? p) && startswith s' prefix'
  | _ :: _, [] => false
  end.

(** [sep.join(parts)] *)
Fixpoint join (sep : pystr) (parts : list pystr) : pystr :=
  match parts with
  | [] => []
  | [p] => p
  | p :: rest => p ++ sep ++ join sep rest
  end.

Definition is_digit (c : codepoint) : bool := (48 <=? c) && (c <=? 57).
Definition is_high_surrogate (c : codepoint) : bool := (0xD800 <=? c) && (c <=? 0xDBFF).
Definition is_low_surrogate (c : codepoint) : bool := (0xDC00 <=? c) && (c <=? 0xDFFF).
Definition is_surrogate (c : codepoint) : bool := (0xD800 <=? c) && (c <=? 0xDFFF).

(** ** [str(n)] for an integer: decimal digits, most significant first *)

Fixpoint decimal_digits (fuel : nat) (n : Z) : pystr :=
  match fuel with
  | O => []
  | S fuel' =>
      if n <? 10 then [48 + n]
      else decimal_digits fuel' (n / 10) ++ [48 + n mod 10]
  end.

Definition int_repr (n : Z) : pystr :=
  if n <? 0
  then 45 :: decimal_digits (S (Z.to_nat (Z.log2 (- n)))) (- n)
  else decimal_digits (S (Z.to_nat (Z.log2 n))) n.

(** ** UTF-8 *)

(** [s.encode('utf-8')]: [None] is UnicodeEncodeError (surrogates, or a
    value that is no code point). *)
Definition utf8_char (c : codepoint) : option (list byte) :=
  if c <? 0 then None
  else if c <? 0x80 then Some [c]
  else if c <? 0x800 then
    Some [Z.lor 0xC0 (Z.shiftr c 6); Z.lor 0x80 (Z.land c 0x3F)]
  else if c <? 0x10000 then
    if is_surrogate c then None
    else Some [Z.lor 0xE0 (Z.shiftr c 12);
               Z.lor 0x80 (Z.land (Z.shiftr c 6) 0x3F);
               Z.lor 0x80 (Z.land c 0x3F)]
  else if c <? 0x110000 then
    Some [Z.lor 0xF0 (Z.shiftr c 18);
          Z.lor 0x80 (Z.land (Z.shiftr c 12) 0x3F);
          Z.lor 0x80 (Z.land (Z.shiftr c 6) 0x3F);
          Z.lor 0x80 (Z.land c 0x3F)]
  else None.

Fixpoint utf8_encode (s : pystr) : option (list byte) :=
  match s with
  | [] => Some []
  | c :: s' =>
      match utf8_char c, utf8_encode s' with
      | Some bs, Some rest => Some (bs ++ rest)
      | _, _ => None
      end
  end.

Definition is_cont (b : byte) : bool := (0x80 <=? b) && (b <=? 0xBF).

Definition cons_char (c : codepoint) (r : option pystr) : option pystr :=
  match r with Some s => Some (c :: s) | None => None end.

(** Strict UTF-8 decoding, as the text layer of [sys.stdin] does it:
    [None] is UnicodeDecodeError. *)
Fixpoint utf8_decode (bs : list byte) : option pystr :=
  match bs with
  | [] => Some []
  | b0 :: r =>
      if (0 <=? b0) && (b0 <? 0x80) then cons_char b0 (utf8_decode r)
      else if (0xC2 <=? b0) && (b0 <=? 0xDF) then
        match r with
        | b1 :: r1 =>
            if is_cont b1
            then cons_char (Z.lor (Z.shiftl (Z.land b0 0x1F) 6) (Z.land b1 0x3F))
                           (utf8_decode r1)
            else None
        | _ => None
        end
      else if (0xE0 <=? b0) && (b0 <=? 0xEF) then
        match r with
        | b1 :: b2 :: r2 =>
            let c := Z.lor (Z.shiftl (Z.land b0 0x0F) 12)
                           (Z.lor (Z.shiftl (Z.land b1 0x3F) 6) (Z.land b2 0x3F)) in
            if is_cont b1 && is_cont b2 && (0x800 <=? c) && negb (is_surrogate c)
            then cons_char c (utf8_decode r2)
            else None
        | _ => None
        end
      else if (0xF0 <=? b0) && (b0 <=? 0xF4) then
        match r with
        | b1 :: b2 :: b3 :: r3 =>
            let c := Z.lor (Z.shiftl (Z.land b0 0x07) 18)
                      (Z.lor (Z.shiftl (Z.land b1 0x3F) 12)
                        (Z.lor (Z.shiftl (Z.land b2 0x3F) 6) (Z.land b3 0x3F))) in
            if is_cont b1 && is_cont b2 && is_cont b3
               && (0x10000 <=? c) && (c <? 0x110000)
            then cons_char c (utf8_decode r3)
            else None
        | _ => None
        end
      else None
  end.

(** ** JSON values *)

Unset Elimination Schemes.
Inductive json : Type :=
| JNull
| JBool (b : bool)
| JInt (n : Z)
| JStr (s : pystr)
| JArr (items : list json)
| JObj (members : list (pystr * json)).
Set Elimination Schemes.

(** Python dicts keep insertion order; assigning to a key that is present
    replaces the value in place. *)
Fixpoint dict_get (d : list (pystr * json)) (k : pystr) : option json :=
  match d with
  | [] => None
  | (k', v) :: d' => if pystr_eqb k' k then Some v else dict_get d' k
  end.

Fixpoint dict_set (d : list (pystr * json)) (k : pystr) (v : json)
  : list (pystr * json) :=
  match d with
  | [] => [(k, v)]
  | (k', v') :: d' =>
      if pystr_eqb k' k then (k', v) :: d' else (k', v') :: dict_set d' k v
  end.

Definition dict_contains (d : list (pystr * json)) (k : pystr) : bool :=
  match dict_get d k with Some _ => true | None => false end.

(** ** [json.dumps] with its defaults: [ensure_ascii=True], separators
    [", "] and [": "] *)

Definition hexdigit (d : Z) : codepoint := if d <? 10 then 48 + d else 87 + d.

(** ['{0:04x}'.format(n)] for [n < 0x10000] *)
Definition hex4 (n : Z) : pystr :=
  [hexdigit (n / 4096 mod 16); hexdigit (n / 256 mod 16);
   hexdigit (n / 16 mod 16); hexdigit (n mod 16)].

(** The replacement [encode_basestring_ascii] makes for one character. *)
Definition escape_char (c : codepoint) : pystr :=
  if c =? 34 then [92; 34]
  else if c =? 92 then [92; 92]
  else if c =? 8 then [92; 98]
  else if c =? 12 then [92; 102]
  else if c =? 10 then [92; 110]
  else if c =? 13 then [92; 114]
  else if c =? 9 then [92; 116]
  else if (32 <=? c) && (c <=? 126) then [c]
  else if c <? 0x10000 then 92 :: 117 :: hex4 c
  else
    let n := c - 0x10000 in
    let s1 := Z.lor 0xD800 (Z.land (Z.shiftr n 10) 0x3FF) in
    let s2 := Z.lor 0xDC00 (Z.land n 0x3FF) in
    (92 :: 117 :: hex4 s1) ++ (92 :: 117 :: hex4 s2).

Definition encode_basestring_ascii (s : pystr) : pystr :=
  34 :: flat_map escape_char s ++ [34].

Fixpoint json_dumps (o : json) : pystr :=
  match o with
  | JNull => lit "null"
  | JBool true => lit "true"
  | JBool false => lit "false"
  | JInt n => int_repr n
  | JStr s => encode_basestring_ascii s
  | JArr items =>
      lit "[" ++ join (lit ", ") (map json_dumps items) ++ lit "]"
  | JObj members =>
      lit "{" ++
      join (lit ", ")
           (map (fun kv => let '(k, v) := kv in
                           encode_basestring_ascii k ++ lit ": " ++ json_dumps v)
                members)
      ++ lit "}"
  end.

(** ** Outcomes of fallible runtime calls *)

Inductive pyerror : Type :=
| AssertionError
| ValueError
| JSONDecodeError
| KeyError
| TypeError
| UnicodeEncodeError
| OverflowError.

(** [Unmodelled]: the input holds a float literal, which the embedding does
    not interpret.  [OutOfFuel] is shown below never to be returned by
    [json_loads]. *)
Inductive result (A : Type) : Type :=
| Ok (a : A)
| Raise (e : pyerror)
| Unmodelled
| OutOfFuel.
Arguments Ok {A} a.
Arguments Raise {A} e.
Arguments Unmodelled {A}.
Arguments OutOfFuel {A}.

(** ** [json.loads] *)

Definition is_ws (c : codepoint) : bool :=
  (c =? 32) || (c =? 9) || (c =? 10) || (c =? 13).

Fixpoint skip_ws (s : pystr) : pystr :=
  match s with
  | c :: r => if is_ws c then skip_ws r else s
  | [] => []
  end.

Definition hexval (c : codepoint) : option Z :=
  if is_digit c then Some (c - 48)
  else if (97 <=? c) && (c <=? 102) then Some (c - 87)
  else if (65 <=? c) && (c <=? 70) then Some (c - 55)
  else None.

Definition decode_uXXXX (h1 h2 h3 h4 : codepoint) : option Z :=
  match hexval h1, hexval h2, hexval h3, hexval h4 with
  | Some v1, Some v2, Some v3, Some v4 => Some (((v1 * 16 + v2) * 16 + v3) * 16 + v4)
  | _, _, _, _ => None
  end.

(** The table of one-character escapes. *)
Definition BACKSLASH (esc : codepoint) : option codepoint :=
  if esc =? 34 then Some 34
  else if esc =? 92 then Some 92
  else if esc =? 47 then Some 47
  else if esc =? 98 then Some 8
  else if esc =? 102 then Some 12
  else if esc =? 110 then Some 10
  else if esc =? 114 then Some 13
  else if esc =? 116 then Some 9
  else None.

Definition prepend (c : codepoint) (r : result (pystr * pystr))
  : result (pystr * pystr) :=
  match r with
  | Ok (s, rest) => Ok (c :: s, rest)
  | other => other
  end.

(** [scanstring(s, end)] in strict mode, called just after the opening
    quote; returns the string and the text after the closing quote. *)
Fixpoint scanstring (s : pystr) : result (pystr * pystr) :=
  match s with
  | [] => Raise JSONDecodeError
  | c :: r =>
      if c =? 34 then Ok ([], r)
      else if c =? 92 then
        match r with
        | [] => Raise JSONDecodeError
        | esc :: r1 =>
            if esc =? 117 then
              match r1 with
              | h1 :: h2 :: h3 :: h4 :: r2 =>
                  match decode_uXXXX h1 h2 h3 h4 with
                  | None => Raise JSONDecodeError
                  | Some uni =>
                      if is_high_surrogate uni then
                        match r2 with
                        | b :: u :: g1 :: g2 :: g3 :: g4 :: r3 =>
                            if (b =? 92) && (u =? 117) then
                              match decode_uXXXX g1 g2 g3 g4 with
                              | None => Raise JSONDecodeError
                              | Some uni2 =>
                                  if is_low_surrogate uni2 then
                                    prepend
                                      (0x10000 +
                                       Z.lor (Z.shiftl (uni - 0xD800) 10) (uni2 - 0xDC00))
                                      (scanstring r3)
                                  else prepend uni (scanstring r2)
                              end
                            else prepend uni (scanstring r2)
                        | _ => prepend uni (scanstring r2)
                        end
                      else prepend uni (scanstring r2)
                  end
              | _ => Raise JSONDecodeError
              end
            else
              match BACKSLASH esc with
              | Some char => prepend char (scanstring r1)
              | None => Raise JSONDecodeError
              end
        end
      else if c <? 32 then Raise JSONDecodeError
      else prepend c (scanstring r)
  end.

Fixpoint span_digits (acc : Z) (s : pystr) : Z * pystr :=
  match s with
  | c :: r => if is_digit c then span_digits (10 * acc + (c - 48)) r else (acc, s)
  | [] => (acc, [])
  end.

(** After the integer part: does a fraction or an exponent follow? *)
Definition float_follows (s : pystr) : bool :=
  match s with
  | 46 :: d :: _ => is_digit d
  | c :: r =>
      if (c =? 101) || (c =? 69) then
        match r with
        | d :: r' =>
            if is_digit d then true
            else if (d =? 45) || (d =? 43) then
              match r' with d' :: _ => is_digit d' | [] => false end
            else false
        | [] => false
        end
      else false
  | [] => false
  end.

Definition finish_number (neg : bool) (n : Z) (rest : pystr) : result (json * pystr) :=
  if float_follows rest then Unmodelled
  else Ok (JInt (if neg then - n else n), rest).

Definition match_number (s : pystr) : result (json * pystr) :=
  let '(neg, s1) := match s with
                    | c :: r => if c =? 45 then (true, r) else (false, s)
                    | [] => (false, s)
                    end in
  match s1 with
  | c :: r =>
      if (49 <=? c) && (c <=? 57) then
        let '(n, rest) := span_digits (c - 48) r in finish_number neg n rest
      else if c =? 48 then finish_number neg 0 r
      else Raise JSONDecodeError
  | [] => Raise JSONDecodeError
  end.

Fixpoint scan_once (fuel : nat) (s : pystr) {struct fuel} : result (json * pystr) :=
  match fuel with
  | O => OutOfFuel
  | S fuel' =>
      match s with
      | [] => Raise JSONDecodeError
      | c :: r =>
          if c =? 34 then
            match scanstring r with
            | Ok (str, rest) => Ok (JStr str, rest)
            | Raise e => Raise e
            | Unmodelled => Unmodelled
            | OutOfFuel => OutOfFuel
            end
          else if c =? 123 then
            match skip_ws r with
            | c' :: r' =>
                if c' =? 125 then Ok (JObj [], r')
                else parse_object fuel' [] (skip_ws r)
            | [] => Raise JSONDecodeError
            end
          else if c =? 91 then
            match skip_ws r with
            | c' :: r' =>
                if c' =? 93 then Ok (JArr [], r')
                else parse_array fuel' [] (skip_ws r)
            | [] => Raise JSONDecodeError
            end
          else if startswith s (lit "null") then Ok (JNull, skipn 4 s)
          else if startswith s (lit "true") then Ok (JBool true, skipn 4 s)
          else if startswith s (lit "false") then Ok (JBool false, skipn 5 s)
          else if startswith s (lit "NaN") then Unmodelled
          else if startswith s (lit "Infinity") then Unmodelled
          else if startswith s (lit "-Infinity") then Unmodelled
          else match_number s
      end
  end

with parse_object (fuel : nat) (rval : list (pystr * json)) (s : pystr)
       {struct fuel} : result (json * pystr) :=
  match fuel with
  | O => OutOfFuel
  | S fuel' =>
      match s with
      | c :: r =>
          if c =? 34 then
            match scanstring r with
            | Ok (key, r1) =>
                match skip_ws r1 with
                | c1 :: r2 =>
                    if c1 =? 58 then
                      match scan_once fuel' (skip_ws r2) with
                      | Ok (val, r3) =>
                          let rval' := dict_set rval key val in
                          match skip_ws r3 with
                          | c3 :: r4 =>
                              if c3 =? 125 then Ok (JObj rval', r4)
                              else if c3 =? 44 then parse_object fuel' rval' (skip_ws r4)
                              else Raise JSONDecodeError
                          | [] => Raise JSONDecodeError
                          end
                      | other => other
                      end
                    else Raise JSONDecodeError
                | [] => Raise JSONDecodeError
                end
            | Raise e => Raise e
            | Unmodelled => Unmodelled
            | OutOfFuel => OutOfFuel
            end
          else Raise JSONDecodeError
      | [] => Raise JSONDecodeError
      end
  end

with parse_array (fuel : nat) (rval : list json) (s : pystr)
       {struct fuel} : result (json * pystr) :=
  match fuel with
  | O => OutOfFuel
  | S fuel' =>
      match scan_once fuel' s with
      | Ok (val, r1) =>
          let rval' := rval ++ [val] in
          match skip_ws r1 with
          | c :: r2 =>
              if c =? 93 then Ok (JArr rval', r2)
              else if c =? 44 then parse_array fuel' rval' (skip_ws r2)
              else Raise JSONDecodeError
          | [] => Raise JSONDecodeError
          end
      | other => other
      end
  end.

Definition json_loads (s : pystr) : result json :=
  if startswith s [0xFEFF] then Raise JSONDecodeError
  else
    match scan_once (2 * List.length s + 1) (skip_ws s) with
    | Ok (obj, rest) =>
        match skip_ws rest with
        | [] => Ok obj
        | _ :: _ => Raise JSONDecodeError
        end
    | Raise e => Raise e
    | Unmodelled => Unmodelled
    | OutOfFuel => OutOfFuel
    end.

(** ** The runtime tables taken as given

    [Py_UNICODE_TODECIMAL] is the decimal-digit property of the Unicode
    database ([int] consults it for characters from 127 on); [unicode_repr]
    is [repr] of a [str] (it depends on the database's printable property). *)
Class PyRuntime : Type := {
  Py_UNICODE_TODECIMAL : codepoint -> option Z;
  unicode_repr : pystr -> pystr
}.

(** A runtime whose digit table is empty outside ASCII and whose [repr]
    puts the text between single quotes, every character outside printable
    ASCII escaped; it instantiates the development at concrete sessions. *)
Definition ascii_runtime : PyRuntime :=
  {| Py_UNICODE_TODECIMAL := fun _ => None;
     unicode_repr := fun s => 39 :: flat_map escape_char s ++ [39] |}.

(** ** The input and output streams *)

(** [stdin]: the text not read yet.  [stdout]: the bytes written so far.
    [peer_reads]: how many more writes the peer accepts before it closes its
    end ([None]: it never closes). *)
Record world : Type := {
  stdin : pystr;
  stdout : list byte;
  peer_reads : option nat
}.

Definition set_stdin (w : world) (s : pystr) : world :=
  {| stdin := s; stdout := stdout w; peer_reads := peer_reads w |}.

(** [sys.stdin.readline()]: up to and including the next newline, or what
    is left. *)
Fixpoint readline (s : pystr) : pystr * pystr :=
  match s with
  | [] => ([], [])
  | c :: r =>
      if c =? 10 then ([c], r)
      else let '(l, r') := readline r in (c :: l, r')
  end.

(** The bounds of [Py_ssize_t]. *)
Definition PY_SSIZE_T_MAX : Z := 2 ^ 63 - 1.
Definition PY_SSIZE_T_MIN : Z := - 2 ^ 63.

(** A text short enough that its UTF-8 encoding, at most four bytes for a
    character, fits a [bytes] object whatever its characters are: fewer
    than [2 ^ 61] characters. *)
Definition sendable (s : pystr) : bool := 4 * len s <=? PY_SSIZE_T_MAX.

(** [sys.stdin.read(n)]: OverflowError ([None]) when [n] does not fit
    [Py_ssize_t], and nothing is consumed then; else [n] characters, fewer
    at end of input, and all that is left when [n] is negative.

    In the interpreter the size of a [str] or [bytes] object always fits
    [Py_ssize_t].  The lists of the model have no bound on their length, so
    the model applies the upper bound on texts that are [sendable], which
    covers every input that can be held; on a longer list, whose size or
    whose encoding's size the interpreter could not represent, a length
    above [PY_SSIZE_T_MAX] is read as one that fits. *)
Definition read (n : Z) (s : pystr) : option (pystr * pystr) :=
  if (n <? PY_SSIZE_T_MIN) || ((PY_SSIZE_T_MAX <? n) && sendable s) then None
  else if n <? 0 then Some (s, [])
  else Some (firstn (Z.to_nat n) s, skipn (Z.to_nat n) s).

(** ** Control flow of one loop iteration *)

Inductive status : Type :=
| Continue
| Break
| Fatal (e : pyerror)
| NoModel
| NoFuel.

(** [sys.stdout.buffer.write(...)] then [flush()]; an IOError leaves the
    loop. *)
Definition write (data : list byte) (w : world) : status * world :=
  match peer_reads w with
  | Some O => (Break, w)
  | Some (S k) =>
      (Continue, {| stdin := stdin w; stdout := stdout w ++ data; peer_reads := Some k |})
  | None =>
      (Continue, {| stdin := stdin w; stdout := stdout w ++ data; peer_reads := None |})
  end.

(** What the if/elif chain decides. *)
Inductive action : Type :=
| Respond (response : json)
| DoContinue
| DoBreak
| DoRaise (e : pyerror).

Definition eq_str (v : json) (s : pystr) : bool :=
  match v with
  | JStr s' => pystr_eqb s' s
  | _ => false
  end.

(** [if response:] *)
Definition truthy (v : json) : bool :=
  match v with
  | JNull => false
  | JBool b => b
  | JInt n => negb (n =? 0)
  | JStr s => match s with [] => false | _ => true end
  | JArr l => match l with [] => false | _ => true end
  | JObj d => match d with [] => false | _ => true end
  end.

(** ** [int(s)] for a string

    [PyLong_FromString] reads an ASCII copy of the text: blanks, a sign,
    digits. *)
Definition Py_ISSPACE (c : codepoint) : bool :=
  (c =? 32) || ((9 <=? c) && (c <=? 13)).

(** The characters [str.isspace] accepts. *)
Definition Py_UNICODE_ISSPACE (ch : codepoint) : bool :=
  ((9 <=? ch) && (ch <=? 13)) || ((0x1C <=? ch) && (ch <=? 0x20))
  || (ch =? 0x85) || (ch =? 0xA0) || (ch =? 0x1680)
  || ((0x2000 <=? ch) && (ch <=? 0x200A))
  || (ch =? 0x2028) || (ch =? 0x2029) || (ch =? 0x202F)
  || (ch =? 0x205F) || (ch =? 0x3000).

Fixpoint skip_space (s : pystr) : pystr :=
  match s with
  | c :: r => if Py_ISSPACE c then skip_space r else s
  | [] => []
  end.

(** Digits with single underscores between them. *)
Fixpoint scan_digits (prev_underscore : bool) (acc : Z) (s : pystr)
  : option (Z * pystr) :=
  match s with
  | c :: r =>
      if is_digit c then scan_digits false (10 * acc + (c - 48)) r
      else if c =? 95 then
        if prev_underscore then None else scan_digits true acc r
      else if prev_underscore then None else Some (acc, s)
  | [] => if prev_underscore then None else Some (acc, [])
  end.

Definition PyLong_FromString (s : pystr) : option Z :=
  let s1 := skip_space s in
  let '(sign, s2) :=
    match s1 with
    | c :: r => if c =? 43 then (1, r) else if c =? 45 then (-1, r) else (1, s1)
    | [] => (1, s1)
    end in
  match s2 with
  | c :: _ =>
      if is_digit c then
        match scan_digits false 0 s2 with
        | Some (n, rest) =>
            match skip_space rest with
            | [] => Some (sign * n)
            | _ :: _ => None
            end
        | None => None
        end
      else None
  | [] => None
  end.

(** ** The canned replies (lines 17 to 30 and 42 to 79) *)

Definition source_item (uri : string) (kind : Z) : json :=
  JObj [(lit "uri", JStr (lit uri)); (lit "kind", JInt kind);
        (lit "generated", JBool false)].

Definition target_item (target file folder : string) : json :=
  JObj [(lit "target", JObj [(lit "uri", JStr (lit target))]);
        (lit "sources", JArr [source_item file 1; source_item folder 2])].

Definition initialize_result : json :=
  JObj [(lit "displayName", JStr (lit "test server"));
        (lit "version", JStr (lit "0.1"));
        (lit "bspVersion", JStr (lit "2.0"));
        (lit "rootUri", JStr (lit "blah"));
        (lit "capabilities",
           JObj [(lit "languageIds", JArr [JStr (lit "a"); JStr (lit "b")])]);
        (lit "data",
           JObj [(lit "indexStorePath", JStr (lit "some/index/store/path"))])].

Definition sources_result : json :=
  JObj [(lit "items",
           JArr [target_item "build://target/a" "file:///path/to/a/file"
                             "file:///path/to/a/folder/";
                 target_item "build://target/b" "file:///path/to/b/file"
                             "file:///path/to/b/folder/"])].

Definition result_response (id result : json) : json :=
  JObj [(lit "jsonrpc", JStr (lit "2.0")); (lit "id", id); (lit "result", result)].

Definition error_response (id : json) (message : pystr) : json :=
  JObj [(lit "jsonrpc", JStr (lit "2.0")); (lit "id", id);
        (lit "error", JObj [(lit "code", JInt 123); (lit "message", JStr message)])].

(** The frame of line 94, before it is encoded. *)
Definition frame_text (responseStr : pystr) : pystr :=
  lit "Content-Length: " ++ int_repr (len responseStr) ++ [13; 10; 13; 10] ++ responseStr.

(** [response["id"]] and the like, on values the replies are made of. *)
Definition field (v : json) (k : string) : option json :=
  match v with
  | JObj d => dict_get d (lit k)
  | _ => None
  end.

Section Server.

Context {rt : PyRuntime}.

(** The copy [int] parses when the text is not pure ASCII: spaces and
    decimal digits of any script become their ASCII counterparts, the first
    other character from 127 on becomes a question mark and ends the copy. *)
Fixpoint transform_decimal_and_space (s : pystr) : pystr :=
  match s with
  | [] => []
  | ch :: r =>
      if ch <? 127 then ch :: transform_decimal_and_space r
      else if Py_UNICODE_ISSPACE ch then 32 :: transform_decimal_and_space r
      else
        match Py_UNICODE_TODECIMAL ch with
        | Some d => (48 + d) :: transform_decimal_and_space r
        | None => [63]
        end
  end.

(** Pure ASCII text is parsed as it is. *)
Definition ascii_copy (s : pystr) : pystr :=
  if forallb (fun c => c <? 128) s then s else transform_decimal_and_space s.

(** [int(s)] for a [str]; [None] is ValueError. *)
Definition py_int (s : pystr) : option Z := PyLong_FromString (ascii_copy s).

(** [repr(v)] *)
Fixpoint py_repr (v : json) : pystr :=
  match v with
  | JNull => lit "None"
  | JBool true => lit "True"
  | JBool false => lit "False"
  | JInt n => int_repr n
  | JStr s => unicode_repr s
  | JArr items => lit "[" ++ join (lit ", ") (map py_repr items) ++ lit "]"
  | JObj members =>
      lit "{" ++
      join (lit ", ")
           (map (fun kv => let '(k, v) := kv in
                           unicode_repr k ++ lit ": " ++ py_repr v)
                members)
      ++ lit "}"
  end.

(** ["{}".format(v)] *)
Definition py_format (v : json) : pystr :=
  match v with
  | JStr s => s
  | _ => py_repr v
  end.

(** [message["id"]] inside a reply: KeyError when the key is absent. *)
Definition with_id (message : list (pystr * json)) (build : json -> json) : action :=
  match dict_get message (lit "id") with
  | Some id => Respond (build id)
  | None => DoRaise KeyError
  end.

(** Lines 15 to 89: the if/elif chain on [message["method"]]. *)
Definition dispatch (message : json) : action :=
  match message with
  | JObj d =>
      match dict_get d (lit "method") with
      | None => DoRaise KeyError
      | Some method =>
          if eq_str method (lit "build/initialize") then
            with_id d (fun id => result_response id initialize_result)
          else if eq_str method (lit "build/initialized") then DoContinue
          else if eq_str method (lit "build/shutdown") then
            with_id d (fun id => result_response id JNull)
          else if eq_str method (lit "build/exit") then DoBreak
          else if eq_str method (lit "buildTarget/sources") then
            with_id d (fun id => result_response id sources_result)
          else if dict_contains d (lit "id") then
            with_id d (fun id =>
              error_response id (lit "unhandled method " ++ py_format method))
          else Respond JNull
      end
  | _ => DoRaise TypeError
  end.

(** What reading one frame gives: the end of the input, a decoded
    envelope and the input left, or an exception. *)
Inductive frame_read : Type :=
| EndOfInput
| Message (message : json) (rest : pystr)
| ReadFails (st : status) (rest : pystr).

(** Lines 6 to 13: one frame off the input. *)
Definition read_frame (input : pystr) : frame_read :=
  let '(line, in1) := readline input in
  if len line =? 0 then EndOfInput
  else if negb (startswith line (lit "Content-Length:")) then
    ReadFails (Fatal AssertionError) in1
  else
    match py_int (skipn 15 line) with
    | None => ReadFails (Fatal ValueError) in1
    | Some length =>
        let '(_, in2) := readline in1 in
        match read length in2 with
        | None => ReadFails (Fatal OverflowError) in2
        | Some (body, in3) =>
            match json_loads body with
            | Ok message => Message message in3
            | Raise e => ReadFails (Fatal e) in3
            | Unmodelled => ReadFails NoModel in3
            | OutOfFuel => ReadFails NoFuel in3
            end
        end
    end.

(** Lines 91 to 98. *)
Definition send (response : json) (w : world) : status * world :=
  if truthy response then
    let responseStr := json_dumps response in
    match utf8_encode (frame_text responseStr) with
    | Some data => write data w
    | None => (Fatal UnicodeEncodeError, w)
    end
  else (Continue, w).

(** One iteration of [while True]. *)
Definition step (w : world) : status * world :=
  match read_frame (stdin w) with
  | EndOfInput => (Break, w)
  | ReadFails st rest => (st, set_stdin w rest)
  | Message message rest =>
      let w' := set_stdin w rest in
      match dispatch message with
      | DoRaise e => (Fatal e, w')
      | DoContinue => (Continue, w')
      | DoBreak => (Break, w')
      | Respond response => send response w'
      end
  end.

Fixpoint run (fuel : nat) (w : world) : status * world :=
  match fuel with
  | O => (NoFuel, w)
  | S fuel' =>
      match step w with
      | (Continue, w') => run fuel' w'
      | stopped => stopped
      end
  end.

(** The whole program on a given input. *)
Definition server (w : world) : status * world :=
  run (S (List.length (stdin w))) w.

(** The loop at the level of envelopes: how it ends, the responses it
    writes and the envelopes it leaves unread. *)
Fixpoint session (messages : list json) : status * list json * list json :=
  match messages with
  | [] => (Break, [], [])
  | message :: more =>
      match dispatch message with
      | Respond response =>
          let '(st, written, unread) := session more in
          (st, (if truthy response then [response] else []) ++ written, unread)
      | DoContinue => session more
      | DoBreak => (Break, [], more)
      | DoRaise e => (Fatal e, [], more)
      end
  end.

End Server.

(** The world at start: the whole input to read, nothing written, and a
    peer that reads whatever is written. *)
Definition start (input : pystr) : world :=
  {| stdin := input; stdout := []; peer_reads := None |}.

(** ** Values the server handles

    [py_text s]: every element is a code point, and no high surrogate is
    directly followed by a low surrogate (the decoder builds no such text:
    it joins such a pair of escapes into one character).
    [json_value v]: the strings of [v] are such texts and the keys of each
    of its dicts are distinct. *)

Definition is_codepoint (c : Z) : bool := (0 <=? c) && (c <=? 0x10FFFF).

Fixpoint py_text (s : pystr) : bool :=
  match s with
  | [] => true
  | c :: r =>
      is_codepoint c
      && match r with
         | c' :: _ => negb (is_high_surrogate c && is_low_surrogate c')
         | [] => true
         end
      && py_text r
  end.

Fixpoint distinct (keys : list pystr) : bool :=
  match keys with
  | [] => true
  | k :: rest => negb (existsb (pystr_eqb k) rest) && distinct rest
  end.

Fixpoint json_value (v : json) : bool :=
  match v with
  | JNull | JBool _ | JInt _ => true
  | JStr s => py_text s
  | JArr items => forallb json_value items
  | JObj members =>
      distinct (map fst members)
      && forallb (fun kv => let '(k, v) := kv in py_text k && json_value v) members
  end.

(** Recursion budget [scan_once] needs to read back [json_dumps v]. *)
Fixpoint size (v : json) : nat :=
  match v with
  | JArr items => S (fold_right (fun v a => S (size v + a)) O items)
  | JObj members => S (fold_right (fun kv a => let '(_, v) := kv in S (size v + a)) O members)
  | _ => 1%nat
  end.

(** What may follow a value inside a document. *)
Definition delimited (rest : pystr) : bool :=
  match rest with
  | [] => true
  | c :: _ => (c =? 44) || (c =? 93) || (c =? 125)
  end.

Definition digits_val (acc : Z) (ds : pystr) : Z :=
  fold_left (fun a c => 10 * a + (c - 48)) ds acc.

(** The text after an escaped high surrogate does not complete a pair: if
    it starts with a four-digit escape, that escape is no low surrogate. *)
Definition lone_after (r2 : pystr) : Prop :=
  forall g1 g2 g3 g4 r3,
    r2 = 92 :: 117 :: g1 :: g2 :: g3 :: g4 :: r3 ->
    exists uni2, decode_uXXXX g1 g2 g3 g4 = Some uni2 /\ is_low_surrogate uni2 = false.

(** Induction on JSON values, with the hypothesis for every element. *)
Definition json_ind_nested (P : json -> Prop)
  (HNull : P JNull) (HBool : forall b, P (JBool b)) (HInt : forall n, P (JInt n))
  (HStr : forall s, P (JStr s))
  (HArr : forall items, Forall P items -> P (JArr items))
  (HObj : forall members, Forall (fun kv => P (snd kv)) members -> P (JObj members)) :
  forall v, P v :=
  fix go (v : json) : P v :=
    match v with
    | JNull => HNull
    | JBool b => HBool b
    | JInt n => HInt n
    | JStr s => HStr s
    | JArr items =>
        HArr items
          ((fix all (l : list json) : Forall P l :=
              match l with
              | [] => Forall_nil P
              | x :: l' => Forall_cons x (go x) (all l')
              end) items)
    | JObj members =>
        HObj members
          ((fix all (l : list (pystr * json)) : Forall (fun kv => P (snd kv)) l :=
              match l with
              | [] => Forall_nil _
              | kv :: l' => Forall_cons kv (go (snd kv)) (all l')
              end) members)
    end.

(** The first character of a serialized value. *)
Definition value_start (c : Z) : Prop :=
  is_ws c = false /\ c <> 93 /\ c <> 125 /\ c <> 0xFEFF /\ 0 <= c < 128.

(** [scan_once] reads [v] back from its serialization, given the budget. *)
Definition reads_back (v : json) : Prop :=
  json_value v = true ->
  forall fuel rest, (size v <= fuel)%nat -> delimited rest = true ->
  scan_once fuel (json_dumps v ++ rest) = Ok (v, rest).

(** One [key: value] pair as [json_dumps] writes it. *)
Definition dumps_member (kv : pystr * json) : pystr :=
  let '(k, v) := kv in encode_basestring_ascii k ++ [58; 32] ++ json_dumps v.

(** Printable ASCII. *)
Definition printable (c : Z) : Prop := 32 <= c <= 126.

(** ** Vocabulary of the statements *)

(** The methods the if/elif chain names. *)
Definition recognized (method : json) : bool :=
  eq_str method (lit "build/initialize")
  || eq_str method (lit "build/initialized")
  || eq_str method (lit "build/shutdown")
  || eq_str method (lit "build/exit")
  || eq_str method (lit "buildTarget/sources").

(** The world after one frame [data] has been written and [rest] is left to
    read. *)
Definition replied (w : world) (rest : pystr) (data : list byte) : world :=
  {| stdin := rest;
     stdout := stdout w ++ data;
     peer_reads := option_map Nat.pred (peer_reads w) |}.



(** The [sources] list of one item of the target-sources reply, and what a
    source entry says. *)
Definition item_sources (item : json) : list json :=
  match field item "sources" with
  | Some (JArr sources) => sources
  | _ => []
  end.

Definition result_items (response : json) : list json :=
  match field response "result" with
  | Some result =>
      match field result "items" with
      | Some (JArr items) => items
      | _ => []
      end
  | None => []
  end.

(** A blank that does not end a line. *)
Definition blank (c : Z) : Prop := Py_ISSPACE c = true /\ c <> 10.

(** What the server writes: printable ASCII and the two characters of a
    line end. *)
Definition frame_byte (b : Z) : Prop := 32 <= b <= 126 \/ b = 13 \/ b = 10.



(** ** Concrete sessions *)

Definition request (id : json) (method : string) : json :=
  JObj [(lit "jsonrpc", JStr (lit "2.0")); (lit "id", id);
        (lit "method", JStr (lit method))].

Definition notification (method : string) : json :=
  JObj [(lit "jsonrpc", JStr (lit "2.0")); (lit "method", JStr (lit method))].

(** The text that carries the given values, one frame each. *)
Definition frames (messages : list json) : pystr :=
  flat_map (fun message => frame_text (json_dumps message)) messages.

(** An unknown request followed by the exit notification. *)
Definition session_unknown : world :=
  start (frames [request (JInt 9) "foo/bar"; notification "build/exit"]).

(** A shutdown request followed by the exit notification. *)
Definition session_shutdown : world :=
  start (frames [request (JInt 7) "build/shutdown"; notification "build/exit"]).

(** build/initialized sent with an id. *)
Definition session_initialized_with_id : world :=
  start (frames [request (JInt 1) "build/initialized"]).

(** build/initialize sent without an id. *)
Definition session_initialize_without_id : world :=
  start (frames [notification "build/initialize"]).

(** An unknown notification followed by a request. *)
Definition session_notification : world :=
  start (frames [notification "foo/bar"; request (JInt 1) "build/initialize"]).

(** The exit notification with a request buffered behind it. *)
Definition session_exit : world :=
  start (frames [notification "build/exit"; request (JInt 1) "build/initialize"]).


(** The bytes of two frames as a conforming peer sends them: the body of the
    first is [{"method":"é"}], 14 characters in 15 bytes (the e with acute
    accent is the two bytes 195, 169), declared as 15; the second is the exit
    notification. *)
Definition accented_body : list byte :=
  [123; 34] ++ lit "method" ++ [34; 58; 34; 195; 169; 34; 125].

Definition accented_input : list byte :=
  lit "Content-Length: 15" ++ [13; 10; 13; 10] ++ accented_body
  ++ frames [notification "build/exit"].

(** A whole conversation: requests, notifications, the exit notification
    and a request after it. *)
Definition conversation : list json :=
  [request (JInt 1) "build/initialize"; notification "build/initialized";
   request (JInt 2) "buildTarget/sources"; request (JInt 3) "foo/bar";
   notification "foo/baz"; request (JInt 4) "build/shutdown";
   notification "build/exit"; request (JInt 5) "build/initialize"].

(** A shutdown request sent after the peer has closed its end of the
    output. *)
Definition session_closed_peer : world :=
  {| stdin := frames [request (JInt 7) "build/shutdown"; notification "build/exit"];
     stdout := [];
     peer_reads := Some O |}.

(** An envelope with an id and no method. *)
Definition session_no_method : world :=
  start (frames [JObj [(lit "jsonrpc", JStr (lit "2.0")); (lit "id", JInt 1)]]).



(** The text of [accented_body]: 14 characters, the e with acute accent
    being the code point 233. *)
Definition accented_text : pystr :=
  [123; 34] ++ lit "method" ++ [34; 58; 34; 233; 34; 125].

(** A sources request with parameters and another protocol version. *)
Definition request_with_params : list (pystr * json) :=
  [(lit "jsonrpc", JStr (lit "1.0")); (lit "id", JInt 2);
   (lit "method", JStr (lit "buildTarget/sources"));
   (lit "params", JObj [(lit "targets", JArr [JObj [(lit "uri", JStr (lit "build://target/a"))]])])].

(** A JSON string that holds an escaped surrogate pair, an escaped
    quote and, unescaped, the e with acute accent. *)
Definition escaped_string : pystr :=
  [34] ++ lit "\ud83d\ude00 " ++ [92; 34; 32; 233; 34].

(** A header that declares a length one above the largest index. *)
Definition session_length_overflow : world :=
  start (lit "Content-Length: 9223372036854775808" ++ [13; 10; 13; 10]
         ++ json_dumps (notification "build/exit")).

(** A shutdown request whose id is the escape of a high surrogate followed
    by a lone low surrogate, the form in which [surrogateescape] hands on
    the byte 128. *)
Definition surrogate_body : pystr :=
  lit "{" ++ [34] ++ lit "id" ++ [34] ++ lit ": " ++ [34; 92] ++ lit "ud83d"
  ++ [0xDC80; 34] ++ lit ", " ++ [34] ++ lit "method" ++ [34] ++ lit ": "
  ++ [34] ++ lit "build/shutdown" ++ [34] ++ lit "}".

Definition session_surrogate_pair : world := start (frame_text surrogate_body).

(** A scan that answers, and leaves less text than [s] when it succeeds. *)
Definition consumes {A : Type} (s : pystr) (r : result (A * pystr)) : Prop :=
  match r with
  | Ok (_, rest) => (List.length rest < List.length s)%nat
  | Raise _ => True
  | Unmodelled => True
  | OutOfFuel => False
  end.

(** A Unicode scalar value: a code point that is no surrogate.  Text
    decoded from UTF-8 holds nothing else. *)
Definition scalar (c : Z) : bool := is_codepoint c && negb (is_surrogate c).

(** What [scanstring] returns on scalar text [s]: a text, the scalar rest,
    and a leading low surrogate only from a four-digit escape at the start. *)
Definition string_ok (s : pystr) (r : result (pystr * pystr)) : Prop :=
  match r with
  | Ok (str, rest) =>
      py_text str = true /\ forallb scalar rest = true /\
      match str with
      | c' :: _ =>
          is_low_surrogate c' = true ->
          exists g1 g2 g3 g4 r3,
            s = 92 :: 117 :: g1 :: g2 :: g3 :: g4 :: r3 /\
            decode_uXXXX g1 g2 g3 g4 = Some c'
      | [] => True
      end
  | _ => True
  end.

(** What a scan returns on scalar text: a value of the kind above and the
    scalar rest. *)
Definition value_ok (r : result (json * pystr)) : Prop :=
  match r with
  | Ok (v, rest) => json_value v = true /\ forallb scalar rest = true
  | _ => True
  end.

(** [repr] of a string holds no surrogate: they are not printable, and
    [repr] escapes what is not. *)
Definition repr_is_scalar (rt : PyRuntime) : Prop :=
  forall s, forallb scalar (unicode_repr s) = true.

(** ** Proof steps used throughout *)

(** Comparisons of integers decided from the context. *)
Ltac cmp_true := symmetry; first [apply Z.eqb_eq | apply Z.leb_le | apply Z.ltb_lt]; lia.
Ltac cmp_false := symmetry; first [apply Z.eqb_neq | apply Z.leb_gt | apply Z.ltb_ge]; lia.
Ltac decide_cmp :=
  repeat match goal with
  | |- context [Z.eqb ?a ?b] =>
      first [replace (Z.eqb a b) with true by cmp_true
            | replace (Z.eqb a b) with false by cmp_false]
  | |- context [Z.leb ?a ?b] =>
      first [replace (Z.leb a b) with true by cmp_true
            | replace (Z.leb a b) with false by cmp_false]
  | |- context [Z.ltb ?a ?b] =>
      first [replace (Z.ltb a b) with true by cmp_true
            | replace (Z.ltb a b) with false by cmp_false]
  end.

(** String literals of the source, evaluated to their code points. *)
Ltac eval_lits :=
  repeat match goal with
  | |- context [lit ?s] =>
      let x := eval vm_compute in (lit s) in change (lit s) with x
  end.


(** * Properties *)

(** ** Arithmetic of escapes *)

Lemma lor_shifted_pow (a b k : Z) :
  0 <= k -> 0 <= b < 2 ^ k -> Z.lor (a * 2 ^ k) b = a * 2 ^ k + b.
Proof.
  intros Hk Hb.
  assert (Hland : Z.land (a * 2 ^ k) b = 0).
  { apply Z.bits_inj'. intros n Hn.
    rewrite Z.land_spec, Z.bits_0.
    destruct (Z.ltb_spec n k) as [Hlt | Hge].
    - rewrite Z.mul_pow2_bits_low by lia. reflexivity.
    - destruct (Z.eq_dec b 0) as [-> | Hnz].
      + rewrite Z.bits_0. apply andb_false_r.
      + rewrite (Z.bits_above_log2 b n); [apply andb_false_r | lia |].
        apply Z.log2_lt_pow2; [lia |].
        apply Z.lt_le_trans with (2 ^ k); [lia |].
        apply Z.pow_le_mono_r; lia. }
  rewrite <- Z.lxor_lor by exact Hland.
  symmetry. apply Z.add_nocarry_lxor. exact Hland.
Qed.

Lemma lor_shifted (a b : Z) :
  0 <= b < 1024 -> Z.lor (a * 1024) b = a * 1024 + b.
Proof. intros Hb. apply (lor_shifted_pow a b 10); [lia | exact Hb]. Qed.

Lemma high_half (n : Z) :
  0 <= n < 0x100000 ->
  Z.lor 0xD800 (Z.land (Z.shiftr n 10) 0x3FF) = 0xD800 + n / 1024.
Proof.
  intros Hn.
  rewrite Z.shiftr_div_pow2 by lia.
  change 0x3FF with (Z.ones 10). rewrite Z.land_ones by lia.
  change (2 ^ 10) with 1024.
  rewrite Z.mod_small by (Z.div_mod_to_equations; lia).
  change 0xD800 with (54 * 1024).
  apply lor_shifted. Z.div_mod_to_equations; lia.
Qed.

Lemma low_half (n : Z) :
  Z.lor 0xDC00 (Z.land n 0x3FF) = 0xDC00 + n mod 1024.
Proof.
  change 0x3FF with (Z.ones 10). rewrite Z.land_ones by lia.
  change (2 ^ 10) with 1024.
  change 0xDC00 with (55 * 1024).
  apply lor_shifted. Z.div_mod_to_equations; lia.
Qed.

Lemma join_halves (n : Z) :
  0 <= n < 0x100000 ->
  Z.lor (Z.shiftl (0xD800 + n / 1024 - 0xD800) 10) (0xDC00 + n mod 1024 - 0xDC00) = n.
Proof.
  intros Hn.
  replace (0xD800 + n / 1024 - 0xD800) with (n / 1024) by lia.
  replace (0xDC00 + n mod 1024 - 0xDC00) with (n mod 1024) by lia.
  rewrite Z.shiftl_mul_pow2 by lia. change (2 ^ 10) with 1024.
  rewrite lor_shifted by (Z.div_mod_to_equations; lia).
  Z.div_mod_to_equations; lia.
Qed.

Lemma hexval_hexdigit (d : Z) : 0 <= d < 16 -> hexval (hexdigit d) = Some d.
Proof.
  intros Hd. unfold hexval, hexdigit, is_digit.
  destruct (Z.ltb_spec d 10).
  - replace ((48 <=? 48 + d) && (48 + d <=? 57)) with true
      by (symmetry; apply andb_true_intro; split; apply Z.leb_le; lia).
    f_equal; lia.
  - replace ((48 <=? 87 + d) && (87 + d <=? 57)) with false
      by (symmetry; apply andb_false_intro2; apply Z.leb_gt; lia).
    replace ((97 <=? 87 + d) && (87 + d <=? 102)) with true
      by (symmetry; apply andb_true_intro; split; apply Z.leb_le; lia).
    f_equal; lia.
Qed.

Lemma decode_hex4 (n : Z) :
  0 <= n < 0x10000 ->
  match hex4 n with
  | [h1; h2; h3; h4] => decode_uXXXX h1 h2 h3 h4 = Some n
  | _ => False
  end.
Proof.
  intros Hn. unfold hex4, decode_uXXXX.
  rewrite !hexval_hexdigit by (Z.div_mod_to_equations; lia).
  f_equal. Z.div_mod_to_equations; lia.
Qed.

(** ** [scanstring] reads back what [encode_basestring_ascii] wrote *)

Lemma scanstring_plain (c : codepoint) (r : pystr) :
  c <> 34 -> c <> 92 -> 32 <= c ->
  scanstring (c :: r) = prepend c (scanstring r).
Proof.
  intros H1 H2 H3. cbn [scanstring]. decide_cmp. reflexivity.
Qed.

Lemma scanstring_simple (esc char : codepoint) (r1 : pystr) :
  BACKSLASH esc = Some char -> esc <> 117 ->
  scanstring (92 :: esc :: r1) = prepend char (scanstring r1).
Proof.
  intros Hb Hne. cbn [scanstring]. rewrite Hb. decide_cmp. reflexivity.
Qed.

Lemma scanstring_lone (h1 h2 h3 h4 uni : codepoint) (r2 : pystr) :
  decode_uXXXX h1 h2 h3 h4 = Some uni ->
  (is_high_surrogate uni = true -> lone_after r2) ->
  scanstring (92 :: 117 :: h1 :: h2 :: h3 :: h4 :: r2) = prepend uni (scanstring r2).
Proof.
  intros Hd Hlone. cbn [scanstring]. rewrite Hd.
  change (92 =? 34) with false. change (92 =? 92) with true.
  change (117 =? 117) with true. cbv iota.
  destruct (is_high_surrogate uni) eqn:Hhigh; [| reflexivity].
  specialize (Hlone eq_refl).
  destruct r2 as [| b [| u [| g1 [| g2 [| g3 [| g4 r3]]]]]]; try reflexivity.
  destruct (b =? 92) eqn:Hb; [| reflexivity].
  destruct (u =? 117) eqn:Hu; [| reflexivity].
  apply Z.eqb_eq in Hb, Hu. subst b u.
  destruct (Hlone g1 g2 g3 g4 r3 eq_refl) as (uni2 & Hd2 & Hlow).
  cbn [andb]. rewrite Hd2, Hlow. reflexivity.
Qed.

Lemma scanstring_pair (h1 h2 h3 h4 g1 g2 g3 g4 uni uni2 : codepoint) (r3 : pystr) :
  decode_uXXXX h1 h2 h3 h4 = Some uni -> is_high_surrogate uni = true ->
  decode_uXXXX g1 g2 g3 g4 = Some uni2 -> is_low_surrogate uni2 = true ->
  scanstring (92 :: 117 :: h1 :: h2 :: h3 :: h4 :: 92 :: 117 :: g1 :: g2 :: g3 :: g4 :: r3)
  = prepend (0x10000 + Z.lor (Z.shiftl (uni - 0xD800) 10) (uni2 - 0xDC00)) (scanstring r3).
Proof.
  intros Hd Hh Hd2 Hl. cbn [scanstring]. rewrite Hd, Hh.
  change (92 =? 34) with false. change (92 =? 92) with true.
  change (117 =? 117) with true. cbn [andb]. cbv iota. rewrite Hd2, Hl. reflexivity.
Qed.

Lemma lone_after_head (c : codepoint) (r : pystr) : c <> 92 -> lone_after (c :: r).
Proof. intros Hc g1 g2 g3 g4 r3 Heq. injection Heq as Heq _. contradiction. Qed.

Lemma lone_after_second (c : codepoint) (r : pystr) : c <> 117 -> lone_after (92 :: c :: r).
Proof. intros Hc g1 g2 g3 g4 r3 Heq. injection Heq as Heq _. contradiction. Qed.

Lemma lone_after_hex4 (n : Z) (r : pystr) :
  0 <= n < 0x10000 -> is_low_surrogate n = false ->
  lone_after (92 :: 117 :: hex4 n ++ r).
Proof.
  intros Hn Hlow g1 g2 g3 g4 r3 Heq.
  pose proof (decode_hex4 n Hn) as Hd. unfold hex4 in *.
  cbn [app] in Heq. injection Heq as <- <- <- <- _.
  exists n. split; assumption.
Qed.

Lemma escape_char_lone (c : codepoint) (t : pystr) :
  is_codepoint c = true -> is_low_surrogate c = false ->
  lone_after (escape_char c ++ t).
Proof.
  unfold is_codepoint, escape_char. intros Hc Hlow.
  apply andb_true_iff in Hc. destruct Hc as [H0 Hmax].
  apply Z.leb_le in H0, Hmax.
  destruct (Z.eqb_spec c 34); [apply lone_after_second; lia |].
  destruct (Z.eqb_spec c 92); [apply lone_after_second; lia |].
  destruct (Z.eqb_spec c 8); [apply lone_after_second; lia |].
  destruct (Z.eqb_spec c 12); [apply lone_after_second; lia |].
  destruct (Z.eqb_spec c 10); [apply lone_after_second; lia |].
  destruct (Z.eqb_spec c 13); [apply lone_after_second; lia |].
  destruct (Z.eqb_spec c 9); [apply lone_after_second; lia |].
  destruct ((32 <=? c) && (c <=? 126)); [apply lone_after_head; lia |].
  destruct (Z.ltb_spec c 0x10000) as [Hbmp | Hsup].
  - apply lone_after_hex4; [lia | exact Hlow].
  - cbv zeta. rewrite high_half by lia.
    rewrite <- app_assoc. apply (lone_after_hex4 (0xD800 + (c - 0x10000) / 1024)).
    + Z.div_mod_to_equations; lia.
    + unfold is_low_surrogate. apply andb_false_intro1. apply Z.leb_gt.
      Z.div_mod_to_equations; lia.
Qed.

Lemma scanstring_escape_char (c : codepoint) (t : pystr) :
  is_codepoint c = true ->
  (is_high_surrogate c = true -> lone_after t) ->
  scanstring (escape_char c ++ t) = prepend c (scanstring t).
Proof.
  unfold is_codepoint, escape_char. intros Hc Hlone.
  apply andb_true_iff in Hc. destruct Hc as [H0 Hmax].
  apply Z.leb_le in H0, Hmax.
  destruct (Z.eqb_spec c 34) as [-> |]; [reflexivity |].
  destruct (Z.eqb_spec c 92) as [-> |]; [reflexivity |].
  destruct (Z.eqb_spec c 8) as [-> |]; [reflexivity |].
  destruct (Z.eqb_spec c 12) as [-> |]; [reflexivity |].
  destruct (Z.eqb_spec c 10) as [-> |]; [reflexivity |].
  destruct (Z.eqb_spec c 13) as [-> |]; [reflexivity |].
  destruct (Z.eqb_spec c 9) as [-> |]; [reflexivity |].
  destruct ((32 <=? c) && (c <=? 126)) eqn:Hp.
  - apply andb_true_iff in Hp. destruct Hp as [Hp _]. apply Z.leb_le in Hp.
    apply scanstring_plain; lia.
  - destruct (Z.ltb_spec c 0x10000) as [Hbmp | Hsup].
    + pose proof (decode_hex4 c (conj H0 Hbmp)) as Hd. unfold hex4 in *.
      apply scanstring_lone; assumption.
    + cbv zeta. rewrite high_half, low_half by lia.
      set (off := c - 0x10000).
      assert (Hn : 0 <= off < 0x100000) by (subst off; lia).
      pose proof (decode_hex4 (0xD800 + off / 1024)) as Hd1.
      pose proof (decode_hex4 (0xDC00 + off mod 1024)) as Hd2.
      unfold hex4 in *. cbn [app].
      etransitivity.
      { apply (scanstring_pair _ _ _ _ _ _ _ _ (0xD800 + off / 1024) (0xDC00 + off mod 1024)).
        - apply Hd1. Z.div_mod_to_equations; lia.
        - unfold is_high_surrogate. apply andb_true_intro; split;
            apply Z.leb_le; Z.div_mod_to_equations; lia.
        - apply Hd2. Z.div_mod_to_equations; lia.
        - unfold is_low_surrogate. apply andb_true_intro; split;
            apply Z.leb_le; Z.div_mod_to_equations; lia. }
      rewrite join_halves by exact Hn. f_equal. subst off. lia.
Qed.

Lemma py_text_cons (c : codepoint) (s : pystr) :
  py_text (c :: s) = true ->
  is_codepoint c = true /\ py_text s = true /\
  (is_high_surrogate c = true ->
   match s with c' :: _ => is_low_surrogate c' = false | [] => True end).
Proof.
  cbn [py_text]. intros H.
  apply andb_true_iff in H. destruct H as [H Hs].
  apply andb_true_iff in H. destruct H as [Hc Hn].
  repeat split; try assumption.
  intros Hh. destruct s as [| c' s']; [exact I |].
  rewrite Hh in Hn. cbn [andb] in Hn. now apply negb_true_iff in Hn.
Qed.

Lemma scanstring_escape (s rest : pystr) :
  py_text s = true ->
  scanstring (flat_map escape_char s ++ 34 :: rest) = Ok (s, rest).
Proof.
  induction s as [| c s IH]; intros Hs.
  - reflexivity.
  - apply py_text_cons in Hs. destruct Hs as (Hc & Hs & Hnext).
    cbn [flat_map]. rewrite <- app_assoc.
    rewrite scanstring_escape_char.
    + rewrite (IH Hs). reflexivity.
    + exact Hc.
    + intros Hh. specialize (Hnext Hh).
      destruct s as [| c' s'].
      * apply lone_after_head. lia.
      * cbn [flat_map]. rewrite <- app_assoc. apply escape_char_lone.
        -- apply py_text_cons in Hs. apply Hs.
        -- exact Hnext.
Qed.

(** ** Decimal digits *)

Lemma is_digit_range (c : codepoint) : is_digit c = true <-> 48 <= c <= 57.
Proof.
  unfold is_digit. rewrite andb_true_iff, !Z.leb_le. reflexivity.
Qed.

Lemma digits_val_snoc (acc : Z) (ds : pystr) (c : codepoint) :
  digits_val acc (ds ++ [c]) = 10 * digits_val acc ds + (c - 48).
Proof. unfold digits_val. rewrite fold_left_app. reflexivity. Qed.

(** The digits of [n]: a leading digit and the rest; the leading digit is
    zero only for [n = 0]. *)
Lemma decimal_digits_spec (fuel : nat) :
  forall n, 0 <= n < 2 ^ Z.of_nat fuel -> (0 < fuel)%nat ->
  exists c r,
    decimal_digits fuel n = c :: r /\ 48 <= c <= 57 /\
    Forall (fun d => 48 <= d <= 57) r /\
    digits_val (c - 48) r = n /\
    (n = 0 -> c = 48 /\ r = []) /\ (0 < n -> 49 <= c).
Proof.
  induction fuel as [| fuel IH]; intros n Hn Hfuel; [lia |].
  cbn [decimal_digits].
  destruct (Z.ltb_spec n 10) as [Hsmall | Hbig].
  - exists (48 + n), [].
    split; [reflexivity |]. split; [lia |]. split; [constructor |].
    split; [unfold digits_val; cbn [fold_left]; lia |].
    split; [intros ->; split; reflexivity | lia].
  - assert (Hq : 1 <= n / 10) by (Z.div_mod_to_equations; lia).
    assert (Hpow : 2 ^ Z.of_nat (S fuel) = 2 * 2 ^ Z.of_nat fuel).
    { rewrite Nat2Z.inj_succ, Z.pow_succ_r by lia. reflexivity. }
    rewrite Hpow in Hn. clear Hpow.
    assert (Hlt : n / 10 < 2 ^ Z.of_nat fuel).
    { revert Hn. generalize (2 ^ Z.of_nat fuel). intros p Hn.
      clear - Hn Hbig. Z.div_mod_to_equations; lia. }
    assert (Hf : (0 < fuel)%nat).
    { destruct fuel; [cbn in Hlt; lia | lia]. }
    assert (Hq0 : 0 <= n / 10) by lia.
    destruct (IH (n / 10) (conj Hq0 Hlt) Hf)
      as (c & r & Heq & Hc & Hr & Hval & _ & Hlead).
    exists c, (r ++ [48 + n mod 10]). rewrite Heq.
    split; [reflexivity |]. split; [lia |]. split.
    { apply Forall_app. split; [exact Hr |].
      constructor; [Z.div_mod_to_equations; lia | constructor]. }
    split; [rewrite digits_val_snoc, Hval; Z.div_mod_to_equations; lia |].
    split; [lia |]. intros _. apply Hlead. lia.
Qed.

Lemma decimal_digits_nat (n : Z) :
  0 <= n ->
  exists c r,
    decimal_digits (S (Z.to_nat (Z.log2 n))) n = c :: r /\ 48 <= c <= 57 /\
    Forall (fun d => 48 <= d <= 57) r /\
    digits_val (c - 48) r = n /\
    (n = 0 -> c = 48 /\ r = []) /\ (0 < n -> 49 <= c).
Proof.
  intros Hn. apply decimal_digits_spec; [| lia].
  split; [lia |].
  rewrite Nat2Z.inj_succ, Z2Nat.id by apply Z.log2_nonneg.
  destruct (Z.eq_dec n 0) as [-> | Hnz]; [reflexivity |].
  apply Z.log2_spec. lia.
Qed.

Lemma span_digits_app (r rest : pystr) :
  Forall (fun d => 48 <= d <= 57) r ->
  match rest with c :: _ => is_digit c = false | [] => True end ->
  forall acc, span_digits acc (r ++ rest) = (digits_val acc r, rest).
Proof.
  intros Hr Hrest. induction Hr as [| d r Hd Hr IH]; intros acc.
  - cbn [app]. destruct rest as [| c rest']; [reflexivity |].
    cbn [span_digits]. rewrite Hrest. reflexivity.
  - cbn [app span_digits].
    replace (is_digit d) with true by (symmetry; apply is_digit_range; exact Hd).
    apply IH.
Qed.

Lemma delimited_not_digit (rest : pystr) :
  delimited rest = true ->
  match rest with c :: _ => is_digit c = false | [] => True end.
Proof.
  destruct rest as [| c rest']; [trivial |].
  unfold delimited, is_digit. intros H.
  apply orb_true_iff in H. destruct H as [H | H].
  - apply orb_true_iff in H. destruct H as [H | H]; apply Z.eqb_eq in H; subst; reflexivity.
  - apply Z.eqb_eq in H; subst; reflexivity.
Qed.

Lemma delimited_not_float (rest : pystr) :
  delimited rest = true -> float_follows rest = false.
Proof.
  destruct rest as [| c rest']; [reflexivity |].
  unfold delimited. intros H.
  apply orb_true_iff in H. destruct H as [H | H].
  - apply orb_true_iff in H. destruct H as [H | H]; apply Z.eqb_eq in H; subst; reflexivity.
  - apply Z.eqb_eq in H; subst; reflexivity.
Qed.

Lemma match_number_digits (neg : bool) (c : codepoint) (r rest : pystr) (n : Z) :
  48 <= c <= 57 -> Forall (fun d => 48 <= d <= 57) r ->
  digits_val (c - 48) r = n -> (n = 0 -> c = 48 /\ r = []) -> (0 < n -> 49 <= c) ->
  0 <= n -> delimited rest = true ->
  match_number ((if neg then [45] else []) ++ c :: r ++ rest)
  = Ok (JInt (if neg then - n else n), rest).
Proof.
  intros Hc Hr Hval Hzero Hpos Hn Hrest.
  assert (Hbody :
    match c :: r ++ rest with
    | c :: r =>
        if (49 <=? c) && (c <=? 57) then
          let '(n, rest) := span_digits (c - 48) r in finish_number neg n rest
        else if c =? 48 then finish_number neg 0 r
        else Raise JSONDecodeError
    | [] => Raise JSONDecodeError
    end = Ok (JInt (if neg then - n else n), rest)).
  { destruct (Z.eq_dec n 0) as [Hz | Hnz].
    - destruct (Hzero Hz) as [-> ->]. subst n. cbn [app].
      change ((49 <=? 48) && (48 <=? 57)) with false.
      change (48 =? 48) with true. cbv iota.
      unfold finish_number. rewrite delimited_not_float by exact Hrest. reflexivity.
    - assert (49 <= c) by (apply Hpos; lia).
      replace ((49 <=? c) && (c <=? 57)) with true
        by (symmetry; apply andb_true_intro; split; apply Z.leb_le; lia).
      rewrite span_digits_app; [| exact Hr | apply delimited_not_digit; exact Hrest].
      rewrite Hval. unfold finish_number.
      rewrite delimited_not_float by exact Hrest. reflexivity. }
  unfold match_number. destruct neg; cbn [app].
  - change (45 =? 45) with true. exact Hbody.
  - replace (c =? 45) with false by cmp_false. exact Hbody.
Qed.

Lemma match_number_int (n : Z) (rest : pystr) :
  delimited rest = true ->
  match_number (int_repr n ++ rest) = Ok (JInt n, rest).
Proof.
  intros Hrest. unfold int_repr.
  destruct (Z.ltb_spec n 0) as [Hneg | Hpos].
  - destruct (decimal_digits_nat (- n)) as (c & r & Heq & Hc & Hr & Hval & Hz & Hp); [lia |].
    rewrite Heq.
    pose proof (match_number_digits true c r rest (- n) Hc Hr Hval Hz Hp) as H.
    cbn [app] in *.
    etransitivity; [apply H; assumption || lia |].
    do 3 f_equal. lia.
  - destruct (decimal_digits_nat n Hpos) as (c & r & Heq & Hc & Hr & Hval & Hz & Hp).
    rewrite Heq.
    pose proof (match_number_digits false c r rest n Hc Hr Hval Hz Hp) as H.
    cbn [app] in *. apply H; assumption.
Qed.

(** ** [scan_once] reads back what [json_dumps] wrote *)

Lemma value_start_digit (c : Z) : 48 <= c <= 57 -> value_start c.
Proof.
  intros Hc. unfold value_start, is_ws. decide_cmp. repeat split; (reflexivity || lia).
Qed.

Lemma json_dumps_head (v : json) :
  exists c t, json_dumps v = c :: t /\ value_start c.
Proof.
  destruct v as [| [|] | n | s | items | members]; cbn [json_dumps]; eval_lits;
    try (eexists _, _; split; [reflexivity |];
         unfold value_start; repeat split; (reflexivity || lia)).
  unfold int_repr. destruct (Z.ltb_spec n 0) as [Hneg | Hpos].
  - eexists _, _. split; [reflexivity |].
    unfold value_start; repeat split; (reflexivity || lia).
  - destruct (decimal_digits_nat n Hpos) as (c & r & Heq & Hc & _).
    exists c, r. split; [exact Heq | apply value_start_digit; exact Hc].
Qed.

Lemma skip_ws_space (t : pystr) : skip_ws (32 :: t) = skip_ws t.
Proof. reflexivity. Qed.

Lemma skip_ws_other (c : Z) (t : pystr) : is_ws c = false -> skip_ws (c :: t) = c :: t.
Proof. intros H. cbn [skip_ws]. rewrite H. reflexivity. Qed.

Lemma skip_ws_start (c : Z) (t : pystr) :
  value_start c -> skip_ws (c :: t) = c :: t.
Proof. intros (Hws & _). cbn [skip_ws]. rewrite Hws. reflexivity. Qed.

(** Escapes and digits are printable ASCII. *)
Lemma startswith_head (c p : Z) (r q : pystr) :
  c <> p -> startswith (c :: r) (p :: q) = false.
Proof. intros H. cbn [startswith]. decide_cmp. reflexivity. Qed.

Lemma scan_once_number (fuel : nat) (c : Z) (r : pystr) :
  48 <= c <= 57 \/ (c = 45 /\ exists d r', r = d :: r' /\ 48 <= d <= 57) ->
  scan_once (S fuel) (c :: r) = match_number (c :: r).
Proof.
  intros H. cbn [scan_once]. eval_lits.
  destruct H as [Hc | (-> & d & r' & -> & Hd)].
  - decide_cmp. rewrite !startswith_head by lia. reflexivity.
  - change (45 =? 34) with false. change (45 =? 123) with false.
    change (45 =? 91) with false. cbv iota.
    rewrite !startswith_head by lia.
    cbn [startswith]. decide_cmp. reflexivity.
Qed.

Lemma scan_once_int (fuel : nat) (n : Z) (rest : pystr) :
  delimited rest = true ->
  scan_once (S fuel) (int_repr n ++ rest) = Ok (JInt n, rest).
Proof.
  intros Hrest. rewrite <- (match_number_int n rest Hrest).
  unfold int_repr. destruct (Z.ltb_spec n 0) as [Hneg | Hpos].
  - destruct (decimal_digits_nat (- n)) as (c & r & Heq & Hc & _); [lia |].
    rewrite Heq. cbn [app]. apply scan_once_number.
    right. split; [reflexivity |]. exists c, (r ++ rest). split; [reflexivity | exact Hc].
  - destruct (decimal_digits_nat n Hpos) as (c & r & Heq & Hc & _).
    rewrite Heq. cbn [app]. apply scan_once_number. left. exact Hc.
Qed.

Lemma scan_once_str (fuel : nat) (s rest : pystr) :
  py_text s = true ->
  scan_once (S fuel) (encode_basestring_ascii s ++ rest) = Ok (JStr s, rest).
Proof.
  intros Hs. unfold encode_basestring_ascii.
  cbn [app scan_once]. change (34 =? 34) with true. cbv iota.
  rewrite <- app_assoc. cbn [app]. rewrite scanstring_escape by exact Hs. reflexivity.
Qed.

(** Dict assignment of a fresh key appends. *)
Lemma pystr_eqb_eq (a b : pystr) : pystr_eqb a b = true <-> a = b.
Proof.
  unfold pystr_eqb. destruct (list_eq_dec Z.eq_dec a b); split; congruence.
Qed.

Lemma existsb_eqb_In (k : pystr) (keys : list pystr) :
  existsb (pystr_eqb k) keys = true <-> In k keys.
Proof.
  rewrite existsb_exists. split.
  - intros (x & Hin & Heq). apply pystr_eqb_eq in Heq. now subst.
  - intros Hin. exists k. split; [exact Hin | now apply pystr_eqb_eq].
Qed.

Lemma distinct_NoDup (keys : list pystr) : distinct keys = true <-> NoDup keys.
Proof.
  induction keys as [| k keys IH]; cbn [distinct].
  - split; [constructor | reflexivity].
  - rewrite andb_true_iff, negb_true_iff, IH. split.
    + intros [Hk Hnd]. constructor; [| exact Hnd].
      intros Hin. apply existsb_eqb_In in Hin. congruence.
    + intros Hnd. inversion Hnd as [| ? ? Hk Hnd']; subst. split; [| exact Hnd'].
      destruct (existsb (pystr_eqb k) keys) eqn:E; [| reflexivity].
      apply existsb_eqb_In in E. contradiction.
Qed.

Lemma dict_set_fresh (d : list (pystr * json)) (k : pystr) (v : json) :
  ~ In k (map fst d) -> dict_set d k v = d ++ [(k, v)].
Proof.
  induction d as [| [k' v'] d IH]; intros Hk; cbn [dict_set app].
  - reflexivity.
  - cbn [map fst In] in Hk.
    destruct (pystr_eqb k' k) eqn:E.
    + apply pystr_eqb_eq in E. tauto.
    + rewrite IH by tauto. reflexivity.
Qed.

Lemma join_cons2 (sep p : pystr) (q : pystr) (rest : list pystr) :
  join sep (p :: q :: rest) = p ++ sep ++ join sep (q :: rest).
Proof. reflexivity. Qed.

Lemma join_start (f : json -> pystr) (v : json) (items : list json) (tail : pystr) :
  (forall v, exists c t, f v = c :: t /\ value_start c) ->
  exists c t, join [44; 32] (map f (v :: items)) ++ tail = c :: t /\ value_start c.
Proof.
  intros Hf. destruct (Hf v) as (c & t & Heq & Hc).
  destruct items as [| v' items'].
  - cbn [map join]. rewrite Heq. exists c, (t ++ tail). split; [reflexivity | exact Hc].
  - cbn [map]. rewrite join_cons2, Heq. eexists c, _. split; [reflexivity | exact Hc].
Qed.

Lemma parse_array_dumps (items : list json) :
  Forall reads_back items -> forallb json_value items = true -> items <> [] ->
  forall fuel rval rest,
    (fold_right (fun v a => S (size v + a)) O items <= fuel)%nat ->
    parse_array fuel rval (join [44; 32] (map json_dumps items) ++ 93 :: rest)
    = Ok (JArr (rval ++ items), rest).
Proof.
  induction 1 as [| v items Hv Hitems IH]; intros Hwf Hne fuel rval rest Hfuel;
    [congruence |].
  cbn [forallb] in Hwf. apply andb_true_iff in Hwf. destruct Hwf as [Hwfv Hwf].
  cbn [fold_right] in Hfuel.
  destruct fuel as [| fuel]; [lia |].
  destruct items as [| v' items'].
  - cbn [map join parse_array].
    rewrite (Hv Hwfv) by (reflexivity || lia).
    rewrite (skip_ws_other 93) by reflexivity. reflexivity.
  - cbn [map]. rewrite join_cons2, <- !app_assoc. cbn [parse_array].
    rewrite (Hv Hwfv) by (reflexivity || lia).
    cbn [app]. rewrite (skip_ws_other 44) by reflexivity.
    change (44 =? 93) with false. change (44 =? 44) with true. cbv iota.
    rewrite skip_ws_space.
    destruct (join_start json_dumps v' items' (93 :: rest) json_dumps_head)
      as (c & t & Heq & Hc).
    change (json_dumps v' :: map json_dumps items') with (map json_dumps (v' :: items')).
    rewrite Heq, skip_ws_start by exact Hc. rewrite <- Heq.
    rewrite IH; [| exact Hwf | discriminate | lia].
    rewrite <- app_assoc. reflexivity.
Qed.

Lemma parse_object_dumps (members : list (pystr * json)) :
  Forall (fun kv => reads_back (snd kv)) members ->
  forallb (fun kv => let '(k, v) := kv in py_text k && json_value v) members = true ->
  members <> [] ->
  forall fuel rval rest,
    (fold_right (fun kv a => let '(_, v) := kv in S (size v + a)) O members <= fuel)%nat ->
    NoDup (map fst members) ->
    (forall k, In k (map fst members) -> ~ In k (map fst rval)) ->
    parse_object fuel rval (join [44; 32] (map dumps_member members) ++ 125 :: rest)
    = Ok (JObj (rval ++ members), rest).
Proof.
  induction 1 as [| [k v] members Hv Hmembers IH];
    intros Hwf Hne fuel rval rest Hfuel Hnd Hfresh; [congruence |].
  cbn [forallb] in Hwf. apply andb_true_iff in Hwf. destruct Hwf as [Hwfv Hwf].
  apply andb_true_iff in Hwfv. destruct Hwfv as [Hk Hwfv].
  cbn [fold_right] in Hfuel. cbn [snd] in Hv.
  cbn [map fst] in Hnd, Hfresh. inversion Hnd as [| ? ? Hknew Hnd']; subst.
  destruct fuel as [| fuel]; [lia |].
  assert (Hset : dict_set rval k v = rval ++ [(k, v)]).
  { apply dict_set_fresh. apply Hfresh. left. reflexivity. }
  assert (Hkey : forall tail,
    parse_object (S fuel) rval (dumps_member (k, v) ++ tail)
    = match scan_once fuel (json_dumps v ++ tail) with
      | Ok (val, r3) =>
          let rval' := dict_set rval k val in
          match skip_ws r3 with
          | c3 :: r4 =>
              if c3 =? 125 then Ok (JObj rval', r4)
              else if c3 =? 44 then parse_object fuel rval' (skip_ws r4)
              else Raise JSONDecodeError
          | [] => Raise JSONDecodeError
          end
      | other => other
      end).
  { intros tail. unfold dumps_member, encode_basestring_ascii.
    cbn [app parse_object]. change (34 =? 34) with true. cbv iota.
    rewrite <- !app_assoc. cbn [app].
    rewrite scanstring_escape by exact Hk.
    rewrite (skip_ws_other 58) by reflexivity.
    change (58 =? 58) with true. cbv iota. rewrite skip_ws_space.
    destruct (json_dumps_head v) as (c & t & Heq & Hc).
    rewrite Heq. cbn [app]. rewrite skip_ws_start by exact Hc. reflexivity. }
  destruct members as [| kv' members'].
  - cbn [map join]. rewrite Hkey.
    rewrite (Hv Hwfv) by (reflexivity || lia).
    cbv zeta. rewrite Hset. rewrite (skip_ws_other 125) by reflexivity. reflexivity.
  - cbn [map]. rewrite join_cons2, <- !app_assoc. rewrite Hkey.
    rewrite (Hv Hwfv) by (reflexivity || lia).
    cbv zeta. rewrite Hset.
    cbn [app]. rewrite (skip_ws_other 44) by reflexivity.
    change (44 =? 125) with false. change (44 =? 44) with true. cbv iota.
    rewrite skip_ws_space.
    assert (Hstart : exists t, join [44; 32] (map dumps_member (kv' :: members')) ++ 125 :: rest
                               = 34 :: t).
    { destruct kv' as [k' v']. destruct members'; cbn [map join dumps_member];
        unfold encode_basestring_ascii; cbn [app]; eexists; reflexivity. }
    destruct Hstart as (t & Heq).
    change (dumps_member kv' :: map dumps_member members')
      with (map dumps_member (kv' :: members')).
    rewrite Heq. rewrite (skip_ws_other 34) by reflexivity. rewrite <- Heq.
    rewrite IH; [| exact Hwf | discriminate | lia | exact Hnd' |].
    + rewrite <- app_assoc. reflexivity.
    + intros k0 Hin. rewrite map_app, in_app_iff. cbn [map fst In].
      intros [Hold | [Hsame | []]].
      * apply (Hfresh k0); [right; exact Hin | exact Hold].
      * subst k0. contradiction.
Qed.

Lemma scan_once_dumps (v : json) : reads_back v.
Proof.
  induction v as [| b | n | s | items IH | members IH] using json_ind_nested;
    intros Hwf fuel rest Hfuel Hrest;
    (destruct fuel as [| fuel]; [cbn [size] in Hfuel; lia |]).
  - vm_compute. reflexivity.
  - destruct b; vm_compute; reflexivity.
  - apply scan_once_int. exact Hrest.
  - apply scan_once_str. exact Hwf.
  - cbn [json_dumps]. eval_lits. destruct items as [| v items].
    + vm_compute. reflexivity.
    + cbn [app scan_once]. change (91 =? 34) with false. change (91 =? 123) with false.
      change (91 =? 91) with true. cbv iota.
      rewrite <- app_assoc. cbn [app].
      destruct (join_start json_dumps v items (93 :: rest) json_dumps_head)
        as (c & t & Heq & Hc).
      rewrite Heq, skip_ws_start by exact Hc.
      destruct Hc as (_ & Hc93 & _ ).
      replace (c =? 93) with false by cmp_false.
      rewrite <- Heq.
      cbn [size] in Hfuel.
      rewrite parse_array_dumps; [reflexivity | exact IH | exact Hwf | discriminate | lia].
  - cbn [json_dumps]. eval_lits. destruct members as [| kv members].
    + vm_compute. reflexivity.
    + cbn [app scan_once]. change (123 =? 34) with false. change (123 =? 123) with true.
      cbv iota. rewrite <- app_assoc. cbn [app].
      cbn [json_value] in Hwf. apply andb_true_iff in Hwf. destruct Hwf as [Hnd Hwf].
      apply distinct_NoDup in Hnd.
      match goal with
      | |- context [map ?f (kv :: members)] =>
          change (map f (kv :: members)) with (map dumps_member (kv :: members))
      end.
      assert (Hstart : exists t, join [44; 32] (map dumps_member (kv :: members)) ++ 125 :: rest
                                 = 34 :: t).
      { destruct kv as [k' v']. destruct members; cbn [map join dumps_member];
          unfold encode_basestring_ascii; cbn [app]; eexists; reflexivity. }
      destruct Hstart as (t & Heq).
      rewrite Heq. rewrite (skip_ws_other 34) by reflexivity.
      change (34 =? 125) with false. cbv iota. rewrite <- Heq.
      cbn [size] in Hfuel.
      rewrite parse_object_dumps;
        [reflexivity | exact IH | exact Hwf | discriminate | lia | exact Hnd |].
      intros k _ [].
Qed.

(** ** The budget of [json_loads] suffices *)

Lemma join_length_items (f : json -> pystr) (items : list json) :
  Forall (fun v => (size v <= List.length (f v))%nat) items ->
  (fold_right (fun v a => S (size v + a)) O items
   <= S (List.length (join [44; 32]%Z (map f items))))%nat.
Proof.
  induction 1 as [| v items Hv Hitems IH]; [cbn; lia |].
  destruct items as [| v' items'].
  - cbn [map join fold_right]. lia.
  - cbn [map]. rewrite join_cons2, !length_app. cbn [fold_right List.length] in *.
    cbn [map] in IH. lia.
Qed.

Lemma join_length_members (members : list (pystr * json)) :
  Forall (fun kv => (size (snd kv) <= List.length (json_dumps (snd kv)))%nat) members ->
  (fold_right (fun kv a => let '(_, v) := kv in S (size v + a)) O members
   <= S (List.length (join [44; 32]%Z (map dumps_member members))))%nat.
Proof.
  induction 1 as [| [k v] members Hv Hmembers IH]; [cbn; lia |].
  cbn [snd] in Hv.
  assert (Hm : (size v <= List.length (dumps_member (k, v)))%nat).
  { unfold dumps_member. rewrite !length_app. lia. }
  destruct members as [| kv' members'].
  - cbn [map join fold_right]. lia.
  - cbn [map]. rewrite join_cons2, !length_app. cbn [fold_right List.length] in *.
    cbn [map] in IH. lia.
Qed.

Lemma size_le_length (v : json) : (size v <= List.length (json_dumps v))%nat.
Proof.
  induction v as [| b | n | s | items IH | members IH] using json_ind_nested.
  - cbn. lia.
  - destruct b; cbn; lia.
  - destruct (json_dumps_head (JInt n)) as (c & t & Heq & _). rewrite Heq. cbn. lia.
  - cbn [json_dumps size]. unfold encode_basestring_ascii. cbn [List.length]. lia.
  - cbn [json_dumps size]. eval_lits. cbn [app List.length]. rewrite length_app.
    pose proof (join_length_items json_dumps items IH). cbn [List.length]. lia.
  - cbn [json_dumps size]. eval_lits. cbn [app List.length]. rewrite length_app.
    pose proof (join_length_members members IH) as H.
    match goal with
    | |- context [map ?f members] => change (map f members) with (map dumps_member members)
    end.
    cbn [List.length]. lia.
Qed.

(** Round trip of the serializer: [json.loads(json.dumps(v)) == v]. *)
Lemma json_loads_dumps (v : json) :
  json_value v = true -> json_loads (json_dumps v) = Ok v.
Proof.
  intros Hwf. unfold json_loads.
  destruct (json_dumps_head v) as (c & t & Heq & Hc).
  assert (Hbom : startswith (json_dumps v) [0xFEFF] = false).
  { rewrite Heq. apply startswith_head. apply Hc. }
  rewrite Hbom.
  assert (Hws : skip_ws (json_dumps v) = json_dumps v).
  { rewrite Heq. apply skip_ws_start. exact Hc. }
  rewrite Hws.
  rewrite <- (app_nil_r (json_dumps v)) at 2.
  rewrite (scan_once_dumps v Hwf); [reflexivity | | reflexivity].
  pose proof (size_le_length v). lia.
Qed.

(** ** The serializer writes printable ASCII *)

Lemma hexdigit_printable (d : Z) : 0 <= d < 16 -> printable (hexdigit d).
Proof. unfold hexdigit, printable. intros Hd. destruct (d <? 10); lia. Qed.

Lemma hex4_printable (n : Z) : Forall printable (hex4 n).
Proof.
  unfold hex4. repeat constructor; apply hexdigit_printable; Z.div_mod_to_equations; lia.
Qed.

Lemma escape_char_printable (c : Z) : Forall printable (escape_char c).
Proof.
  assert (Hu : forall n, Forall printable (92 :: 117 :: hex4 n)).
  { intros n. constructor; [unfold printable; lia |].
    constructor; [unfold printable; lia | apply hex4_printable]. }
  unfold escape_char.
  destruct (c =? 34); [repeat (constructor; [unfold printable; lia |]); constructor |].
  destruct (c =? 92); [repeat (constructor; [unfold printable; lia |]); constructor |].
  destruct (c =? 8); [repeat (constructor; [unfold printable; lia |]); constructor |].
  destruct (c =? 12); [repeat (constructor; [unfold printable; lia |]); constructor |].
  destruct (c =? 10); [repeat (constructor; [unfold printable; lia |]); constructor |].
  destruct (c =? 13); [repeat (constructor; [unfold printable; lia |]); constructor |].
  destruct (c =? 9); [repeat (constructor; [unfold printable; lia |]); constructor |].
  destruct ((32 <=? c) && (c <=? 126)) eqn:Hp.
  - apply andb_true_iff in Hp. destruct Hp as [H1 H2].
    apply Z.leb_le in H1, H2. constructor; [unfold printable; lia | constructor].
  - destruct (c <? 0x10000); [apply Hu |].
    cbv zeta. apply Forall_app. split; apply Hu.
Qed.

Lemma encode_basestring_printable (s : pystr) : Forall printable (encode_basestring_ascii s).
Proof.
  unfold encode_basestring_ascii. constructor; [unfold printable; lia |].
  apply Forall_app. split; [| repeat (constructor; [unfold printable; lia |]); constructor].
  induction s as [| c s IH]; [constructor |].
  cbn [flat_map]. apply Forall_app. split; [apply escape_char_printable | exact IH].
Qed.

Lemma decimal_digits_printable (fuel : nat) :
  forall n, 0 <= n -> Forall printable (decimal_digits fuel n).
Proof.
  induction fuel as [| fuel IH]; intros n Hn; cbn [decimal_digits]; [constructor |].
  destruct (Z.ltb_spec n 10).
  - repeat (constructor; [unfold printable; lia |]); constructor.
  - apply Forall_app. split.
    + apply IH. Z.div_mod_to_equations; lia.
    + constructor; [unfold printable; Z.div_mod_to_equations; lia | constructor].
Qed.

Lemma int_repr_printable (n : Z) : Forall printable (int_repr n).
Proof.
  unfold int_repr. destruct (Z.ltb_spec n 0).
  - constructor; [unfold printable; lia | apply decimal_digits_printable; lia].
  - apply decimal_digits_printable; lia.
Qed.

Lemma join_printable (parts : list pystr) :
  Forall (Forall printable) parts -> Forall printable (join [44; 32] parts).
Proof.
  induction 1 as [| p parts Hp Hparts IH]; [constructor |].
  destruct parts as [| q parts'].
  - exact Hp.
  - rewrite join_cons2. apply Forall_app. split; [exact Hp |].
    apply Forall_app. split; [repeat (constructor; [unfold printable; lia |]); constructor | exact IH].
Qed.

Lemma json_dumps_printable (v : json) : Forall printable (json_dumps v).
Proof.
  induction v as [| b | n | s | items IH | members IH] using json_ind_nested.
  - cbn [json_dumps]. eval_lits. repeat (constructor; [unfold printable; lia |]); constructor.
  - destruct b; cbn [json_dumps]; eval_lits;
      repeat (constructor; [unfold printable; lia |]); constructor.
  - apply int_repr_printable.
  - apply encode_basestring_printable.
  - cbn [json_dumps]. eval_lits. cbn [app]. constructor; [unfold printable; lia |].
    apply Forall_app. split; [| repeat (constructor; [unfold printable; lia |]); constructor].
    apply join_printable. apply Forall_map. exact IH.
  - cbn [json_dumps]. eval_lits. cbn [app]. constructor; [unfold printable; lia |].
    apply Forall_app. split; [| repeat (constructor; [unfold printable; lia |]); constructor].
    apply join_printable. apply Forall_map.
    eapply Forall_impl; [| exact IH].
    intros [k v] Hv. cbn [snd] in Hv.
    apply Forall_app. split; [apply encode_basestring_printable |].
    constructor; [unfold printable; lia |]. constructor; [unfold printable; lia | exact Hv].
Qed.

(** ASCII text is its own UTF-8 encoding, and decodes to itself. *)
Lemma utf8_encode_ascii (s : pystr) :
  Forall (fun c => 0 <= c < 128) s -> utf8_encode s = Some s.
Proof.
  induction 1 as [| c s Hc Hs IH]; [reflexivity |].
  cbn [utf8_encode]. rewrite IH. unfold utf8_char. decide_cmp. reflexivity.
Qed.

Lemma utf8_decode_ascii (s : list byte) :
  Forall (fun c => 0 <= c < 128) s -> utf8_decode s = Some s.
Proof.
  induction 1 as [| c s Hc Hs IH]; [reflexivity |].
  cbn [utf8_decode]. rewrite IH. decide_cmp. reflexivity.
Qed.

(** ** Reading a frame *)

Lemma printable_ascii (s : pystr) :
  Forall printable s -> Forall (fun c => 0 <= c < 128) s.
Proof. apply Forall_impl. unfold printable. intros; lia. Qed.

Lemma readline_line (l r : pystr) :
  ~ In 10 l -> readline (l ++ 10 :: r) = (l ++ [10], r).
Proof.
  induction l as [| c l IH]; intros Hl.
  - reflexivity.
  - cbn [app readline]. cbn [In] in Hl.
    replace (c =? 10) with false by cmp_false.
    rewrite IH by tauto. reflexivity.
Qed.

Lemma printable_no_newline (s : pystr) : Forall printable s -> ~ In 10 s.
Proof.
  intros Hs Hin. rewrite Forall_forall in Hs. specialize (Hs _ Hin).
  unfold printable in Hs. lia.
Qed.

Lemma scan_digits_app (r rest : pystr) :
  Forall (fun d => 48 <= d <= 57) r ->
  match rest with c :: _ => is_digit c = false /\ c <> 95 | [] => True end ->
  forall acc, scan_digits false acc (r ++ rest) = Some (digits_val acc r, rest).
Proof.
  intros Hr Hrest. induction Hr as [| d r Hd Hr IH]; intros acc.
  - cbn [app]. destruct rest as [| c rest']; [reflexivity |].
    destruct Hrest as [Hnd Hnu]. cbn [scan_digits]. rewrite Hnd.
    replace (c =? 95) with false by cmp_false. reflexivity.
  - cbn [app scan_digits].
    replace (is_digit d) with true by (symmetry; apply is_digit_range; exact Hd).
    apply IH.
Qed.

Lemma PyLong_FromString_header (n : Z) :
  0 <= n -> PyLong_FromString (32 :: int_repr n ++ [13; 10]) = Some n.
Proof.
  intros Hn. unfold int_repr.
  replace (n <? 0) with false by cmp_false.
  destruct (decimal_digits_nat n Hn) as (c & r & Heq & Hc & Hr & Hval & _).
  rewrite Heq. unfold PyLong_FromString.
  cbn [skip_space app]. change (Py_ISSPACE 32) with true. cbv iota.
  assert (Hsp : Py_ISSPACE c = false) by (unfold Py_ISSPACE; decide_cmp; reflexivity).
  rewrite Hsp.
  replace (c =? 43) with false by cmp_false.
  replace (c =? 45) with false by cmp_false.
  replace (is_digit c) with true by (symmetry; apply is_digit_range; exact Hc).
  change (c :: r ++ [13; 10]) with ((c :: r) ++ [13; 10]).
  rewrite scan_digits_app.
  - cbn [skip_space]. change (Py_ISSPACE 13) with true. change (Py_ISSPACE 10) with true.
    cbv iota. unfold digits_val in *. cbn [fold_left]. f_equal.
    replace (10 * 0 + (c - 48)) with (c - 48) by lia. rewrite Hval. lia.
  - constructor; assumption.
  - split; [reflexivity | lia].
Qed.

Lemma frame_text_ascii (response : json) :
  Forall (fun c => 0 <= c < 128) (frame_text (json_dumps response)).
Proof.
  unfold frame_text. eval_lits.
  apply Forall_app. split; [repeat (constructor; [lia |]); constructor |].
  apply Forall_app. split; [apply printable_ascii, int_repr_printable |].
  apply Forall_app. split; [repeat (constructor; [lia |]); constructor |].
  apply printable_ascii, json_dumps_printable.
Qed.

Lemma startswith_app (p s : pystr) : startswith (p ++ s) p = true.
Proof.
  induction p as [| c p IH]; [reflexivity |].
  cbn [app startswith]. rewrite Z.eqb_refl, IH. reflexivity.
Qed.

Lemma skipn_prefix (p s : pystr) : skipn (List.length p) (p ++ s) = s.
Proof. induction p as [| c p IH]; [reflexivity | exact IH]. Qed.

Lemma firstn_prefix (p s : pystr) : firstn (List.length p) (p ++ s) = p.
Proof. induction p as [| c p IH]; [reflexivity | cbn; now rewrite IH]. Qed.

(** A length that is no more than four times that of the text fits: the
    sizes of the texts that occur, and of their encodings, are such. *)
Lemma read_within (n : Z) (s : pystr) :
  0 <= n <= 4 * len s ->
  read n s = Some (firstn (Z.to_nat n) s, skipn (Z.to_nat n) s).
Proof.
  intros Hn. unfold read, sendable.
  replace (n <? PY_SSIZE_T_MIN) with false
    by (symmetry; apply Z.ltb_ge; unfold PY_SSIZE_T_MIN; lia).
  replace ((PY_SSIZE_T_MAX <? n) && (4 * len s <=? PY_SSIZE_T_MAX)) with false.
  - cbn [orb]. replace (n <? 0) with false by cmp_false. reflexivity.
  - symmetry. apply andb_false_iff.
    destruct (Z.ltb_spec PY_SSIZE_T_MAX n) as [Hbig | Hfits]; [right | left; reflexivity].
    apply Z.leb_gt. lia.
Qed.

Lemma read_body (body rest : pystr) :
  read (len body) (body ++ rest) = Some (body, rest).
Proof.
  rewrite read_within.
  - unfold len. rewrite Nat2Z.id, firstn_prefix, skipn_prefix. reflexivity.
  - unfold len. rewrite length_app. lia.
Qed.

(** What [read] returns when it returns. *)
Lemma read_some (n : Z) (s body rest : pystr) :
  read n s = Some (body, rest) ->
  body = firstn (if n <? 0 then List.length s else Z.to_nat n) s /\
  rest = skipn (if n <? 0 then List.length s else Z.to_nat n) s.
Proof.
  unfold read.
  destruct ((n <? PY_SSIZE_T_MIN) || ((PY_SSIZE_T_MAX <? n) && sendable s));
    [discriminate |].
  destruct (n <? 0); intros H; injection H as <- <-.
  - rewrite firstn_all, skipn_all. split; reflexivity.
  - split; reflexivity.
Qed.

(** ** What [int] accepts *)



Lemma skip_space_blanks (b t : pystr) (c : Z) :
  Forall (fun c => Py_ISSPACE c = true) b -> Py_ISSPACE c = false ->
  skip_space (b ++ c :: t) = c :: t.
Proof.
  intros Hb Hc. induction Hb as [| x b Hx Hb IH].
  - cbn [app skip_space]. rewrite Hc. reflexivity.
  - cbn [app skip_space]. rewrite Hx. exact IH.
Qed.

Lemma skip_space_all (b : pystr) :
  Forall (fun c => Py_ISSPACE c = true) b -> skip_space b = [].
Proof.
  induction 1 as [| x b Hx Hb IH]; [reflexivity |].
  cbn [skip_space]. rewrite Hx. exact IH.
Qed.

Lemma Py_ISSPACE_range (c : Z) :
  Py_ISSPACE c = true -> c = 32 \/ 9 <= c <= 13.
Proof.
  unfold Py_ISSPACE. rewrite orb_true_iff, andb_true_iff, Z.eqb_eq, !Z.leb_le. tauto.
Qed.









(** ** [json_loads] always answers *)

Lemma consumes_prepend (s s' : pystr) (c : Z) (r : result (pystr * pystr)) :
  consumes s' r -> (List.length s' <= List.length s)%nat -> consumes s (prepend c r).
Proof.
  destruct r as [[str rest] | e | |]; cbn [consumes prepend]; intros; (lia || trivial).
Qed.

Lemma scanstring_consumes_upto (n : nat) :
  forall s, (List.length s <= n)%nat -> consumes (34 :: s) (scanstring s).
Proof.
  induction n as [| n IH]; intros s Hn.
  - destruct s; [exact I | cbn in Hn; lia].
  - assert (Hrec : forall s', (List.length s' < List.length s)%nat ->
                              forall c, consumes (34 :: s) (prepend c (scanstring s'))).
    { intros s' Hs' c. apply (consumes_prepend _ (34 :: s')); [apply IH; lia | cbn; lia]. }
    destruct s as [| c r]; [exact I |].
    cbn [scanstring].
    destruct (c =? 34); [cbn; lia |].
    destruct (c =? 92).
    + destruct r as [| esc r1]; [exact I |].
      destruct (esc =? 117).
      * destruct r1 as [| h1 [| h2 [| h3 [| h4 r2]]]]; try exact I.
        destruct (decode_uXXXX h1 h2 h3 h4) as [uni |]; [| exact I].
        destruct (is_high_surrogate uni); [| apply Hrec; cbn; lia].
        destruct r2 as [| b [| u [| g1 [| g2 [| g3 [| g4 r3]]]]]];
          try (apply Hrec; cbn; lia).
        destruct ((b =? 92) && (u =? 117)); [| apply Hrec; cbn; lia].
        destruct (decode_uXXXX g1 g2 g3 g4) as [uni2 |]; [| exact I].
        destruct (is_low_surrogate uni2); apply Hrec; cbn; lia.
      * destruct (BACKSLASH esc); [apply Hrec; cbn; lia | exact I].
    + destruct (c <? 32); [exact I | apply Hrec; cbn; lia].
Qed.

Lemma scanstring_consumes (s : pystr) : consumes (34 :: s) (scanstring s).
Proof. apply (scanstring_consumes_upto (List.length s)). lia. Qed.

Lemma span_digits_length (s : pystr) :
  forall acc, (List.length (snd (span_digits acc s)) <= List.length s)%nat.
Proof.
  induction s as [| c s IH]; intros acc; cbn [span_digits]; [cbn; lia |].
  destruct (is_digit c); [specialize (IH (10 * acc + (c - 48))); cbn [List.length]; lia |].
  cbn; lia.
Qed.

Lemma match_number_consumes (s : pystr) : consumes s (match_number s).
Proof.
  assert (Hfin : forall neg n rest,
            (List.length rest < List.length s)%nat -> consumes s (finish_number neg n rest)).
  { intros neg n rest H. unfold finish_number. destruct (float_follows rest); [exact I | exact H]. }
  assert (Hbody : forall neg s1,
            (List.length s1 <= List.length s)%nat ->
            consumes s
              match s1 with
              | c :: r =>
                  if (49 <=? c) && (c <=? 57) then
                    let '(n, rest) := span_digits (c - 48) r in finish_number neg n rest
                  else if c =? 48 then finish_number neg 0 r
                  else Raise JSONDecodeError
              | [] => Raise JSONDecodeError
              end).
  { intros neg s1 Hs1. destruct s1 as [| c r]; [exact I |].
    destruct ((49 <=? c) && (c <=? 57)).
    - pose proof (span_digits_length r (c - 48)) as Hsp.
      destruct (span_digits (c - 48) r) as [n rest]. cbn [snd] in Hsp.
      apply Hfin. cbn [List.length] in Hs1. lia.
    - destruct (c =? 48); [apply Hfin; cbn [List.length] in Hs1; lia | exact I]. }
  unfold match_number. destruct s as [| c r].
  - exact I.
  - destruct (c =? 45).
    + apply (Hbody true r). cbn [List.length]. lia.
    + apply (Hbody false (c :: r)). lia.
Qed.

Lemma skip_ws_length (s : pystr) : (List.length (skip_ws s) <= List.length s)%nat.
Proof.
  induction s as [| c s IH]; cbn [skip_ws]; [lia |].
  destruct (is_ws c); cbn [List.length]; lia.
Qed.

(** With a budget of twice the text and one, no scan runs out. *)
Lemma consumes_shorter {A : Type} (s s' : pystr) (r : result (A * pystr)) :
  consumes s' r -> (List.length s' <= List.length s)%nat -> consumes s r.
Proof.
  destruct r as [[v rest] | e | |]; cbn [consumes]; intros; (lia || trivial).
Qed.

Lemma scan_consumes (fuel : nat) :
  (forall s, (2 * List.length s < fuel)%nat -> consumes (32 :: s) (scan_once fuel s)) /\
  (forall rval s, (2 * List.length s + 1 < fuel)%nat ->
                  consumes (32 :: s) (parse_object fuel rval s)) /\
  (forall rval s, (2 * List.length s + 1 < fuel)%nat ->
                  consumes (32 :: s) (parse_array fuel rval s)).
Proof.
  induction fuel as [| fuel (IHscan & IHobj & IHarr)].
  - repeat split; intros; lia.
  - split; [| split].
    + intros s Hfuel. cbn [scan_once].
      destruct s as [| c r]; [exact I |].
      cbn [List.length] in Hfuel.
      destruct (c =? 34).
      { pose proof (scanstring_consumes r) as H.
        destruct (scanstring r) as [[str rest] | e | |]; cbn [consumes List.length] in *;
          trivial; lia. }
      destruct (c =? 123).
      { pose proof (skip_ws_length r) as Hws.
        destruct (skip_ws r) as [| c' r'] eqn:Hsk; [exact I |].
        destruct (c' =? 125); [cbn in *; lia |].
        apply (consumes_shorter _ (32 :: c' :: r'));
          [apply IHobj | ]; cbn [List.length] in *; lia. }
      destruct (c =? 91).
      { pose proof (skip_ws_length r) as Hws.
        destruct (skip_ws r) as [| c' r'] eqn:Hsk; [exact I |].
        destruct (c' =? 93); [cbn in *; lia |].
        apply (consumes_shorter _ (32 :: c' :: r'));
          [apply IHarr | ]; cbn [List.length] in *; lia. }
      destruct (startswith (c :: r) (lit "null")).
      { cbn [consumes skipn]. destruct r as [| ? [| ? [| ? ?]]]; cbn [List.length]; lia. }
      destruct (startswith (c :: r) (lit "true")).
      { cbn [consumes skipn]. destruct r as [| ? [| ? [| ? ?]]]; cbn [List.length]; lia. }
      destruct (startswith (c :: r) (lit "false")).
      { cbn [consumes skipn]. destruct r as [| ? [| ? [| ? [| ? ?]]]]; cbn [List.length]; lia. }
      destruct (startswith (c :: r) (lit "NaN")); [exact I |].
      destruct (startswith (c :: r) (lit "Infinity")); [exact I |].
      destruct (startswith (c :: r) (lit "-Infinity")); [exact I |].
      apply (consumes_shorter _ (c :: r)); [apply match_number_consumes | cbn; lia].
    + intros rval s Hfuel. cbn [parse_object].
      destruct s as [| c r]; [exact I |]. cbn [List.length] in Hfuel.
      destruct (c =? 34); [| exact I].
      pose proof (scanstring_consumes r) as Hkey.
      destruct (scanstring r) as [[key r1] | e | |]; cbn [consumes] in Hkey; trivial.
      pose proof (skip_ws_length r1) as Hws1.
      destruct (skip_ws r1) as [| c1 r2]; [exact I |].
      destruct (c1 =? 58); [| exact I].
      pose proof (skip_ws_length r2) as Hws2.
      cbn [List.length] in *.
      assert (Hval : consumes (32 :: skip_ws r2) (scan_once fuel (skip_ws r2)))
        by (apply IHscan; lia).
      destruct (scan_once fuel (skip_ws r2)) as [[val r3] | e | |];
        cbn [consumes List.length] in Hval; trivial.
      cbv zeta. pose proof (skip_ws_length r3) as Hws3.
      destruct (skip_ws r3) as [| c3 r4] eqn:Hsk3; [exact I |].
      cbn [List.length] in *.
      destruct (c3 =? 125); [cbn; lia |].
      destruct (c3 =? 44); [| exact I].
      pose proof (skip_ws_length r4) as Hws4.
      apply (consumes_shorter _ (32 :: skip_ws r4));
        [apply IHobj | ]; cbn [List.length] in *; lia.
    + intros rval s Hfuel. cbn [parse_array].
      assert (Hval : consumes (32 :: s) (scan_once fuel s)) by (apply IHscan; lia).
      destruct (scan_once fuel s) as [[val r1] | e | |];
        cbn [consumes List.length] in Hval; trivial.
      cbv zeta. pose proof (skip_ws_length r1) as Hws1.
      destruct (skip_ws r1) as [| c r2] eqn:Hsk1; [exact I |].
      cbn [List.length] in *.
      destruct (c =? 93); [cbn; lia |].
      destruct (c =? 44); [| exact I].
      pose proof (skip_ws_length r2) as Hws2.
      apply (consumes_shorter _ (32 :: skip_ws r2));
        [apply IHarr | ]; cbn [List.length] in *; lia.
Qed.

Lemma json_loads_answers (s : pystr) : json_loads s <> OutOfFuel.
Proof.
  unfold json_loads. destruct (startswith s [0xFEFF]); [discriminate |].
  pose proof (skip_ws_length s) as Hws.
  assert (H : consumes (32 :: skip_ws s) (scan_once (2 * List.length s + 1) (skip_ws s))).
  { apply scan_consumes. lia. }
  destruct (scan_once (2 * List.length s + 1) (skip_ws s)) as [[obj rest] | e | |];
    cbn [consumes] in H; try discriminate; [| contradiction].
  destruct (skip_ws rest); discriminate.
Qed.

Lemma readline_length (s : pystr) :
  (List.length (fst (readline s)) + List.length (snd (readline s)) = List.length s)%nat.
Proof.
  induction s as [| c s IH]; [reflexivity |].
  cbn [readline]. destruct (c =? 10); [reflexivity |].
  destruct (readline s) as [l r]. cbn [fst snd List.length] in *. lia.
Qed.

Lemma read_length (n : Z) (s body rest : pystr) :
  read n s = Some (body, rest) -> (List.length rest <= List.length s)%nat.
Proof.
  intros H. apply read_some in H. destruct H as [_ ->].
  rewrite length_skipn. lia.
Qed.

(** ** Values the decoder builds *)

Lemma hexval_range (c v : Z) : hexval c = Some v -> 0 <= v < 16.
Proof.
  unfold hexval, is_digit. intros H.
  destruct ((48 <=? c) && (c <=? 57)) eqn:E1.
  { apply andb_true_iff in E1. destruct E1 as [A B]. apply Z.leb_le in A, B.
    injection H as <-. lia. }
  destruct ((97 <=? c) && (c <=? 102)) eqn:E2.
  { apply andb_true_iff in E2. destruct E2 as [A B]. apply Z.leb_le in A, B.
    injection H as <-. lia. }
  destruct ((65 <=? c) && (c <=? 70)) eqn:E3; [| discriminate].
  apply andb_true_iff in E3. destruct E3 as [A B]. apply Z.leb_le in A, B.
  injection H as <-. lia.
Qed.

Lemma decode_uXXXX_range (h1 h2 h3 h4 uni : Z) :
  decode_uXXXX h1 h2 h3 h4 = Some uni -> 0 <= uni < 0x10000.
Proof.
  unfold decode_uXXXX. intros H.
  destruct (hexval h1) as [v1 |] eqn:E1; [| discriminate].
  destruct (hexval h2) as [v2 |] eqn:E2; [| discriminate].
  destruct (hexval h3) as [v3 |] eqn:E3; [| discriminate].
  destruct (hexval h4) as [v4 |] eqn:E4; [| discriminate].
  apply hexval_range in E1, E2, E3, E4. injection H as <-. lia.
Qed.

Lemma surrogate_range (c : Z) :
  (is_high_surrogate c = true <-> 0xD800 <= c <= 0xDBFF) /\
  (is_low_surrogate c = true <-> 0xDC00 <= c <= 0xDFFF) /\
  (is_surrogate c = true <-> 0xD800 <= c <= 0xDFFF) /\
  (is_codepoint c = true <-> 0 <= c <= 0x10FFFF).
Proof.
  unfold is_high_surrogate, is_low_surrogate, is_surrogate, is_codepoint.
  rewrite !andb_true_iff, !Z.leb_le. tauto.
Qed.

Lemma scalar_range (c : Z) :
  scalar c = true <-> 0 <= c <= 0x10FFFF /\ ~ (0xD800 <= c <= 0xDFFF).
Proof.
  unfold scalar, is_codepoint, is_surrogate.
  rewrite !andb_true_iff, negb_true_iff, andb_false_iff, !Z.leb_le, !Z.leb_gt. lia.
Qed.

Lemma string_ok_prepend (s s' : pystr) (c : Z) :
  string_ok s' (scanstring s') ->
  is_codepoint c = true ->
  (is_high_surrogate c = true -> lone_after s') ->
  (is_low_surrogate c = true ->
   exists g1 g2 g3 g4 r3,
     s = 92 :: 117 :: g1 :: g2 :: g3 :: g4 :: r3 /\ decode_uXXXX g1 g2 g3 g4 = Some c) ->
  string_ok s (prepend c (scanstring s')).
Proof.
  intros Hok Hc Hlone Hlow.
  destruct (scanstring s') as [[str rest] | e | |]; cbn [prepend string_ok] in *; trivial.
  destruct Hok as (Htext & Hrest & Hhead).
  split; [| split; [exact Hrest | exact Hlow]].
  cbn [py_text]. rewrite Hc, Htext. cbn [andb]. rewrite andb_true_r.
  destruct str as [| c' str']; [reflexivity |].
  apply negb_true_iff. apply andb_false_iff.
  destruct (is_high_surrogate c) eqn:Hh; [right | left; reflexivity].
  destruct (is_low_surrogate c') eqn:Hl; [| reflexivity].
  destruct (Hhead eq_refl) as (g1 & g2 & g3 & g4 & r3 & Heq & Hd).
  destruct (Hlone eq_refl g1 g2 g3 g4 r3 Heq) as (uni2 & Hd2 & Hnl).
  congruence.
Qed.

Lemma scanstring_ok_upto (n : nat) :
  forall s, (List.length s <= n)%nat -> forallb scalar s = true ->
            string_ok s (scanstring s).
Proof.
  induction n as [| n IH]; intros s Hn Hs.
  - destruct s; [exact I | cbn in Hn; lia].
  - destruct s as [| c r]; [exact I |].
    cbn [scanstring].
    cbn [forallb] in Hs. apply andb_true_iff in Hs. destruct Hs as [Hc Hr].
    cbn [List.length] in Hn.
    destruct (Z.eqb_spec c 34) as [-> | Hq].
    { cbn [string_ok py_text]. auto. }
    destruct (Z.eqb_spec c 92) as [-> | Hb].
    + destruct r as [| esc r1]; [exact I |].
      cbn [forallb] in Hr. apply andb_true_iff in Hr. destruct Hr as [Hesc Hr1].
      cbn [List.length] in Hn.
      destruct (Z.eqb_spec esc 117) as [-> | Hu].
      * destruct r1 as [| h1 [| h2 [| h3 [| h4 r2]]]]; try exact I.
        assert (Hr2 : forallb scalar r2 = true).
        { cbn [forallb] in Hr1. repeat (apply andb_true_iff in Hr1; destruct Hr1 as [_ Hr1]).
          exact Hr1. }
        cbn [List.length] in Hn.
        destruct (decode_uXXXX h1 h2 h3 h4) as [uni |] eqn:Hd; [| exact I].
        pose proof (decode_uXXXX_range _ _ _ _ _ Hd) as Huni.
        assert (Hcp : is_codepoint uni = true) by (apply surrogate_range; lia).
        assert (Hlowcase : is_low_surrogate uni = true ->
                  exists g1 g2 g3 g4 r3,
                    92 :: 117 :: h1 :: h2 :: h3 :: h4 :: r2
                    = 92 :: 117 :: g1 :: g2 :: g3 :: g4 :: r3 /\
                    decode_uXXXX g1 g2 g3 g4 = Some uni).
        { intros _. exists h1, h2, h3, h4, r2. split; [reflexivity | exact Hd]. }
        assert (Hlone_case : forall (Hl : is_high_surrogate uni = true -> lone_after r2),
                  string_ok (92 :: 117 :: h1 :: h2 :: h3 :: h4 :: r2)
                            (prepend uni (scanstring r2))).
        { intros Hl. apply string_ok_prepend; try assumption. apply IH; [lia | exact Hr2]. }
        destruct (is_high_surrogate uni) eqn:Hh; [| apply Hlone_case; discriminate].
        destruct r2 as [| b [| u [| g1 [| g2 [| g3 [| g4 r3]]]]]];
          try (apply Hlone_case; intros _ ? ? ? ? ? Heq; discriminate Heq).
        destruct ((b =? 92) && (u =? 117)) eqn:Hbu.
        -- destruct (decode_uXXXX g1 g2 g3 g4) as [uni2 |] eqn:Hd2; [| exact I].
           destruct (is_low_surrogate uni2) eqn:Hl2.
           ++ apply string_ok_prepend.
              ** apply IH; [cbn [List.length] in *; lia |].
                 cbn [forallb] in Hr2.
                 repeat (apply andb_true_iff in Hr2; destruct Hr2 as [_ Hr2]). exact Hr2.
              ** apply surrogate_range in Hh, Hl2. apply surrogate_range.
                 rewrite Z.shiftl_mul_pow2 by lia. change (2 ^ 10) with 1024.
                 rewrite lor_shifted by lia. lia.
              ** intros Hhigh. apply surrogate_range in Hh, Hl2, Hhigh.
                 rewrite Z.shiftl_mul_pow2 in Hhigh by lia. change (2 ^ 10) with 1024 in Hhigh.
                 rewrite lor_shifted in Hhigh by lia. lia.
              ** intros Hlow. apply surrogate_range in Hh, Hl2, Hlow.
                 rewrite Z.shiftl_mul_pow2 in Hlow by lia. change (2 ^ 10) with 1024 in Hlow.
                 rewrite lor_shifted in Hlow by lia. lia.
           ++ apply Hlone_case. intros _ a1 a2 a3 a4 r5 Heq.
              injection Heq as _ _ <- <- <- <- _. exists uni2. split; assumption.
        -- apply Hlone_case. intros _ a1 a2 a3 a4 r5 Heq.
           injection Heq as Hb' Hu' _ _ _ _ _. subst b u. discriminate Hbu.
      * destruct (BACKSLASH esc) as [char |] eqn:Hesc'; [| exact I].
        assert (Hchar : 0 <= char < 128).
        { unfold BACKSLASH in Hesc'.
          repeat match type of Hesc' with
                 | (if ?b then _ else _) = _ => destruct b
                 end; try discriminate; injection Hesc' as <-; lia. }
        apply string_ok_prepend.
        -- apply IH; [lia | exact Hr1].
        -- apply surrogate_range. lia.
        -- intros Hh. apply surrogate_range in Hh. lia.
        -- intros Hl. apply surrogate_range in Hl. lia.
    + destruct (c <? 32); [exact I |].
      apply scalar_range in Hc.
      apply string_ok_prepend.
      * apply IH; [lia | exact Hr].
      * apply surrogate_range. lia.
      * intros Hh. apply surrogate_range in Hh. lia.
      * intros Hl. apply surrogate_range in Hl. lia.
Qed.

Lemma scanstring_text (s str rest : pystr) :
  forallb scalar s = true -> scanstring s = Ok (str, rest) ->
  py_text str = true /\ forallb scalar rest = true.
Proof.
  intros Hs Heq.
  pose proof (scanstring_ok_upto (List.length s) s (le_n _) Hs) as H.
  rewrite Heq in H. destruct H as (H1 & H2 & _). split; assumption.
Qed.

Lemma skip_ws_scalar (s : pystr) :
  forallb scalar s = true -> forallb scalar (skip_ws s) = true.
Proof.
  induction s as [| c s IH]; intros H; [reflexivity |].
  cbn [skip_ws]. destruct (is_ws c); [| exact H].
  cbn [forallb] in H. apply andb_true_iff in H. apply IH, H.
Qed.

Lemma skipn_scalar (n : nat) (s : pystr) :
  forallb scalar s = true -> forallb scalar (skipn n s) = true.
Proof.
  revert s. induction n as [| n IH]; intros s H; [exact H |].
  destruct s as [| c s]; [reflexivity |].
  cbn [forallb] in H. apply andb_true_iff in H. cbn [skipn]. apply IH, H.
Qed.

Lemma firstn_scalar (n : nat) (s : pystr) :
  forallb scalar s = true -> forallb scalar (firstn n s) = true.
Proof.
  revert s. induction n as [| n IH]; intros s H; [reflexivity |].
  destruct s as [| c s]; [reflexivity |].
  cbn [forallb] in H. apply andb_true_iff in H. destruct H as [Hc H].
  cbn [firstn forallb]. rewrite Hc, IH by exact H. reflexivity.
Qed.

Lemma span_digits_scalar (s : pystr) :
  forall acc, forallb scalar s = true -> forallb scalar (snd (span_digits acc s)) = true.
Proof.
  induction s as [| c s IH]; intros acc H; [reflexivity |].
  cbn [span_digits]. destruct (is_digit c); [| exact H].
  cbn [forallb] in H. apply andb_true_iff in H. apply IH, H.
Qed.

Lemma match_number_value (s : pystr) :
  forallb scalar s = true -> value_ok (match_number s).
Proof.
  intros Hs.
  assert (Hfin : forall neg n rest,
            forallb scalar rest = true -> value_ok (finish_number neg n rest)).
  { intros neg n rest H. unfold finish_number.
    destruct (float_follows rest); [exact I | split; [reflexivity | exact H]]. }
  assert (Hbody : forall neg s1,
            forallb scalar s1 = true ->
            value_ok
              match s1 with
              | c :: r =>
                  if (49 <=? c) && (c <=? 57) then
                    let '(n, rest) := span_digits (c - 48) r in finish_number neg n rest
                  else if c =? 48 then finish_number neg 0 r
                  else Raise JSONDecodeError
              | [] => Raise JSONDecodeError
              end).
  { intros neg s1 Hs1. destruct s1 as [| c r]; [exact I |].
    cbn [forallb] in Hs1. apply andb_true_iff in Hs1. destruct Hs1 as [_ Hr].
    destruct ((49 <=? c) && (c <=? 57)).
    - pose proof (span_digits_scalar r (c - 48) Hr) as Hsp.
      destruct (span_digits (c - 48) r) as [n rest]. apply Hfin, Hsp.
    - destruct (c =? 48); [apply Hfin, Hr | exact I]. }
  unfold match_number. destruct s as [| c r]; [exact I |].
  destruct (c =? 45).
  - apply (Hbody true r). cbn [forallb] in Hs. apply andb_true_iff in Hs. apply Hs.
  - apply (Hbody false (c :: r)). exact Hs.
Qed.

Lemma dict_set_keys (d : list (pystr * json)) (k : pystr) (v : json) (k' : pystr) :
  In k' (map fst (dict_set d k v)) <-> In k' (map fst d) \/ k' = k.
Proof.
  induction d as [| [k0 v0] d IH]; cbn [dict_set map fst In].
  - intuition congruence.
  - destruct (pystr_eqb k0 k) eqn:E.
    + apply pystr_eqb_eq in E. subst k0. cbn [map fst In]. intuition congruence.
    + cbn [map fst In]. rewrite IH. tauto.
Qed.

Lemma dict_set_value (d : list (pystr * json)) (k : pystr) (v : json) :
  json_value (JObj d) = true -> py_text k = true -> json_value v = true ->
  json_value (JObj (dict_set d k v)) = true.
Proof.
  cbn [json_value]. intros Hd Hk Hv.
  apply andb_true_iff in Hd. destruct Hd as [Hnd Hall].
  apply andb_true_iff. split.
  - apply distinct_NoDup. apply distinct_NoDup in Hnd. clear Hall.
    induction d as [| [k0 v0] d IH]; cbn [dict_set map fst] in *.
    + constructor; [intros [] | constructor].
    + inversion Hnd as [| ? ? Hnew Hnd']; subst.
      destruct (pystr_eqb k0 k) eqn:E; cbn [map fst].
      * constructor; assumption.
      * constructor; [| apply IH; exact Hnd'].
        rewrite dict_set_keys. intros [Hin | ->]; [contradiction |].
        assert (pystr_eqb k k = true) by now apply pystr_eqb_eq.
        congruence.
  - clear Hnd. induction d as [| [k0 v0] d IH]; cbn [dict_set forallb] in *.
    + rewrite Hk, Hv. reflexivity.
    + apply andb_true_iff in Hall. destruct Hall as [H0 Hall].
      apply andb_true_iff in H0. destruct H0 as [Hk0 Hv0].
      destruct (pystr_eqb k0 k); cbn [forallb].
      * rewrite Hk0, Hv, Hall. reflexivity.
      * rewrite Hk0, Hv0, IH by exact Hall. reflexivity.
Qed.

Lemma scan_values (fuel : nat) :
  (forall s, forallb scalar s = true -> value_ok (scan_once fuel s)) /\
  (forall rval s, forallb scalar s = true -> json_value (JObj rval) = true ->
                  value_ok (parse_object fuel rval s)) /\
  (forall rval s, forallb scalar s = true -> json_value (JArr rval) = true ->
                  value_ok (parse_array fuel rval s)).
Proof.
  induction fuel as [| fuel (IHscan & IHobj & IHarr)].
  - repeat split; intros; exact I.
  - split; [| split].
    + intros s Hs. cbn [scan_once].
      destruct s as [| c r]; [exact I |].
      assert (Hr : forallb scalar r = true).
      { cbn [forallb] in Hs. apply andb_true_iff in Hs. apply Hs. }
      destruct (c =? 34).
      { destruct (scanstring r) as [[str rest] | e | |] eqn:Hstr; try exact I.
        destruct (scanstring_text r str rest Hr Hstr) as [H1 H2].
        split; assumption. }
      destruct (c =? 123).
      { pose proof (skip_ws_scalar r Hr) as Hws.
        destruct (skip_ws r) as [| c' r'] eqn:Hsk; [exact I |].
        destruct (c' =? 125).
        - split; [reflexivity |]. cbn [forallb] in Hws. apply andb_true_iff in Hws. apply Hws.
        - apply IHobj; [exact Hws | reflexivity]. }
      destruct (c =? 91).
      { pose proof (skip_ws_scalar r Hr) as Hws.
        destruct (skip_ws r) as [| c' r'] eqn:Hsk; [exact I |].
        destruct (c' =? 93).
        - split; [reflexivity |]. cbn [forallb] in Hws. apply andb_true_iff in Hws. apply Hws.
        - apply IHarr; [exact Hws | reflexivity]. }
      destruct (startswith (c :: r) (lit "null"));
        [split; [reflexivity | apply skipn_scalar, Hs] |].
      destruct (startswith (c :: r) (lit "true"));
        [split; [reflexivity | apply skipn_scalar, Hs] |].
      destruct (startswith (c :: r) (lit "false"));
        [split; [reflexivity | apply skipn_scalar, Hs] |].
      destruct (startswith (c :: r) (lit "NaN")); [exact I |].
      destruct (startswith (c :: r) (lit "Infinity")); [exact I |].
      destruct (startswith (c :: r) (lit "-Infinity")); [exact I |].
      apply match_number_value, Hs.
    + intros rval s Hs Hrval. cbn [parse_object].
      destruct s as [| c r]; [exact I |].
      assert (Hr : forallb scalar r = true).
      { cbn [forallb] in Hs. apply andb_true_iff in Hs. apply Hs. }
      destruct (c =? 34); [| exact I].
      destruct (scanstring r) as [[key r1] | e | |] eqn:Hstr; try exact I.
      destruct (scanstring_text r key r1 Hr Hstr) as [Hkey Hr1].
      pose proof (skip_ws_scalar r1 Hr1) as Hws1.
      destruct (skip_ws r1) as [| c1 r2]; [exact I |].
      destruct (c1 =? 58); [| exact I].
      assert (Hr2 : forallb scalar r2 = true).
      { cbn [forallb] in Hws1. apply andb_true_iff in Hws1. apply Hws1. }
      pose proof (IHscan (skip_ws r2) (skip_ws_scalar r2 Hr2)) as Hval.
      destruct (scan_once fuel (skip_ws r2)) as [[val r3] | e | |]; try exact I.
      destruct Hval as [Hval Hr3]. cbv zeta.
      pose proof (skip_ws_scalar r3 Hr3) as Hws3.
      destruct (skip_ws r3) as [| c3 r4]; [exact I |].
      assert (Hr4 : forallb scalar r4 = true).
      { cbn [forallb] in Hws3. apply andb_true_iff in Hws3. apply Hws3. }
      pose proof (dict_set_value rval key val Hrval Hkey Hval) as Hset.
      destruct (c3 =? 125); [split; assumption |].
      destruct (c3 =? 44); [| exact I].
      apply IHobj; [apply skip_ws_scalar, Hr4 | exact Hset].
    + intros rval s Hs Hrval. cbn [parse_array].
      pose proof (IHscan s Hs) as Hval.
      destruct (scan_once fuel s) as [[val r1] | e | |]; try exact I.
      destruct Hval as [Hval Hr1]. cbv zeta.
      pose proof (skip_ws_scalar r1 Hr1) as Hws1.
      destruct (skip_ws r1) as [| c r2]; [exact I |].
      assert (Hr2 : forallb scalar r2 = true).
      { cbn [forallb] in Hws1. apply andb_true_iff in Hws1. apply Hws1. }
      assert (Hset : json_value (JArr (rval ++ [val])) = true).
      { cbn [json_value] in *. rewrite forallb_app, Hrval. cbn [forallb].
        rewrite Hval. reflexivity. }
      destruct (c =? 93); [split; assumption |].
      destruct (c =? 44); [| exact I].
      apply IHarr; [apply skip_ws_scalar, Hr2 | exact Hset].
Qed.

(** On scalar text, what [json_loads] returns is a value of the kind
    [json_value] describes. *)
Lemma json_loads_value (s : pystr) (v : json) :
  forallb scalar s = true -> json_loads s = Ok v -> json_value v = true.
Proof.
  unfold json_loads. intros Hs H.
  destruct (startswith s [0xFEFF]); [discriminate |].
  pose proof (proj1 (scan_values (2 * List.length s + 1)) (skip_ws s) (skip_ws_scalar s Hs))
    as Hok.
  destruct (scan_once (2 * List.length s + 1) (skip_ws s)) as [[obj rest] | e | |];
    try discriminate.
  destruct (skip_ws rest); [| discriminate].
  injection H as <-. apply Hok.
Qed.

(** ** Text decoded from UTF-8 is scalar *)

Lemma two_byte_value (b0 b1 : Z) :
  0 <= Z.lor (Z.shiftl (Z.land b0 0x1F) 6) (Z.land b1 0x3F) < 0x800.
Proof.
  change 0x1F with (Z.ones 5). change 0x3F with (Z.ones 6).
  rewrite !Z.land_ones, Z.shiftl_mul_pow2 by lia.
  rewrite lor_shifted_pow by (try lia; apply Z.mod_pos_bound; lia).
  change (2 ^ 5) with 32. change (2 ^ 6) with 64.
  Z.div_mod_to_equations; lia.
Qed.

Lemma three_byte_value (b0 b1 b2 : Z) :
  Z.lor (Z.shiftl (Z.land b0 0x0F) 12)
        (Z.lor (Z.shiftl (Z.land b1 0x3F) 6) (Z.land b2 0x3F)) < 0x10000.
Proof.
  change 0x0F with (Z.ones 4). change 0x3F with (Z.ones 6).
  rewrite !Z.land_ones, !Z.shiftl_mul_pow2 by lia.
  rewrite (lor_shifted_pow (b1 mod 2 ^ 6)) by (try lia; apply Z.mod_pos_bound; lia).
  rewrite lor_shifted_pow.
  - change (2 ^ 4) with 16. change (2 ^ 6) with 64. change (2 ^ 12) with 4096.
    Z.div_mod_to_equations; lia.
  - lia.
  - change (2 ^ 6) with 64. change (2 ^ 12) with 4096.
    Z.div_mod_to_equations; lia.
Qed.

Lemma utf8_decode_scalar (bs : list byte) :
  forall s, utf8_decode bs = Some s -> forallb scalar s = true.
Proof.
  assert (Hcons : forall c r s,
            scalar c = true ->
            (forall s', r = Some s' -> forallb scalar s' = true) ->
            cons_char c r = Some s -> forallb scalar s = true).
  { intros c r s Hc Hr H. destruct r as [s' |]; [| discriminate].
    injection H as <-. cbn [forallb]. rewrite Hc, (Hr s' eq_refl). reflexivity. }
  assert (Hall : forall n bs, (List.length bs <= n)%nat ->
                   forall s, utf8_decode bs = Some s -> forallb scalar s = true).
  { induction n as [| n IH]; intros l Hn s H.
    - destruct l; [injection H as <-; reflexivity | cbn in Hn; lia].
    - destruct l as [| b0 r]; [injection H as <-; reflexivity |].
      cbn [List.length] in Hn. cbn [utf8_decode] in H.
      destruct ((0 <=? b0) && (b0 <? 128)) eqn:E1.
      { apply andb_true_iff in E1. destruct E1 as [A B].
        apply Z.leb_le in A. apply Z.ltb_lt in B.
        eapply Hcons; [| | exact H]; [apply scalar_range; lia | apply IH; lia]. }
      destruct ((194 <=? b0) && (b0 <=? 223)).
      { destruct r as [| b1 r1]; [discriminate |].
        destruct (is_cont b1); [| discriminate].
        pose proof (two_byte_value b0 b1) as Hv.
        eapply Hcons; [| | exact H];
          [apply scalar_range; lia | apply IH; cbn [List.length] in Hn; lia]. }
      destruct ((224 <=? b0) && (b0 <=? 239)).
      { destruct r as [| b1 [| b2 r2]]; try discriminate.
        cbv zeta in H.
        pose proof (three_byte_value b0 b1 b2) as Hv.
        set (c := Z.lor (Z.shiftl (Z.land b0 15) 12)
                    (Z.lor (Z.shiftl (Z.land b1 63) 6) (Z.land b2 63))) in *.
        destruct (is_cont b1 && is_cont b2 && (2048 <=? c) && negb (is_surrogate c)) eqn:E;
          [| discriminate].
        apply andb_true_iff in E. destruct E as [E Hns].
        apply andb_true_iff in E. destruct E as [_ Hlo].
        apply Z.leb_le in Hlo. apply negb_true_iff in Hns.
        assert (Hc : scalar c = true).
        { unfold scalar, is_codepoint. rewrite Hns.
          apply andb_true_intro. split; [| reflexivity].
          apply andb_true_intro. split; apply Z.leb_le; lia. }
        eapply Hcons; [| | exact H];
          [exact Hc | apply IH; cbn [List.length] in Hn; lia]. }
      destruct ((240 <=? b0) && (b0 <=? 244)); [| discriminate].
      destruct r as [| b1 [| b2 [| b3 r3]]]; try discriminate.
      cbv zeta in H.
      set (c := Z.lor (Z.shiftl (Z.land b0 7) 18)
                  (Z.lor (Z.shiftl (Z.land b1 63) 12)
                     (Z.lor (Z.shiftl (Z.land b2 63) 6) (Z.land b3 63)))) in *.
      destruct (is_cont b1 && is_cont b2 && is_cont b3 && (65536 <=? c) && (c <? 1114112))
        eqn:E; [| discriminate].
      apply andb_true_iff in E. destruct E as [E Hhi].
      apply andb_true_iff in E. destruct E as [_ Hlo].
      apply Z.leb_le in Hlo. apply Z.ltb_lt in Hhi.
      eapply Hcons; [| | exact H];
        [apply scalar_range; lia | apply IH; cbn [List.length] in Hn; lia]. }
  intros s. apply (Hall (List.length bs)). lia.
Qed.

(** ** Values the server builds *)

Lemma scalar_py_text (s : pystr) : forallb scalar s = true -> py_text s = true.
Proof.
  induction s as [| c s IH]; intros H; [reflexivity |].
  cbn [forallb] in H. apply andb_true_iff in H. destruct H as [Hc Hs].
  cbn [py_text]. rewrite (IH Hs), andb_true_r.
  apply scalar_range in Hc. apply andb_true_intro. split.
  - apply surrogate_range. lia.
  - destruct s as [| c' s']; [reflexivity |].
    apply negb_true_iff, andb_false_intro1.
    destruct (is_high_surrogate c) eqn:E; [| reflexivity].
    apply surrogate_range in E. lia.
Qed.

Lemma printable_scalar (s : pystr) : Forall printable s -> forallb scalar s = true.
Proof.
  intros H. apply forallb_forall. rewrite Forall_forall in H.
  intros c Hc. specialize (H c Hc). unfold printable in H. apply scalar_range. lia.
Qed.

(** A literal that ends in a blank, then a text: a text. *)
Lemma py_text_after_blank (prefix s : pystr) :
  Forall printable prefix -> py_text s = true -> py_text (prefix ++ s) = true.
Proof.
  intros Hp Hs. induction Hp as [| c prefix Hc Hp IH]; [exact Hs |].
  cbn [app py_text]. rewrite IH, andb_true_r.
  unfold printable in Hc. apply andb_true_intro. split.
  - apply surrogate_range. lia.
  - destruct (prefix ++ s); [reflexivity |].
    apply negb_true_iff, andb_false_intro1.
    destruct (is_high_surrogate c) eqn:E; [| reflexivity].
    apply surrogate_range in E. lia.
Qed.

Lemma dict_get_value (d : list (pystr * json)) (k : pystr) (v : json) :
  json_value (JObj d) = true -> dict_get d k = Some v -> json_value v = true.
Proof.
  cbn [json_value]. intros Hd Hget.
  apply andb_true_iff in Hd. destruct Hd as [_ Hall].
  induction d as [| [k0 v0] d IH]; [discriminate |].
  cbn [forallb] in Hall. apply andb_true_iff in Hall. destruct Hall as [H0 Hall].
  apply andb_true_iff in H0. destruct H0 as [_ Hv0].
  cbn [dict_get] in Hget. destruct (pystr_eqb k0 k).
  - injection Hget as <-. exact Hv0.
  - apply IH; assumption.
Qed.

Lemma readline_scalar (s : pystr) :
  forallb scalar s = true ->
  forallb scalar (fst (readline s)) = true /\ forallb scalar (snd (readline s)) = true.
Proof.
  induction s as [| c s IH]; intros H; [split; reflexivity |].
  cbn [forallb] in H. apply andb_true_iff in H. destruct H as [Hc Hs].
  cbn [readline]. destruct (c =? 10).
  - cbn [fst snd forallb]. rewrite Hc. auto.
  - destruct (IH Hs) as [H1 H2]. destruct (readline s) as [l r].
    cbn [fst snd forallb] in *. rewrite Hc, H1. auto.
Qed.

Lemma read_scalar (n : Z) (s body rest : pystr) :
  forallb scalar s = true -> read n s = Some (body, rest) ->
  forallb scalar body = true /\ forallb scalar rest = true.
Proof.
  intros H Hread. apply read_some in Hread. destruct Hread as [-> ->].
  split; [apply firstn_scalar | apply skipn_scalar]; exact H.
Qed.

Lemma ascii_runtime_repr : repr_is_scalar ascii_runtime.
Proof.
  intros s. apply printable_scalar. cbn [unicode_repr ascii_runtime].
  constructor; [unfold printable; lia |].
  apply Forall_app. split; [| constructor; [unfold printable; lia | constructor]].
  induction s as [| c s IH]; [constructor |].
  cbn [flat_map]. apply Forall_app. split; [apply escape_char_printable | exact IH].
Qed.

(** ** UTF-8: decoding what was encoded *)

Lemma land_low (b k : Z) : 0 <= k -> Z.land b (Z.ones k) = b mod 2 ^ k.
Proof. intros Hk. apply Z.land_ones. exact Hk. Qed.

Lemma lor_two (q r : Z) : 0 <= r < 64 -> Z.lor (q * 64) r = 64 * q + r.
Proof.
  intros Hr. replace (64 * q + r) with (q * 64 + r) by lia.
  apply (lor_shifted_pow q r 6); [lia | exact Hr].
Qed.

Lemma lor_three (a b c : Z) :
  0 <= b < 64 -> 0 <= c < 64 ->
  Z.lor (a * 4096) (Z.lor (b * 64) c) = 4096 * a + 64 * b + c.
Proof.
  intros Hb Hc. rewrite lor_two by exact Hc.
  replace (4096 * a + 64 * b + c) with (a * 4096 + (64 * b + c)) by lia.
  apply (lor_shifted_pow a (64 * b + c) 12); [lia |].
  change (2 ^ 12) with 4096. lia.
Qed.

Lemma lor_four (a b c d : Z) :
  0 <= b < 64 -> 0 <= c < 64 -> 0 <= d < 64 ->
  Z.lor (a * 262144) (Z.lor (b * 4096) (Z.lor (c * 64) d))
  = 262144 * a + 4096 * b + 64 * c + d.
Proof.
  intros Hb Hc Hd. rewrite lor_three by assumption.
  replace (262144 * a + 4096 * b + 64 * c + d)
    with (a * 262144 + (4096 * b + 64 * c + d)) by lia.
  apply (lor_shifted_pow a (4096 * b + 64 * c + d) 18); [lia |].
  change (2 ^ 18) with 262144. lia.
Qed.

Lemma utf8_decode_two (q r : Z) (rest : list byte) :
  2 <= q < 32 -> 0 <= r < 64 ->
  utf8_decode ((192 + q) :: (128 + r) :: rest)
  = cons_char (64 * q + r) (utf8_decode rest).
Proof.
  intros Hq Hr. cbn [utf8_decode]. unfold is_cont. decide_cmp. cbn [andb].
  change 0x1F with (Z.ones 5). change 0x3F with (Z.ones 6).
  rewrite !land_low, !Z.shiftl_mul_pow2 by lia.
  change (2 ^ 5) with 32. change (2 ^ 6) with 64.
  replace ((192 + q) mod 32) with q by (Z.div_mod_to_equations; lia).
  replace ((128 + r) mod 64) with r by (Z.div_mod_to_equations; lia).
  rewrite lor_two by exact Hr. reflexivity.
Qed.

Lemma utf8_decode_three (a b c : Z) (rest : list byte) :
  0 <= a < 16 -> 0 <= b < 64 -> 0 <= c < 64 ->
  0x800 <= 4096 * a + 64 * b + c -> is_surrogate (4096 * a + 64 * b + c) = false ->
  utf8_decode ((224 + a) :: (128 + b) :: (128 + c) :: rest)
  = cons_char (4096 * a + 64 * b + c) (utf8_decode rest).
Proof.
  intros Ha Hb Hc Hlow Hsur. cbn [utf8_decode]. unfold is_cont. decide_cmp. cbn [andb].
  change 0x0F with (Z.ones 4). change 0x3F with (Z.ones 6).
  rewrite !land_low, !Z.shiftl_mul_pow2 by lia.
  change (2 ^ 4) with 16. change (2 ^ 6) with 64. change (2 ^ 12) with 4096.
  replace ((224 + a) mod 16) with a by (Z.div_mod_to_equations; lia).
  replace ((128 + b) mod 64) with b by (Z.div_mod_to_equations; lia).
  replace ((128 + c) mod 64) with c by (Z.div_mod_to_equations; lia).
  rewrite !lor_three by assumption.
  rewrite Hsur. replace (2048 <=? 4096 * a + 64 * b + c) with true by cmp_true.
  reflexivity.
Qed.

Lemma utf8_decode_four (a b c d : Z) (rest : list byte) :
  0 <= a < 8 -> 0 <= b < 64 -> 0 <= c < 64 -> 0 <= d < 64 ->
  0x10000 <= 262144 * a + 4096 * b + 64 * c + d < 0x110000 ->
  utf8_decode ((240 + a) :: (128 + b) :: (128 + c) :: (128 + d) :: rest)
  = cons_char (262144 * a + 4096 * b + 64 * c + d) (utf8_decode rest).
Proof.
  intros Ha Hb Hc Hd Hv. cbn [utf8_decode]. unfold is_cont. decide_cmp. cbn [andb].
  change 0x07 with (Z.ones 3). change 0x3F with (Z.ones 6).
  rewrite !land_low, !Z.shiftl_mul_pow2 by lia.
  change (2 ^ 3) with 8. change (2 ^ 6) with 64. change (2 ^ 12) with 4096.
  change (2 ^ 18) with 262144.
  replace ((240 + a) mod 8) with a by (Z.div_mod_to_equations; lia).
  replace ((128 + b) mod 64) with b by (Z.div_mod_to_equations; lia).
  replace ((128 + c) mod 64) with c by (Z.div_mod_to_equations; lia).
  replace ((128 + d) mod 64) with d by (Z.div_mod_to_equations; lia).
  rewrite !lor_four by assumption.
  replace (65536 <=? 262144 * a + 4096 * b + 64 * c + d) with true by cmp_true.
  replace (262144 * a + 4096 * b + 64 * c + d <? 1114112) with true by cmp_true.
  reflexivity.
Qed.

(** The bytes [utf8_char] gives, as sums. *)
Lemma lead_byte (p k x : Z) :
  0 <= k -> 0 <= x < 2 ^ k -> Z.lor (p * 2 ^ k) x = p * 2 ^ k + x.
Proof. intros Hk Hx. apply lor_shifted_pow; assumption. Qed.

Lemma cont_byte (x : Z) : Z.lor 0x80 (Z.land x 0x3F) = 128 + x mod 64.
Proof.
  change 0x3F with (Z.ones 6). rewrite land_low by lia.
  change 0x80 with (2 * 2 ^ 6). rewrite lead_byte; [reflexivity | lia |].
  apply Z.mod_pos_bound. lia.
Qed.

Lemma Some_eq {A : Type} (a b : A) : Some a = Some b -> a = b.
Proof. congruence. Qed.

Lemma utf8_decode_char (c : Z) (bs rest : list byte) :
  utf8_char c = Some bs ->
  utf8_decode (bs ++ rest) = cons_char c (utf8_decode rest).
Proof.
  unfold utf8_char.
  destruct (Z.ltb_spec c 0) as [H0 | H0]; [discriminate |].
  destruct (Z.ltb_spec c 0x80) as [H1 | H1].
  { intros H. apply Some_eq in H. subst bs. cbn [app utf8_decode]. decide_cmp. reflexivity. }
  destruct (Z.ltb_spec c 0x800) as [H2 | H2].
  { intros H. apply Some_eq in H. subst bs. cbn [app].
    rewrite cont_byte, Z.shiftr_div_pow2 by lia.
    change 0xC0 with (6 * 2 ^ 5).
    rewrite lead_byte by (try lia; change (2 ^ 5) with 32; change (2 ^ 6) with 64;
                          Z.div_mod_to_equations; lia).
    change (6 * 2 ^ 5) with 192. change (2 ^ 6) with 64.
    rewrite utf8_decode_two by (Z.div_mod_to_equations; lia).
    f_equal. Z.div_mod_to_equations; lia. }
  destruct (Z.ltb_spec c 0x10000) as [H3 | H3].
  { destruct (is_surrogate c) eqn:Hsur; [discriminate |].
    intros H. apply Some_eq in H. subst bs. cbn [app].
    rewrite !cont_byte, !Z.shiftr_div_pow2 by lia.
    change 0xE0 with (14 * 2 ^ 4).
    rewrite lead_byte by (try lia; change (2 ^ 4) with 16; change (2 ^ 12) with 4096;
                          Z.div_mod_to_equations; lia).
    change (14 * 2 ^ 4) with 224. change (2 ^ 6) with 64. change (2 ^ 12) with 4096.
    assert (Hval : 4096 * (c / 4096) + 64 * (c / 64 mod 64) + c mod 64 = c)
      by (Z.div_mod_to_equations; lia).
    rewrite utf8_decode_three; rewrite ?Hval;
      [reflexivity | | | | lia | exact Hsur]; Z.div_mod_to_equations; lia. }
  destruct (Z.ltb_spec c 0x110000) as [H4 | H4]; [| discriminate].
  intros H. apply Some_eq in H. subst bs. cbn [app].
  rewrite !cont_byte, !Z.shiftr_div_pow2 by lia.
  change 0xF0 with (30 * 2 ^ 3).
  rewrite lead_byte by (try lia; change (2 ^ 3) with 8; change (2 ^ 18) with 262144;
                        Z.div_mod_to_equations; lia).
  change (30 * 2 ^ 3) with 240.
  change (2 ^ 6) with 64. change (2 ^ 12) with 4096. change (2 ^ 18) with 262144.
  assert (Hval : 262144 * (c / 262144) + 4096 * (c / 4096 mod 64)
                 + 64 * (c / 64 mod 64) + c mod 64 = c)
    by (Z.div_mod_to_equations; lia).
  rewrite utf8_decode_four; rewrite ?Hval;
    [reflexivity | | | | | lia]; Z.div_mod_to_equations; lia.
Qed.

Lemma utf8_decode_encode (s : pystr) :
  forall data rest,
    utf8_encode s = Some data ->
    utf8_decode (data ++ rest)
    = match utf8_decode rest with
      | Some t => Some (s ++ t)
      | None => None
      end.
Proof.
  induction s as [| c s IH]; intros data rest H; cbn [utf8_encode] in H.
  - injection H as <-. cbn [app]. destruct (utf8_decode rest); reflexivity.
  - destruct (utf8_char c) as [bs |] eqn:Hc; [| discriminate].
    destruct (utf8_encode s) as [more |] eqn:Hs; [| discriminate].
    injection H as <-. rewrite <- app_assoc, (utf8_decode_char c bs) by exact Hc.
    rewrite (IH more rest eq_refl).
    destruct (utf8_decode rest); reflexivity.
Qed.

(** Decoding gives back the text that was encoded. *)
Lemma utf8_decode_encoded (s : pystr) (data : list byte) :
  utf8_encode s = Some data -> utf8_decode data = Some s.
Proof.
  intros H. pose proof (utf8_decode_encode s data [] H) as Hd.
  rewrite app_nil_r in Hd. cbn [utf8_decode] in Hd. rewrite app_nil_r in Hd. exact Hd.
Qed.

(** * The server *)

Section ServerProperties.

Context {rt : PyRuntime}.

Lemma py_int_header (n : Z) :
  0 <= n -> py_int (32 :: int_repr n ++ [13; 10]) = Some n.
Proof.
  intros Hn. unfold py_int, ascii_copy.
  replace (forallb (fun c => c <? 128) (32 :: int_repr n ++ [13; 10])) with true.
  - apply PyLong_FromString_header. exact Hn.
  - symmetry. apply forallb_forall. intros c Hin.
    cbn [In] in Hin. rewrite in_app_iff in Hin. cbn [In] in Hin.
    pose proof (int_repr_printable n) as Hp. rewrite Forall_forall in Hp.
    apply Z.ltb_lt.
    destruct Hin as [<- | [Hin | [<- | [<- | []]]]]; try lia.
    specialize (Hp _ Hin). unfold printable in Hp. lia.
Qed.

(** A frame on the input is read whole, and its body goes to [json_loads]. *)
Lemma read_frame_frame (body rest : pystr) :
  read_frame (frame_text body ++ rest)
  = match json_loads body with
    | Ok message => Message message rest
    | Raise e => ReadFails (Fatal e) rest
    | Unmodelled => ReadFails NoModel rest
    | OutOfFuel => ReadFails NoFuel rest
    end.
Proof.
  unfold read_frame, frame_text.
  set (header := lit "Content-Length: " ++ int_repr (len body) ++ [13]).
  assert (Hline : readline ((lit "Content-Length: " ++ int_repr (len body)
                              ++ [13; 10; 13; 10] ++ body) ++ rest)
                  = (header ++ [10], 13 :: 10 :: body ++ rest)).
  { replace ((lit "Content-Length: " ++ int_repr (len body)
               ++ [13; 10; 13; 10] ++ body) ++ rest)
      with (header ++ 10 :: 13 :: 10 :: body ++ rest)
      by (subst header; rewrite <- !app_assoc; reflexivity).
    apply readline_line. subst header. rewrite !in_app_iff.
    intros [H | [H | H]].
    - revert H. eval_lits. cbn [In]. lia.
    - revert H. apply printable_no_newline, int_repr_printable.
    - cbn [In] in H. lia. }
  rewrite Hline. subst header.
  assert (Hshape : (lit "Content-Length: " ++ int_repr (len body) ++ [13]) ++ [10]
                   = lit "Content-Length:" ++ 32 :: int_repr (len body) ++ [13; 10]).
  { rewrite <- !app_assoc. reflexivity. }
  rewrite Hshape.
  replace (len (lit "Content-Length:" ++ 32 :: int_repr (len body) ++ [13; 10]) =? 0)
    with false by (unfold len; rewrite length_app; cbn [List.length]; cmp_false).
  rewrite startswith_app. cbn [negb].
  change 15%nat with (List.length (lit "Content-Length:")).
  rewrite skipn_prefix, py_int_header by (unfold len; lia).
  change (readline (13 :: 10 :: body ++ rest)) with ([13; 10], body ++ rest).
  cbv beta iota. rewrite read_body. reflexivity.
Qed.

(** ** One iteration *)

Lemma write_open (data : list byte) (w : world) :
  peer_reads w <> Some O ->
  write data w = (Continue, replied w (stdin w) data).
Proof.
  unfold write, replied. destruct (peer_reads w) as [[| k] |]; intros H;
    [congruence | reflexivity | reflexivity].
Qed.

Lemma send_truthy (response : json) (w : world) :
  truthy response = true ->
  send response w = write (frame_text (json_dumps response)) w.
Proof.
  intros Ht. unfold send. rewrite Ht.
  rewrite utf8_encode_ascii by apply frame_text_ascii. reflexivity.
Qed.

Lemma step_message (w : world) (message : json) (rest : pystr) :
  read_frame (stdin w) = Message message rest ->
  step w = match dispatch message with
           | DoRaise e => (Fatal e, set_stdin w rest)
           | DoContinue => (Continue, set_stdin w rest)
           | DoBreak => (Break, set_stdin w rest)
           | Respond response => send response (set_stdin w rest)
           end.
Proof. intros H. unfold step. rewrite H. reflexivity. Qed.

Lemma recognized_false (method : json) :
  recognized method = false ->
  eq_str method (lit "build/initialize") = false /\
  eq_str method (lit "build/initialized") = false /\
  eq_str method (lit "build/shutdown") = false /\
  eq_str method (lit "build/exit") = false /\
  eq_str method (lit "buildTarget/sources") = false.
Proof.
  unfold recognized. intros H.
  repeat (apply orb_false_iff in H; destruct H as [H ?]). repeat split; assumption.
Qed.

(** ** The loop ends *)

(** What [read_frame] leaves is shorter than what it was given, and it
    never runs out of budget. *)
Lemma read_frame_consumes (input : pystr) :
  match read_frame input with
  | EndOfInput => True
  | Message _ rest => (List.length rest < List.length input)%nat
  | ReadFails st rest => st <> NoFuel /\ st <> Continue
  end.
Proof.
  unfold read_frame.
  pose proof (readline_length input) as Hline.
  destruct (readline input) as [line in1]. cbn [fst snd] in Hline.
  destruct (len line =? 0) eqn:Hlen; [exact I |].
  assert (Hpos : (0 < List.length line)%nat).
  { destruct line; [discriminate | cbn; lia]. }
  destruct (negb (startswith line (lit "Content-Length:"))); [split; discriminate |].
  destruct (py_int (skipn 15 line)) as [length |]; [| split; discriminate].
  pose proof (readline_length in1) as Hline2.
  destruct (readline in1) as [blank in2]. cbn [fst snd] in Hline2.
  destruct (read length in2) as [[body in3] |] eqn:Hbody; [| split; discriminate].
  pose proof (read_length length in2 body in3 Hbody) as Hread.
  pose proof (json_loads_answers body) as Hloads.
  destruct (json_loads body); try (split; discriminate); [lia | contradiction].
Qed.

Lemma send_status (response : json) (w : world) :
  (fst (send response w) = Continue \/ fst (send response w) = Break) /\
  stdin (snd (send response w)) = stdin w.
Proof.
  unfold send. destruct (truthy response); [| split; [left |]; reflexivity].
  rewrite utf8_encode_ascii by apply frame_text_ascii.
  unfold write. destruct (peer_reads w) as [[| k] |]; cbn [fst snd stdin]; auto.
Qed.

Lemma step_consumes (w : world) :
  fst (step w) <> NoFuel /\
  (fst (step w) = Continue ->
   (List.length (stdin (snd (step w))) < List.length (stdin w))%nat).
Proof.
  unfold step. pose proof (read_frame_consumes (stdin w)) as Hread.
  destruct (read_frame (stdin w)) as [| message rest | st rest].
  - split; [discriminate | discriminate].
  - destruct (dispatch message) as [response | | | e]; cbn [fst snd];
      try (split; [discriminate | intros; (discriminate || exact Hread)]).
    destruct (send_status response (set_stdin w rest)) as [Hst Hin].
    rewrite Hin. cbn [set_stdin stdin]. split; [| intros _; exact Hread].
    destruct Hst as [-> | ->]; discriminate.
  - cbn [fst snd]. destruct Hread as [H1 H2]. split; [exact H1 | contradiction].
Qed.

Lemma run_answers (fuel : nat) :
  forall w, (List.length (stdin w) < fuel)%nat -> fst (run fuel w) <> NoFuel.
Proof.
  induction fuel as [| fuel IH]; intros w Hfuel; [lia |].
  cbn [run]. destruct (step_consumes w) as [Hst Hlt].
  destruct (step w) as [st w']. cbn [fst snd] in *.
  destruct st; try exact Hst; try discriminate.
  apply IH. specialize (Hlt eq_refl). lia.
Qed.

(** The program ends on every input: by leaving the loop, by an uncaught
    exception, or (outside the model) on a float literal. *)
Lemma server_answers (w : world) : fst (server w) <> NoFuel.
Proof. apply run_answers. lia. Qed.

(** C1. An envelope whose method is none of the five the chain names: with
    an id, exactly one frame is written, the error response that carries the
    id, code 123 and the message "unhandled method " followed by the method,
    and the loop goes on with the rest of the input (as long as the peer
    still reads); without an id nothing is written and the loop goes on. *)
Theorem unhandled_method_reply (w : world) (d : list (pystr * json)) (method : json)
    (rest : pystr) :
  read_frame (stdin w) = Message (JObj d) rest ->
  dict_get d (lit "method") = Some method ->
  recognized method = false ->
  match dict_get d (lit "id") with
  | Some id =>
      let response := error_response id (lit "unhandled method " ++ py_format method) in
      field response "id" = Some id /\
      field response "error"
      = Some (JObj [(lit "code", JInt 123);
                    (lit "message", JStr (lit "unhandled method " ++ py_format method))]) /\
      (peer_reads w <> Some O ->
       step w = (Continue, replied w rest (frame_text (json_dumps response))))
  | None => step w = (Continue, set_stdin w rest)
  end.
Proof.
  intros Hread Hmethod Hrec.
  apply recognized_false in Hrec. destruct Hrec as (H1 & H2 & H3 & H4 & H5).
  rewrite (step_message w _ rest Hread). unfold dispatch.
  rewrite Hmethod, H1, H2, H3, H4, H5. unfold dict_contains, with_id.
  destruct (dict_get d (lit "id")) as [id |].
  - cbv zeta. split; [reflexivity |]. split; [reflexivity |].
    intros Hpeer. rewrite send_truthy by reflexivity.
    rewrite write_open by exact Hpeer. reflexivity.
  - reflexivity.
Qed.

Lemma send_stdout (response : json) (w : world) :
  stdout (snd (send response w)) = stdout w \/
  stdout (snd (send response w)) = stdout w ++ frame_text (json_dumps response).
Proof.
  destruct (truthy response) eqn:Ht.
  - rewrite send_truthy by exact Ht. unfold write.
    destruct (peer_reads w) as [[| k] |]; cbn [snd stdout]; auto.
  - unfold send. rewrite Ht. left. reflexivity.
Qed.

(** C3, as the code has it. An envelope with an id and a method: unless the
    method is build/initialized or build/exit, exactly one frame is written
    (as long as the peer still reads), a response whose id is the envelope's;
    for build/initialized and build/exit nothing is written, id or not. *)
Theorem request_gets_one_response (w : world) (d : list (pystr * json))
    (method id : json) (rest : pystr) :
  read_frame (stdin w) = Message (JObj d) rest ->
  dict_get d (lit "method") = Some method ->
  dict_get d (lit "id") = Some id ->
  if eq_str method (lit "build/initialized") || eq_str method (lit "build/exit")
  then stdout (snd (step w)) = stdout w
  else
    peer_reads w <> Some O ->
    exists response,
      field response "id" = Some id /\
      step w = (Continue, replied w rest (frame_text (json_dumps response))).
Proof.
  intros Hread Hmethod Hid.
  rewrite (step_message w _ rest Hread). unfold dispatch, with_id, dict_contains.
  rewrite Hmethod, Hid.
  destruct (eq_str method (lit "build/initialize")) eqn:E1.
  { assert (E2 : eq_str method (lit "build/initialized") = false).
    { destruct method; try discriminate. cbn [eq_str] in *.
      apply pystr_eqb_eq in E1. subst. reflexivity. }
    assert (E4 : eq_str method (lit "build/exit") = false).
    { destruct method; try discriminate. cbn [eq_str] in *.
      apply pystr_eqb_eq in E1. subst. reflexivity. }
    rewrite E2, E4. cbn [orb]. intros Hpeer.
    eexists. split; [| rewrite send_truthy by reflexivity;
                      rewrite write_open by exact Hpeer; reflexivity].
    reflexivity. }
  destruct (eq_str method (lit "build/initialized")) eqn:E2; [reflexivity |].
  destruct (eq_str method (lit "build/shutdown")) eqn:E3.
  { assert (E4 : eq_str method (lit "build/exit") = false).
    { destruct method; try discriminate. cbn [eq_str] in *.
      apply pystr_eqb_eq in E3. subst. reflexivity. }
    rewrite E4. cbn [orb]. intros Hpeer.
    eexists. split; [| rewrite send_truthy by reflexivity;
                      rewrite write_open by exact Hpeer; reflexivity].
    reflexivity. }
  destruct (eq_str method (lit "build/exit")) eqn:E4; [reflexivity |].
  cbn [orb]. intros Hpeer.
  destruct (eq_str method (lit "buildTarget/sources")) eqn:E5;
    (eexists; split; [| rewrite send_truthy by reflexivity;
                       rewrite write_open by exact Hpeer; reflexivity];
     reflexivity).
Qed.

(** C5. An envelope without an id: whatever its method, the iteration
    leaves the output as it was. *)
Theorem notification_writes_nothing (w : world) (message : json) (rest : pystr) :
  read_frame (stdin w) = Message message rest ->
  field message "id" = None ->
  stdout (snd (step w)) = stdout w.
Proof.
  intros Hread Hid. rewrite (step_message w _ rest Hread).
  destruct message as [| b | n | s | items | d]; try reflexivity.
  cbn [field] in Hid. unfold dispatch, with_id, dict_contains. rewrite Hid.
  destruct (dict_get d (lit "method")) as [method |]; [| reflexivity].
  repeat match goal with
         | |- context [if ?b then _ else _] => destruct b
         end; reflexivity.
Qed.

(** C6. Whatever the input, an iteration writes nothing or one frame: a
    header and a body, both UTF-8 encoded, where the number after
    "Content-Length: " is the number of bytes of the body. *)
Theorem content_length_exact (w : world) :
  stdout (snd (step w)) = stdout w \/
  exists response header body,
    utf8_encode (json_dumps response) = Some body /\
    utf8_encode (lit "Content-Length: " ++ int_repr (Z.of_nat (List.length body))
                 ++ [13; 10; 13; 10]) = Some header /\
    stdout (snd (step w)) = stdout w ++ header ++ body.
Proof.
  assert (Hsend : forall response w',
            stdout w' = stdout w ->
            stdout (snd (send response w')) = stdout w \/
            exists sent header body,
              utf8_encode (json_dumps sent) = Some body /\
              utf8_encode (lit "Content-Length: "
                           ++ int_repr (Z.of_nat (List.length body))
                           ++ [13; 10; 13; 10]) = Some header /\
              stdout (snd (send response w')) = stdout w ++ header ++ body).
  { intros response w' Hw'.
    destruct (send_stdout response w') as [H | H]; rewrite H, Hw'; [left; reflexivity |].
    right. exists response. eexists. exists (json_dumps response).
    split; [apply utf8_encode_ascii, printable_ascii, json_dumps_printable |].
    split.
    - apply utf8_encode_ascii. eval_lits.
      apply Forall_app. split; [repeat (constructor; [lia |]); constructor |].
      apply Forall_app. split; [apply printable_ascii, int_repr_printable |].
      repeat (constructor; [lia |]); constructor.
    - unfold frame_text, len. rewrite <- !app_assoc. reflexivity. }
  unfold step. destruct (read_frame (stdin w)) as [| message rest | st rest].
  - left. reflexivity.
  - destruct (dispatch message) as [response | | | e]; try (left; reflexivity).
    apply Hsend. reflexivity.
  - left. reflexivity.
Qed.

(** C9. An envelope whose method is build/exit ends the loop at once:
    the output is as it was, and the input after the frame is left unread,
    whatever it holds. *)
Theorem exit_ends_the_loop (w : world) (d : list (pystr * json)) (rest : pystr) :
  read_frame (stdin w) = Message (JObj d) rest ->
  dict_get d (lit "method") = Some (JStr (lit "build/exit")) ->
  step w = (Break, set_stdin w rest) /\
  server w = (Break, set_stdin w rest) /\
  stdout (set_stdin w rest) = stdout w /\ stdin (set_stdin w rest) = rest.
Proof.
  intros Hread Hmethod.
  assert (Hstep : step w = (Break, set_stdin w rest)).
  { rewrite (step_message w _ rest Hread). unfold dispatch. rewrite Hmethod. reflexivity. }
  split; [exact Hstep |]. split; [| split; reflexivity].
  unfold server. cbn [run]. rewrite Hstep. reflexivity.
Qed.

(** C10. The reply to a target-sources query: two items, each with two
    sources, of kind 1 then 2, none generated. *)
Theorem target_sources_reply (d : list (pystr * json)) (id : json) :
  dict_get d (lit "method") = Some (JStr (lit "buildTarget/sources")) ->
  dict_get d (lit "id") = Some id ->
  exists response,
    dispatch (JObj d) = Respond response /\
    field response "id" = Some id /\
    List.length (result_items response) = 2%nat /\
    Forall (fun item =>
              List.length (item_sources item) = 2%nat /\
              map (fun source => field source "kind") (item_sources item)
              = [Some (JInt 1); Some (JInt 2)] /\
              Forall (fun source => field source "generated" = Some (JBool false))
                     (item_sources item))
           (result_items response).
Proof.
  intros Hmethod Hid. unfold dispatch, with_id. rewrite Hmethod, Hid.
  eexists. split; [reflexivity |]. split; [reflexivity |]. split; [reflexivity |].
  repeat constructor.
Qed.


(** ** Frames read back *)

(** The frame of a response is ASCII, so it is its own encoding, and the
    frame reader finds the response in it. *)
Lemma read_frame_own_frame (response : json) :
  json_value response = true ->
  read_frame (frame_text (json_dumps response)) = Message response [].
Proof.
  intros Hwf.
  rewrite <- (app_nil_r (frame_text (json_dumps response))).
  rewrite read_frame_frame, json_loads_dumps by exact Hwf. reflexivity.
Qed.

Lemma read_frame_value (input : pystr) (message : json) (rest : pystr) :
  forallb scalar input = true -> read_frame input = Message message rest ->
  json_value message = true /\ forallb scalar rest = true.
Proof.
  intros Hin. unfold read_frame.
  destruct (readline_scalar input Hin) as [_ Hin1].
  destruct (readline input) as [line in1]. cbn [snd] in Hin1.
  destruct (len line =? 0); [discriminate |].
  destruct (negb (startswith line (lit "Content-Length:"))); [discriminate |].
  destruct (py_int (skipn 15 line)) as [length |]; [| discriminate].
  destruct (readline_scalar in1 Hin1) as [_ Hin2].
  destruct (readline in1) as [blank in2]. cbn [snd] in Hin2.
  destruct (read length in2) as [[body in3] |] eqn:Hread; [| discriminate].
  destruct (read_scalar length in2 body in3 Hin2 Hread) as [Hbody Hin3].
  destruct (json_loads body) as [v | e | |] eqn:Hloads; try discriminate.
  intros H. injection H as <- <-.
  split; [apply (json_loads_value body); assumption | exact Hin3].
Qed.

Lemma join_scalar (parts : list pystr) :
  Forall (fun p => forallb scalar p = true) parts ->
  forallb scalar (join [44; 32] parts) = true.
Proof.
  induction 1 as [| p parts Hp Hparts IH]; [reflexivity |].
  destruct parts as [| q parts'].
  - exact Hp.
  - rewrite join_cons2, !forallb_app, Hp, IH. reflexivity.
Qed.

Lemma py_repr_scalar (v : json) :
  repr_is_scalar rt -> forallb scalar (py_repr v) = true.
Proof.
  intros Hrepr.
  induction v as [| b | n | s | items IH | members IH] using json_ind_nested.
  - reflexivity.
  - destruct b; reflexivity.
  - apply printable_scalar, int_repr_printable.
  - apply Hrepr.
  - cbn [py_repr]. eval_lits. rewrite !forallb_app. cbn [forallb]. rewrite andb_true_r.
    change (scalar 91) with true. change (scalar 93) with true. cbn [andb].
    rewrite ?andb_true_r.
    apply join_scalar. apply Forall_map. exact IH.
  - cbn [py_repr]. eval_lits. rewrite !forallb_app. cbn [forallb]. rewrite andb_true_r.
    change (scalar 123) with true. change (scalar 125) with true. cbn [andb].
    rewrite ?andb_true_r.
    apply join_scalar. apply Forall_map.
    eapply Forall_impl; [| exact IH].
    intros [k v] Hv. cbn [snd] in Hv.
    rewrite !forallb_app, Hrepr, Hv. reflexivity.
Qed.

Lemma py_format_text (method : json) :
  repr_is_scalar rt -> json_value method = true -> py_text (py_format method) = true.
Proof.
  intros Hrepr Hm.
  destruct method; try (apply scalar_py_text, py_repr_scalar; exact Hrepr).
  exact Hm.
Qed.

(** Every response the chain builds from a decoded envelope is a value of
    the kind [json_value] describes. *)
Lemma dispatch_value (message response : json) :
  repr_is_scalar rt -> json_value message = true ->
  dispatch message = Respond response -> json_value response = true.
Proof.
  intros Hrepr Hm. unfold dispatch, with_id, dict_contains.
  destruct message as [| b | n | s | items | d]; try discriminate.
  destruct (dict_get d (lit "method")) as [method |] eqn:Hmethod; [| discriminate].
  pose proof (dict_get_value d _ _ Hm Hmethod) as Hmv.
  assert (Hres : forall payload,
            json_value payload = true ->
            match dict_get d (lit "id") with
            | Some id => Respond (result_response id payload)
            | None => DoRaise KeyError
            end = Respond response -> json_value response = true).
  { intros payload Hp H.
    destruct (dict_get d (lit "id")) as [id |] eqn:Hid; [| discriminate].
    pose proof (dict_get_value d _ _ Hm Hid) as Hidv.
    injection H as <-. unfold result_response. cbn [json_value forallb].
    rewrite Hidv, Hp. reflexivity. }
  destruct (eq_str method (lit "build/initialize")); [apply Hres; reflexivity |].
  destruct (eq_str method (lit "build/initialized")); [discriminate |].
  destruct (eq_str method (lit "build/shutdown")); [apply Hres; reflexivity |].
  destruct (eq_str method (lit "build/exit")); [discriminate |].
  destruct (eq_str method (lit "buildTarget/sources")); [apply Hres; reflexivity |].
  destruct (dict_get d (lit "id")) as [id |] eqn:Hid.
  - pose proof (dict_get_value d _ _ Hm Hid) as Hidv.
    assert (Hmsg : py_text (lit "unhandled method " ++ py_format method) = true).
    { apply py_text_after_blank; [| apply py_format_text; assumption].
      eval_lits. repeat (constructor; [unfold printable; lia |]). constructor. }
    remember (lit "unhandled method " ++ py_format method) as msg eqn:Hdef.
    intros H. injection H as <-. unfold error_response. cbn [json_value forallb].
    rewrite Hidv, Hmsg. reflexivity.
  - intros H. injection H as <-. reflexivity.
Qed.

(** On input decoded from UTF-8, every frame the server writes is read back
    by its own frame reader as the response it encodes. *)
Lemma written_frames_read_back (w : world) (message response : json) (rest : pystr) :
  repr_is_scalar rt -> forallb scalar (stdin w) = true ->
  read_frame (stdin w) = Message message rest ->
  dispatch message = Respond response ->
  exists data text,
    utf8_encode (frame_text (json_dumps response)) = Some data /\
    utf8_decode data = Some text /\
    read_frame text = Message response [].
Proof.
  intros Hrepr Hin Hread Hd.
  exists (frame_text (json_dumps response)), (frame_text (json_dumps response)).
  split; [apply utf8_encode_ascii, frame_text_ascii |].
  split; [apply utf8_decode_ascii, frame_text_ascii |].
  apply read_frame_own_frame.
  apply (dispatch_value message); [exact Hrepr | | exact Hd].
  apply (read_frame_value (stdin w) message rest Hin Hread).
Qed.

(** C2, as the code has it. A response in which no string holds a high
    surrogate directly followed by a low surrogate ([json_value]: the keys
    of a dict are distinct and its strings are such texts; every response
    built from input that is valid UTF-8 is one, see
    [written_frames_read_back]), sent as one frame (the header line, the
    blank line, the body) and fed back to the server's own frame reader as
    the bytes of its input, is read as the same value, with nothing left
    over.  A response that holds such a pair is encoded as well, and is
    read back as another value. *)
Theorem response_frame_round_trip (response : json) :
  json_value response = true ->
  exists data text,
    utf8_encode (frame_text (json_dumps response)) = Some data /\
    utf8_decode data = Some text /\
    read_frame text = Message response [].
Proof.
  intros Hwf.
  exists (frame_text (json_dumps response)), (frame_text (json_dumps response)).
  split; [apply utf8_encode_ascii, frame_text_ascii |].
  split; [apply utf8_decode_ascii, frame_text_ascii |].
  apply read_frame_own_frame. exact Hwf.
Qed.

(** ** Further facts of a session *)

(** At the end of the input the loop ends normally, with nothing written. *)
Theorem end_of_input_ends_the_loop (out : list byte) (peer : option nat) :
  step {| stdin := []; stdout := out; peer_reads := peer |}
  = (Break, {| stdin := []; stdout := out; peer_reads := peer |}) /\
  server {| stdin := []; stdout := out; peer_reads := peer |}
  = (Break, {| stdin := []; stdout := out; peer_reads := peer |}).
Proof. split; reflexivity. Qed.

(** The reply to build/initialize carries the request's id, the protocol
    version "2.0" and the language ids "a" and "b". *)
Theorem initialize_reply (d : list (pystr * json)) (id : json) :
  dict_get d (lit "method") = Some (JStr (lit "build/initialize")) ->
  dict_get d (lit "id") = Some id ->
  exists response result capabilities,
    dispatch (JObj d) = Respond response /\
    field response "id" = Some id /\
    field response "result" = Some result /\
    field result "bspVersion" = Some (JStr (lit "2.0")) /\
    field result "capabilities" = Some capabilities /\
    field capabilities "languageIds" = Some (JArr [JStr (lit "a"); JStr (lit "b")]).
Proof.
  intros Hmethod Hid. unfold dispatch, with_id. rewrite Hmethod, Hid.
  do 3 eexists. repeat split; reflexivity.
Qed.

(** The reply to build/shutdown carries the request's id and the result
    null. *)
Theorem shutdown_reply (d : list (pystr * json)) (id : json) :
  dict_get d (lit "method") = Some (JStr (lit "build/shutdown")) ->
  dict_get d (lit "id") = Some id ->
  dispatch (JObj d) = Respond (result_response id JNull) /\
  field (result_response id JNull) "id" = Some id /\
  field (result_response id JNull) "result" = Some JNull.
Proof.
  intros Hmethod Hid. unfold dispatch, with_id. rewrite Hmethod, Hid.
  repeat split; reflexivity.
Qed.

Lemma step_output (w : world) :
  stdout (snd (step w)) = stdout w \/
  exists response, stdout (snd (step w)) = stdout w ++ frame_text (json_dumps response).
Proof.
  unfold step. destruct (read_frame (stdin w)) as [| message rest | st rest];
    try (left; reflexivity).
  destruct (dispatch message) as [response | | | e]; try (left; reflexivity).
  destruct (send_stdout response (set_stdin w rest)) as [H | H]; rewrite H;
    [left; reflexivity | right; exists response; reflexivity].
Qed.

Lemma run_output (fuel : nat) :
  forall w, exists responses,
    stdout (snd (run fuel w)) = stdout w ++ frames responses.
Proof.
  induction fuel as [| fuel IH]; intros w.
  - exists []. cbn. now rewrite app_nil_r.
  - cbn [run]. pose proof (step_output w) as Hstep.
    destruct (step w) as [st w'] eqn:Hw. cbn [snd] in Hstep.
    assert (Hone : exists responses, stdout w' = stdout w ++ frames responses).
    { destruct Hstep as [H | [response H]].
      - exists []. cbn. now rewrite app_nil_r.
      - exists [response]. unfold frames. cbn [flat_map]. now rewrite app_nil_r. }
    destruct st; try exact Hone.
    destruct Hone as [first Hfirst]. destruct (IH w') as [more Hmore].
    exists (first ++ more). rewrite Hmore, Hfirst. unfold frames.
    rewrite flat_map_app, app_assoc. reflexivity.
Qed.

(** All that a run writes is a sequence of whole frames, each the frame of
    a response. *)
Theorem server_output_is_frames (w : world) :
  exists responses, stdout (snd (server w)) = stdout w ++ frames responses.
Proof. apply run_output. Qed.

(** Whenever the chain builds a response to write, its id is the id of
    the envelope. *)
Theorem response_echoes_id (message response : json) :
  dispatch message = Respond response -> truthy response = true ->
  exists id, field message "id" = Some id /\ field response "id" = Some id.
Proof.
  unfold dispatch, with_id, dict_contains.
  destruct message as [| b | n | s | items | d]; try discriminate.
  destruct (dict_get d (lit "method")) as [method |]; [| discriminate].
  cbn [field].
  destruct (dict_get d (lit "id")) as [id |] eqn:Hid.
  - intros H _. exists id. split; [reflexivity |].
    repeat match type of H with
           | (if ?b then _ else _) = _ => destruct b
           end; try discriminate; injection H as <-; reflexivity.
  - intros H Ht.
    repeat match type of H with
           | (if ?b then _ else _) = _ => destruct b
           end; try discriminate.
    injection H as <-. discriminate Ht.
Qed.

(** * More of the program *)

(** ** The header line, in general *)

(** [int] reads back what [str] wrote, blanks around it or not. *)
Lemma PyLong_FromString_blanks (n : Z) (b1 b2 : pystr) :
  Forall (fun c => Py_ISSPACE c = true) b1 ->
  Forall (fun c => Py_ISSPACE c = true) b2 ->
  PyLong_FromString (b1 ++ int_repr n ++ b2) = Some n.
Proof.
  intros Hb1 Hb2.
  assert (Hdigits : forall m sign, 0 <= m ->
            exists c r,
              decimal_digits (S (Z.to_nat (Z.log2 m))) m = c :: r /\
              Py_ISSPACE c = false /\ (c =? 43) = false /\ (c =? 45) = false /\
              match c :: r ++ b2 with
              | c' :: _ =>
                  if is_digit c' then
                    match scan_digits false 0 (c :: r ++ b2) with
                    | Some (k, rest) =>
                        match skip_space rest with
                        | [] => Some (sign * k)
                        | _ :: _ => None
                        end
                    | None => None
                    end
                  else None
              | [] => None
              end = Some (sign * m)).
  { intros m sign Hm.
    destruct (decimal_digits_nat m Hm) as (c & r & Heq & Hc & Hr & Hval & _).
    exists c, r. split; [exact Heq |].
    split; [unfold Py_ISSPACE; decide_cmp; reflexivity |].
    split; [apply Z.eqb_neq; lia |]. split; [apply Z.eqb_neq; lia |].
    replace (is_digit c) with true by (symmetry; apply is_digit_range; exact Hc).
    change (c :: r ++ b2) with ((c :: r) ++ b2).
    rewrite scan_digits_app.
    - rewrite skip_space_all by exact Hb2.
      unfold digits_val in *. cbn [fold_left]. do 2 f_equal.
      replace (10 * 0 + (c - 48)) with (c - 48) by lia. exact Hval.
    - constructor; assumption.
    - destruct Hb2 as [| x b2 Hx Hb2]; [exact I |].
      apply Py_ISSPACE_range in Hx. split; [| lia].
      unfold is_digit. destruct Hx as [-> | Hx]; [reflexivity |].
      replace (x <=? 57) with true by cmp_true.
      replace (48 <=? x) with false by cmp_false. reflexivity. }
  unfold PyLong_FromString, int_repr.
  destruct (Z.ltb_spec n 0) as [Hneg | Hpos].
  - destruct (Hdigits (- n) (-1)) as (c & r & Heq & _ & _ & _ & Hres); [lia |].
    rewrite Heq. change ((45 :: c :: r) ++ b2) with (45 :: c :: r ++ b2).
    rewrite skip_space_blanks by (assumption || reflexivity).
    change (45 =? 43) with false. change (45 =? 45) with true. cbv iota beta.
    rewrite Hres. f_equal. lia.
  - destruct (Hdigits n 1) as (c & r & Heq & Hsp & H43 & H45 & Hres); [lia |].
    rewrite Heq. change ((c :: r) ++ b2) with (c :: r ++ b2).
    rewrite skip_space_blanks by assumption.
    rewrite H43, H45. cbv iota beta.
    rewrite Hres. f_equal. lia.
Qed.

Lemma py_int_blanks (n : Z) (b1 b2 : pystr) :
  Forall (fun c => Py_ISSPACE c = true) b1 ->
  Forall (fun c => Py_ISSPACE c = true) b2 ->
  py_int (b1 ++ int_repr n ++ b2) = Some n.
Proof.
  intros Hb1 Hb2. unfold py_int, ascii_copy.
  replace (forallb (fun c => c <? 128) (b1 ++ int_repr n ++ b2)) with true.
  - apply PyLong_FromString_blanks; assumption.
  - symmetry. rewrite !forallb_app. rewrite !andb_true_iff. repeat split.
    + apply forallb_forall. intros c Hin. rewrite Forall_forall in Hb1.
      apply Hb1, Py_ISSPACE_range in Hin. apply Z.ltb_lt. lia.
    + apply forallb_forall. intros c Hin.
      pose proof (int_repr_printable n) as Hp. rewrite Forall_forall in Hp.
      specialize (Hp _ Hin). unfold printable in Hp. apply Z.ltb_lt. lia.
    + apply forallb_forall. intros c Hin. rewrite Forall_forall in Hb2.
      apply Hb2, Py_ISSPACE_range in Hin. apply Z.ltb_lt. lia.
Qed.

Lemma blank_no_newline (b : pystr) : Forall blank b -> ~ In 10 b.
Proof.
  intros Hb Hin. rewrite Forall_forall in Hb. destruct (Hb _ Hin) as [_ H]. congruence.
Qed.

Lemma blank_space (b : pystr) : Forall blank b -> Forall (fun c => Py_ISSPACE c = true) b.
Proof. apply Forall_impl. intros c [H _]. exact H. Qed.

(** A header line that holds the tag, blanks, the digits of [n] and
    blanks: the next line is skipped and the body is the [n] characters
    that follow it. *)
Lemma read_frame_line (n : Z) (b1 b2 in1 : pystr) :
  Forall blank b1 -> Forall blank b2 ->
  read_frame (lit "Content-Length:" ++ b1 ++ int_repr n ++ b2 ++ 10 :: in1)
  = let '(_, in2) := readline in1 in
    match read n in2 with
    | None => ReadFails (Fatal OverflowError) in2
    | Some (body, in3) =>
        match json_loads body with
        | Ok message => Message message in3
        | Raise e => ReadFails (Fatal e) in3
        | Unmodelled => ReadFails NoModel in3
        | OutOfFuel => ReadFails NoFuel in3
        end
    end.
Proof.
  intros Hb1 Hb2. unfold read_frame.
  assert (Hline : readline (lit "Content-Length:" ++ b1 ++ int_repr n ++ b2 ++ 10 :: in1)
                  = (lit "Content-Length:" ++ b1 ++ int_repr n ++ b2 ++ [10], in1)).
  { replace (lit "Content-Length:" ++ b1 ++ int_repr n ++ b2 ++ 10 :: in1)
      with ((lit "Content-Length:" ++ b1 ++ int_repr n ++ b2) ++ 10 :: in1)
      by (rewrite <- !app_assoc; reflexivity).
    rewrite readline_line; [rewrite <- !app_assoc; reflexivity |].
    rewrite !in_app_iff. intros [H | [H | [H | H]]].
    - revert H. eval_lits. cbn [In]. lia.
    - revert H. apply blank_no_newline, Hb1.
    - revert H. apply printable_no_newline, int_repr_printable.
    - revert H. apply blank_no_newline, Hb2. }
  rewrite Hline.
  replace (len (lit "Content-Length:" ++ b1 ++ int_repr n ++ b2 ++ [10]) =? 0)
    with false by (unfold len; rewrite !length_app; cbn [List.length]; cmp_false).
  rewrite startswith_app. cbn [negb].
  change 15%nat with (List.length (lit "Content-Length:")).
  rewrite skipn_prefix.
  rewrite py_int_blanks;
    [| apply blank_space, Hb1
     | apply Forall_app; split; [apply blank_space, Hb2 | repeat constructor]].
  reflexivity.
Qed.

(** The frame as the server itself writes the header. *)
Lemma read_frame_declared (n : Z) (input : pystr) :
  read_frame (lit "Content-Length: " ++ int_repr n ++ [13; 10; 13; 10] ++ input)
  = match read n input with
    | None => ReadFails (Fatal OverflowError) input
    | Some (body, in3) =>
        match json_loads body with
        | Ok message => Message message in3
        | Raise e => ReadFails (Fatal e) in3
        | Unmodelled => ReadFails NoModel in3
        | OutOfFuel => ReadFails NoFuel in3
        end
    end.
Proof.
  change (lit "Content-Length: " ++ int_repr n ++ [13; 10; 13; 10] ++ input)
    with (lit "Content-Length:" ++ [32] ++ int_repr n ++ [13] ++ 10 :: 13 :: 10 :: input).
  rewrite read_frame_line; [reflexivity | |]; repeat constructor; discriminate.
Qed.

(** ** Frames of other shapes *)

Lemma utf8_char_length (c : Z) (bs : list Z) :
  utf8_char c = Some bs -> (1 <= List.length bs <= 4)%nat.
Proof.
  unfold utf8_char. intros H.
  repeat match type of H with
         | (if ?b then _ else _) = _ => destruct b
         end; try discriminate; injection H as <-; cbn; lia.
Qed.

Lemma utf8_encode_length (s : pystr) :
  forall data,
    utf8_encode s = Some data ->
    (List.length s <= List.length data <= 4 * List.length s)%nat.
Proof.
  induction s as [| c s IH]; intros data H; cbn [utf8_encode] in H.
  - injection H as <-. cbn. lia.
  - destruct (utf8_char c) as [bs |] eqn:Hc; [| discriminate].
    destruct (utf8_encode s) as [rest |]; [| discriminate].
    injection H as <-. apply utf8_char_length in Hc. specialize (IH rest eq_refl).
    rewrite length_app. cbn [List.length]. lia.
Qed.

Lemma read_split (body rest : pystr) (k : nat) :
  (k <= 3 * List.length body)%nat ->
  read (Z.of_nat (List.length body + k)) (body ++ rest)
  = Some (body ++ firstn k rest, skipn k rest).
Proof.
  intros Hk. rewrite read_within by (unfold len; rewrite length_app; lia).
  rewrite Nat2Z.id. rewrite firstn_app, skipn_app.
  replace (List.length body + k - List.length body)%nat with k by lia.
  rewrite firstn_all2, skipn_all2 by lia. reflexivity.
Qed.


(** A length outside it. *)
Lemma read_overflows (n : Z) (s : pystr) :
  n < PY_SSIZE_T_MIN \/ PY_SSIZE_T_MAX < n -> sendable s = true -> read n s = None.
Proof.
  intros Hn Hs. unfold read. rewrite Hs, andb_true_r.
  replace ((n <? PY_SSIZE_T_MIN) || (PY_SSIZE_T_MAX <? n)) with true; [reflexivity |].
  symmetry. apply orb_true_iff. rewrite !Z.ltb_lt. exact Hn.
Qed.




(** Around the digits of the declared length, any blanks may stand: the
    space after the colon and the carriage return at the end of the line
    are not required. *)
Theorem header_value_blanks (n : Z) (b1 b2 rest : pystr) :
  Forall blank b1 -> Forall blank b2 ->
  read_frame (lit "Content-Length:" ++ b1 ++ int_repr n ++ b2 ++ 10 :: rest)
  = read_frame (lit "Content-Length: " ++ int_repr n ++ 13 :: 10 :: rest).
Proof.
  intros Hb1 Hb2.
  change (lit "Content-Length: " ++ int_repr n ++ 13 :: 10 :: rest)
    with (lit "Content-Length:" ++ [32] ++ int_repr n ++ [13] ++ 10 :: rest).
  rewrite !read_frame_line; trivial; repeat constructor; discriminate.
Qed.



(** A declared length that does not fit the index type ends the program:
    [sys.stdin.read] raises OverflowError before it reads anything, so what
    follows the separator line is left unread. *)
Theorem length_out_of_range_is_fatal (w : world) (n : Z) (input : pystr) :
  n < PY_SSIZE_T_MIN \/ PY_SSIZE_T_MAX < n ->
  sendable input = true ->
  stdin w = lit "Content-Length: " ++ int_repr n ++ [13; 10; 13; 10] ++ input ->
  step w = (Fatal OverflowError, set_stdin w input) /\
  server w = (Fatal OverflowError, set_stdin w input).
Proof.
  intros Hn Hs Hin.
  assert (Hstep : step w = (Fatal OverflowError, set_stdin w input)).
  { unfold step. rewrite Hin, read_frame_declared, read_overflows by assumption.
    reflexivity. }
  split; [exact Hstep |].
  unfold server. cbn [run]. rewrite Hstep. reflexivity.
Qed.

(** ** The loop, iteration by iteration *)

Lemma run_fuel (fuel1 : nat) :
  forall fuel2 w,
    (List.length (stdin w) < fuel1)%nat -> (List.length (stdin w) < fuel2)%nat ->
    run fuel1 w = run fuel2 w.
Proof.
  induction fuel1 as [| fuel1 IH]; intros fuel2 w H1 H2; [lia |].
  destruct fuel2 as [| fuel2]; [lia |].
  cbn [run]. destruct (step_consumes w) as [_ Hlt].
  destruct (step w) as [st w']. cbn [fst snd] in Hlt.
  destruct st; try reflexivity.
  specialize (Hlt eq_refl). apply IH; lia.
Qed.

(** The program is its first iteration followed, when that one continues,
    by the program on what is left. *)
Lemma server_step (w : world) :
  server w = match step w with
             | (Continue, w') => server w'
             | stopped => stopped
             end.
Proof.
  unfold server at 1. cbn [run]. destruct (step_consumes w) as [_ Hlt].
  destruct (step w) as [st w']. cbn [fst snd] in Hlt.
  destruct st; try reflexivity.
  specialize (Hlt eq_refl). unfold server. apply run_fuel; lia.
Qed.

Lemma frames_cons (message : json) (more : list json) :
  frames (message :: more) = frame_text (json_dumps message) ++ frames more.
Proof. reflexivity. Qed.

Lemma server_session_from (messages : list json) :
  forallb json_value messages = true ->
  forall out,
    server {| stdin := frames messages; stdout := out; peer_reads := None |}
    = let '(st, written, unread) := session messages in
      (st, {| stdin := frames unread; stdout := out ++ frames written;
              peer_reads := None |}).
Proof.
  induction messages as [| message more IH]; intros Hwf out.
  - cbn. rewrite app_nil_r. reflexivity.
  - cbn [forallb] in Hwf. apply andb_true_iff in Hwf. destruct Hwf as [Hm Hmore].
    specialize (IH Hmore).
    rewrite server_step.
    assert (Hread : read_frame (frames (message :: more)) = Message message (frames more)).
    { rewrite frames_cons, read_frame_frame, json_loads_dumps by exact Hm. reflexivity. }
    rewrite (step_message _ message (frames more)) by exact Hread.
    cbn [session]. destruct (dispatch message) as [response | | | e].
    + unfold send. destruct (truthy response).
      * rewrite utf8_encode_ascii by apply frame_text_ascii.
        unfold write, set_stdin. cbn [peer_reads stdin stdout].
        rewrite IH. destruct (session more) as [[st written] unread].
        cbn [app]. rewrite frames_cons, app_assoc. reflexivity.
      * unfold set_stdin. cbn [peer_reads stdin stdout].
        rewrite IH. destruct (session more) as [[st written] unread]. reflexivity.
    + unfold set_stdin. cbn [peer_reads stdin stdout]. apply IH.
    + unfold set_stdin. cbn [peer_reads stdin stdout frames flat_map].
      rewrite app_nil_r. reflexivity.
    + unfold set_stdin. cbn [peer_reads stdin stdout frames flat_map].
      rewrite app_nil_r. reflexivity.
Qed.

(** A run on a sequence of frames: the output is the frames of the
    responses of the if/elif chain, in the order of the requests, up to the
    first envelope that ends the loop; the frames after that one are left
    unread. *)
Theorem server_session (messages : list json) :
  forallb json_value messages = true ->
  server (start (frames messages))
  = let '(st, written, unread) := session messages in
    (st, {| stdin := frames unread; stdout := frames written; peer_reads := None |}).
Proof.
  intros Hwf. unfold start. rewrite server_session_from by exact Hwf.
  destruct (session messages) as [[st written] unread]. reflexivity.
Qed.

(** ** What is written *)

Lemma frame_text_bytes (response : json) :
  Forall frame_byte (frame_text (json_dumps response)).
Proof.
  assert (Hp : forall s, Forall printable s -> Forall frame_byte s).
  { intros s. apply Forall_impl. intros c H. left. exact H. }
  unfold frame_text. eval_lits.
  apply Forall_app. split; [repeat (constructor; [left; lia |]); constructor |].
  apply Forall_app. split; [apply Hp, int_repr_printable |].
  apply Forall_app. split; [| apply Hp, json_dumps_printable].
  repeat (constructor; [right; lia |]). constructor.
Qed.

Lemma frames_bytes (responses : list json) : Forall frame_byte (frames responses).
Proof.
  induction responses as [| response more IH]; [constructor |].
  rewrite frames_cons. apply Forall_app. split; [apply frame_text_bytes | exact IH].
Qed.

(** Every byte a run writes is printable ASCII, a carriage return or a line
    feed: whatever the envelopes hold, what is echoed is escaped. *)
Theorem server_output_is_ascii (w : world) :
  exists written,
    stdout (snd (server w)) = stdout w ++ written /\ Forall frame_byte written.
Proof.
  destruct (run_output (S (List.length (stdin w))) w) as [responses H].
  exists (frames responses). split; [exact H | apply frames_bytes].
Qed.

(** When the peer has closed the output, the iteration that has a response
    to write leaves the loop: the program ends normally, with nothing
    written and the input after the frame unread. *)
Theorem closed_peer_ends_the_loop (w : world) (message response : json) (rest : pystr) :
  peer_reads w = Some O ->
  read_frame (stdin w) = Message message rest ->
  dispatch message = Respond response -> truthy response = true ->
  step w = (Break, set_stdin w rest) /\ server w = (Break, set_stdin w rest).
Proof.
  intros Hpeer Hread Hd Ht.
  assert (Hstep : step w = (Break, set_stdin w rest)).
  { rewrite (step_message w message rest Hread), Hd, send_truthy by exact Ht.
    unfold write, set_stdin. cbn [peer_reads]. rewrite Hpeer. reflexivity. }
  split; [exact Hstep |]. rewrite server_step, Hstep. reflexivity.
Qed.

(** ** Envelopes the chain cannot read *)

(** The chain reads [message["method"]] first: a body that is no object
    raises TypeError and an object without that key KeyError, id or no id;
    the program ends there, with nothing written. *)
Theorem envelope_without_method_is_fatal (w : world) (message : json) (rest : pystr) :
  read_frame (stdin w) = Message message rest ->
  field message "method" = None ->
  let e := match message with JObj _ => KeyError | _ => TypeError end in
  step w = (Fatal e, set_stdin w rest) /\ server w = (Fatal e, set_stdin w rest).
Proof.
  intros Hread Hfield e.
  assert (Hstep : step w = (Fatal e, set_stdin w rest)).
  { rewrite (step_message w message rest Hread). subst e.
    destruct message as [| b | n | s | items | d]; try reflexivity.
    cbn [field] in Hfield. unfold dispatch. rewrite Hfield. reflexivity. }
  split; [exact Hstep |]. rewrite server_step, Hstep. reflexivity.
Qed.

(** Of an envelope the chain reads the method and the id, nothing else:
    two envelopes that agree on these get the same treatment. *)
Theorem dispatch_reads_method_and_id (d d' : list (pystr * json)) :
  dict_get d (lit "method") = dict_get d' (lit "method") ->
  dict_get d (lit "id") = dict_get d' (lit "id") ->
  dispatch (JObj d) = dispatch (JObj d').
Proof.
  intros Hmethod Hid. unfold dispatch, with_id, dict_contains.
  rewrite Hmethod, Hid. reflexivity.
Qed.

(** ** Exceptions *)










(** The byte-level view of a frame a conforming peer sends: the header
    declares the number of bytes of the body.  The text the server reads is
    the decoding of these bytes, and its frame reader takes as many
    characters as the header says: the body and, past it, as many characters
    as the encoding of the body has bytes in excess.  For an ASCII body the
    excess is zero and the frame is read exactly. *)
Theorem conforming_frame_read (body rest : pystr) (data wire : list byte) :
  utf8_encode body = Some data ->
  utf8_encode (lit "Content-Length: " ++ int_repr (len data) ++ [13; 10; 13; 10]
               ++ body ++ rest) = Some wire ->
  let surplus := (List.length data - List.length body)%nat in
  exists input,
    utf8_decode wire = Some input /\
    read_frame input
    = match json_loads (body ++ firstn surplus rest) with
      | Ok message => Message message (skipn surplus rest)
      | Raise e => ReadFails (Fatal e) (skipn surplus rest)
      | Unmodelled => ReadFails NoModel (skipn surplus rest)
      | OutOfFuel => ReadFails NoFuel (skipn surplus rest)
      end /\
    (Forall (fun c => 0 <= c < 128) body -> surplus = O).
Proof.
  intros Hdata Hwire surplus.
  exists (lit "Content-Length: " ++ int_repr (len data) ++ [13; 10; 13; 10] ++ body ++ rest).
  split; [| split].
  - apply utf8_decode_encoded, Hwire.
  - rewrite read_frame_declared.
    pose proof (utf8_encode_length body data Hdata) as Hlen.
    unfold len. replace (List.length data) with (List.length body + surplus)%nat
      by (subst surplus; lia).
    rewrite read_split by (subst surplus; lia). reflexivity.
  - intros Hascii. rewrite utf8_encode_ascii in Hdata by exact Hascii.
    apply Some_eq in Hdata. subst data surplus. lia.
Qed.

Lemma dispatch_responds (d : list (pystr * json)) (method id : json) :
  dict_get d (lit "method") = Some method ->
  dict_get d (lit "id") = Some id ->
  eq_str method (lit "build/initialized") || eq_str method (lit "build/exit") = false ->
  exists response,
    dispatch (JObj d) = Respond response /\ truthy response = true /\
    field response "id" = Some id.
Proof.
  intros Hmethod Hid Hquiet. apply orb_false_iff in Hquiet. destruct Hquiet as [H1 H2].
  unfold dispatch, with_id, dict_contains. rewrite Hmethod, Hid, H1, H2.
  repeat match goal with
         | |- context [if ?b then _ else _] => destruct b
         end; eexists; repeat split; reflexivity.
Qed.

(** A request on the wire and its answer: the server, given the frame of an
    envelope with an id (and a method other than build/initialized and
    build/exit), writes bytes that decode to one frame, and that frame reads
    back as a response with the id of the request. *)
Theorem request_round_trip (d : list (pystr * json)) (method id : json) :
  repr_is_scalar rt ->
  json_value (JObj d) = true ->
  dict_get d (lit "method") = Some method ->
  dict_get d (lit "id") = Some id ->
  eq_str method (lit "build/initialized") || eq_str method (lit "build/exit") = false ->
  exists text response,
    utf8_decode (stdout (snd (server (start (frames [JObj d]))))) = Some text /\
    read_frame text = Message response [] /\
    field response "id" = Some id.
Proof.
  intros Hrepr Hwf Hmethod Hid Hquiet.
  destruct (dispatch_responds d method id Hmethod Hid Hquiet) as (response & Hd & Ht & Hrid).
  assert (Hvalue : json_value response = true)
    by (apply (dispatch_value (JObj d)); assumption).
  exists (frame_text (json_dumps response)), response.
  assert (Hout : stdout (snd (server (start (frames [JObj d]))))
                 = frame_text (json_dumps response)).
  { unfold start. rewrite server_session_from
      by (cbn [forallb]; rewrite Hwf; reflexivity).
    cbn [session]. rewrite Hd, Ht. cbn [snd stdout app frames flat_map].
    rewrite app_nil_r. reflexivity. }
  rewrite Hout.
  split; [apply utf8_decode_ascii, frame_text_ascii |].
  split; [apply read_frame_own_frame, Hvalue | exact Hrid].
Qed.

(** What the server has decoded it can echo: a value [json.loads] read from
    text decoded from UTF-8 is written by [json.dumps] in a form that
    [json.loads] reads back as the same value.  The ids the replies carry
    are such values. *)
Theorem echoed_value_round_trip (body : pystr) (v : json) :
  forallb scalar body = true -> json_loads body = Ok v ->
  json_loads (json_dumps v) = Ok v.
Proof.
  intros Hbody Hloads. apply json_loads_dumps.
  apply (json_loads_value body); assumption.
Qed.

End ServerProperties.

(** * The statements at concrete sessions *)

#[local] Existing Instance ascii_runtime.

Lemma unhandled_method_reply_witness :
  read_frame (stdin session_unknown)
  = Message (request (JInt 9) "foo/bar") (frames [notification "build/exit"]) /\
  recognized (JStr (lit "foo/bar")) = false /\
  peer_reads session_unknown <> Some O /\
  step session_unknown
  = (Continue,
     replied session_unknown (frames [notification "build/exit"])
       (frame_text (json_dumps
          (error_response (JInt 9) (lit "unhandled method foo/bar"))))).
Proof.
  assert (Hread : read_frame (stdin session_unknown)
                  = Message (request (JInt 9) "foo/bar")
                            (frames [notification "build/exit"]))
    by (vm_compute; reflexivity).
  assert (Hpeer : peer_reads session_unknown <> Some O) by discriminate.
  split; [exact Hread |]. split; [reflexivity |]. split; [exact Hpeer |].
  exact (proj2 (proj2 (unhandled_method_reply session_unknown _
                         (JStr (lit "foo/bar")) _ Hread eq_refl eq_refl)) Hpeer).
Defined.

Lemma response_frame_round_trip_witness :
  json_value (result_response (JInt 7) JNull) = true /\
  exists data text,
    utf8_encode (frame_text (json_dumps (result_response (JInt 7) JNull))) = Some data /\
    utf8_decode data = Some text /\
    read_frame text = Message (result_response (JInt 7) JNull) [].
Proof.
  split; [reflexivity |].
  apply (response_frame_round_trip (result_response (JInt 7) JNull)). reflexivity.
Defined.

(** C2 fails at a response whose id holds a high surrogate directly
    followed by a low surrogate: the server builds it from the envelope of
    [session_surrogate_pair] and writes its frame, [json.dumps] escapes the
    two code points one after the other, and the frame reader joins the two
    escapes into the one character U+1F480. *)
Lemma surrogate_pair_is_joined :
  dispatch (JObj [(lit "id", JStr [0xD83D; 0xDC80]);
                  (lit "method", JStr (lit "build/shutdown"))])
  = Respond (result_response (JStr [0xD83D; 0xDC80]) JNull) /\
  step session_surrogate_pair
  = (Continue,
     replied session_surrogate_pair []
       (frame_text (json_dumps (result_response (JStr [0xD83D; 0xDC80]) JNull)))) /\
  (exists data text,
     utf8_encode (frame_text (json_dumps (result_response (JStr [0xD83D; 0xDC80]) JNull)))
     = Some data /\
     utf8_decode data = Some text /\
     read_frame text = Message (result_response (JStr [0x1F480]) JNull) []) /\
  result_response (JStr [0x1F480]) JNull
  <> result_response (JStr [0xD83D; 0xDC80]) JNull.
Proof.
  split; [reflexivity |]. split; [vm_compute; reflexivity |]. split.
  - exists (frame_text (json_dumps (result_response (JStr [0xD83D; 0xDC80]) JNull))),
           (frame_text (json_dumps (result_response (JStr [0xD83D; 0xDC80]) JNull))).
    vm_compute. repeat split; reflexivity.
  - discriminate.
Qed.

(** C3 fails at build/initialized sent with id 1: the envelope carries an
    id, and the run ends with nothing written. *)
Lemma initialized_request_gets_no_response :
  read_frame (stdin session_initialized_with_id)
  = Message (request (JInt 1) "build/initialized") [] /\
  field (request (JInt 1) "build/initialized") "id" = Some (JInt 1) /\
  server session_initialized_with_id = (Break, set_stdin session_initialized_with_id []) /\
  stdout (snd (server session_initialized_with_id)) = [].
Proof. vm_compute. repeat split; reflexivity. Qed.

Lemma request_gets_one_response_witness :
  read_frame (stdin session_shutdown)
  = Message (request (JInt 7) "build/shutdown") (frames [notification "build/exit"]) /\
  peer_reads session_shutdown <> Some O /\
  exists response,
    field response "id" = Some (JInt 7) /\
    step session_shutdown
    = (Continue,
       replied session_shutdown (frames [notification "build/exit"])
         (frame_text (json_dumps response))).
Proof.
  assert (Hread : read_frame (stdin session_shutdown)
                  = Message (request (JInt 7) "build/shutdown")
                            (frames [notification "build/exit"]))
    by (vm_compute; reflexivity).
  assert (Hpeer : peer_reads session_shutdown <> Some O) by discriminate.
  split; [exact Hread |]. split; [exact Hpeer |].
  exact (request_gets_one_response session_shutdown _
           (JStr (lit "build/shutdown")) (JInt 7) _ Hread eq_refl eq_refl Hpeer).
Defined.

(** C4 at build/initialize sent without an id: the iteration raises
    KeyError, and so does the run. *)
Theorem initialize_without_id_is_fatal :
  read_frame (stdin session_initialize_without_id)
  = Message (notification "build/initialize") [] /\
  field (notification "build/initialize") "id" = None /\
  step session_initialize_without_id
  = (Fatal KeyError, set_stdin session_initialize_without_id []) /\
  server session_initialize_without_id
  = (Fatal KeyError, set_stdin session_initialize_without_id []).
Proof. vm_compute. repeat split; reflexivity. Qed.

Lemma notification_writes_nothing_witness :
  read_frame (stdin session_notification)
  = Message (notification "foo/bar") (frames [request (JInt 1) "build/initialize"]) /\
  field (notification "foo/bar") "id" = None /\
  stdout (snd (step session_notification)) = stdout session_notification.
Proof.
  assert (Hread : read_frame (stdin session_notification)
                  = Message (notification "foo/bar")
                            (frames [request (JInt 1) "build/initialize"]))
    by (vm_compute; reflexivity).
  split; [exact Hread |]. split; [reflexivity |].
  exact (notification_writes_nothing session_notification _ _ Hread eq_refl).
Defined.



(** C8 at a frame whose body is not pure ASCII: the bytes are valid UTF-8,
    the declared length 15 is the number of bytes of the body, the body
    alone parses, yet the server takes 15 characters, one past the body,
    and fails on them. *)
Theorem accented_body_is_overread :
  List.length accented_body = 15%nat /\
  (exists body, utf8_decode accented_body = Some body /\
                List.length body = 14%nat /\
                json_loads body = Ok (JObj [(lit "method", JStr [233])])) /\
  exists text,
    utf8_decode accented_input = Some text /\
    step (start text)
    = (Fatal JSONDecodeError,
       set_stdin (start text) (skipn 1 (frames [notification "build/exit"]))).
Proof.
  split; [reflexivity |]. split.
  - eexists. split; [vm_compute; reflexivity |]. split; vm_compute; reflexivity.
  - eexists. split; [vm_compute; reflexivity |]. vm_compute. reflexivity.
Qed.

Lemma exit_ends_the_loop_witness :
  read_frame (stdin session_exit)
  = Message (notification "build/exit") (frames [request (JInt 1) "build/initialize"]) /\
  step session_exit
  = (Break, set_stdin session_exit (frames [request (JInt 1) "build/initialize"])) /\
  server session_exit
  = (Break, set_stdin session_exit (frames [request (JInt 1) "build/initialize"])).
Proof.
  assert (Hread : read_frame (stdin session_exit)
                  = Message (notification "build/exit")
                            (frames [request (JInt 1) "build/initialize"]))
    by (vm_compute; reflexivity).
  split; [exact Hread |].
  pose proof (exit_ends_the_loop session_exit _ _ Hread eq_refl) as (Hstep & Hserver & _).
  split; assumption.
Defined.

Lemma target_sources_reply_witness :
  exists response,
    dispatch (request (JInt 2) "buildTarget/sources") = Respond response /\
    field response "id" = Some (JInt 2) /\
    List.length (result_items response) = 2%nat.
Proof.
  destruct (target_sources_reply
              [(lit "jsonrpc", JStr (lit "2.0")); (lit "id", JInt 2);
               (lit "method", JStr (lit "buildTarget/sources"))]
              (JInt 2) eq_refl eq_refl)
    as (response & Hd & Hid & Hlen & _).
  exists response. repeat split; assumption.
Defined.

Lemma initialize_reply_witness :
  exists response result,
    dispatch (request (JInt 1) "build/initialize") = Respond response /\
    field response "result" = Some result /\
    field result "bspVersion" = Some (JStr (lit "2.0")).
Proof.
  destruct (initialize_reply
              [(lit "jsonrpc", JStr (lit "2.0")); (lit "id", JInt 1);
               (lit "method", JStr (lit "build/initialize"))]
              (JInt 1) eq_refl eq_refl)
    as (response & result & capabilities & Hd & _ & Hres & Hbsp & _).
  exists response, result. repeat split; assumption.
Defined.

Lemma shutdown_reply_witness :
  dispatch (request (JInt 7) "build/shutdown") = Respond (result_response (JInt 7) JNull).
Proof.
  exact (proj1 (shutdown_reply
                  [(lit "jsonrpc", JStr (lit "2.0")); (lit "id", JInt 7);
                   (lit "method", JStr (lit "build/shutdown"))]
                  (JInt 7) eq_refl eq_refl)).
Defined.

Lemma written_frames_read_back_witness :
  forallb scalar (stdin session_unknown) = true /\
  exists data text,
    utf8_encode (frame_text (json_dumps
       (error_response (JInt 9) (lit "unhandled method foo/bar")))) = Some data /\
    utf8_decode data = Some text /\
    read_frame text
    = Message (error_response (JInt 9) (lit "unhandled method foo/bar")) [].
Proof.
  assert (Hin : forallb scalar (stdin session_unknown) = true) by (vm_compute; reflexivity).
  assert (Hread : read_frame (stdin session_unknown)
                  = Message (request (JInt 9) "foo/bar")
                            (frames [notification "build/exit"]))
    by (vm_compute; reflexivity).
  split; [exact Hin |].
  exact (written_frames_read_back session_unknown _ _ _ ascii_runtime_repr Hin Hread eq_refl).
Defined.

Lemma response_echoes_id_witness :
  exists id,
    field (request (JInt 7) "build/shutdown") "id" = Some id /\
    field (result_response (JInt 7) JNull) "id" = Some id.
Proof.
  exact (response_echoes_id (request (JInt 7) "build/shutdown")
           (result_response (JInt 7) JNull) eq_refl eq_refl).
Defined.


Lemma header_value_blanks_witness :
  Forall blank [9; 32] /\
  read_frame (lit "Content-Length:" ++ [9; 32] ++ int_repr 2 ++ [] ++ 10 :: 10 :: lit "{}")
  = read_frame (lit "Content-Length: " ++ int_repr 2 ++ 13 :: 10 :: 10 :: lit "{}").
Proof.
  assert (H : Forall blank [9; 32]) by (repeat constructor; discriminate).
  split; [exact H |].
  exact (header_value_blanks 2 [9; 32] [] (10 :: lit "{}") H (Forall_nil _)).
Defined.



Lemma length_out_of_range_is_fatal_witness :
  PY_SSIZE_T_MAX < 9223372036854775808 /\
  server session_length_overflow
  = (Fatal OverflowError,
     set_stdin session_length_overflow (json_dumps (notification "build/exit"))).
Proof.
  assert (H : PY_SSIZE_T_MAX < 9223372036854775808) by reflexivity.
  split; [exact H |].
  exact (proj2 (length_out_of_range_is_fatal session_length_overflow
                  9223372036854775808 (json_dumps (notification "build/exit"))
                  (or_intror H) eq_refl eq_refl)).
Defined.

Lemma conforming_frame_read_witness :
  utf8_encode accented_text = Some accented_body /\
  exists input,
    utf8_decode accented_input = Some input /\
    read_frame input
    = ReadFails (Fatal JSONDecodeError) (skipn 1 (frames [notification "build/exit"])).
Proof.
  assert (Hdata : utf8_encode accented_text = Some accented_body)
    by (vm_compute; reflexivity).
  assert (Hwire : utf8_encode (lit "Content-Length: " ++ int_repr (len accented_body)
                               ++ [13; 10; 13; 10] ++ accented_text
                               ++ frames [notification "build/exit"])
                  = Some accented_input)
    by (vm_compute; reflexivity).
  split; [exact Hdata |].
  destruct (conforming_frame_read accented_text (frames [notification "build/exit"])
              accented_body accented_input Hdata Hwire)
    as (input & Hdecode & Hread & _).
  exists input. split; [exact Hdecode |].
  rewrite Hread. vm_compute. reflexivity.
Defined.

Lemma server_session_witness :
  server (start (frames conversation))
  = (Break,
     {| stdin := frames [request (JInt 5) "build/initialize"];
        stdout := frames [result_response (JInt 1) initialize_result;
                          result_response (JInt 2) sources_result;
                          error_response (JInt 3) (lit "unhandled method foo/bar");
                          result_response (JInt 4) JNull];
        peer_reads := None |}).
Proof. exact (server_session conversation eq_refl). Defined.

Lemma closed_peer_ends_the_loop_witness :
  peer_reads session_closed_peer = Some O /\
  server session_closed_peer
  = (Break, set_stdin session_closed_peer (frames [notification "build/exit"])) /\
  stdout (snd (server session_closed_peer)) = [].
Proof.
  assert (Hread : read_frame (stdin session_closed_peer)
                  = Message (request (JInt 7) "build/shutdown")
                            (frames [notification "build/exit"]))
    by (vm_compute; reflexivity).
  pose proof (proj2 (closed_peer_ends_the_loop session_closed_peer _
                       (result_response (JInt 7) JNull) _
                       eq_refl Hread eq_refl eq_refl)) as H.
  split; [reflexivity |]. split; [exact H |]. rewrite H. reflexivity.
Defined.

Lemma envelope_without_method_is_fatal_witness :
  server session_no_method = (Fatal KeyError, set_stdin session_no_method []).
Proof.
  assert (Hread : read_frame (stdin session_no_method)
                  = Message (JObj [(lit "jsonrpc", JStr (lit "2.0")); (lit "id", JInt 1)]) [])
    by (vm_compute; reflexivity).
  exact (proj2 (envelope_without_method_is_fatal session_no_method _ _ Hread eq_refl)).
Defined.

Lemma dispatch_reads_method_and_id_witness :
  dispatch (JObj request_with_params) = dispatch (request (JInt 2) "buildTarget/sources").
Proof.
  exact (dispatch_reads_method_and_id request_with_params
           [(lit "jsonrpc", JStr (lit "2.0")); (lit "id", JInt 2);
            (lit "method", JStr (lit "buildTarget/sources"))]
           eq_refl eq_refl).
Defined.


Lemma request_round_trip_witness :
  exists text response,
    utf8_decode (stdout (snd (server (start (frames [request (JInt 9) "foo/bar"])))))
    = Some text /\
    read_frame text = Message response [] /\
    field response "id" = Some (JInt 9).
Proof.
  exact (request_round_trip
           [(lit "jsonrpc", JStr (lit "2.0")); (lit "id", JInt 9);
            (lit "method", JStr (lit "foo/bar"))]
           (JStr (lit "foo/bar")) (JInt 9)
           ascii_runtime_repr eq_refl eq_refl eq_refl eq_refl).
Defined.

Lemma echoed_value_round_trip_witness :
  json_loads escaped_string = Ok (JStr [0x1F600; 32; 34; 32; 233]) /\
  json_loads (json_dumps (JStr [0x1F600; 32; 34; 32; 233]))
  = Ok (JStr [0x1F600; 32; 34; 32; 233]).
Proof.
  assert (H : json_loads escaped_string = Ok (JStr [0x1F600; 32; 34; 32; 233]))
    by (vm_compute; reflexivity).
  split; [exact H |].
  exact (echoed_value_round_trip escaped_string _ eq_refl H).
Defined.
